(** * git-history-normaliser: scope selection, validation and timestamp engine

    A shallow embedding of [synth/scope.py], [synth/validation.py] and
    [synth/engine.py], and the properties of the specification proved
    (or refuted) on it.

    Conventions of the embedding:
    - a Python [float] is an IEEE-754 binary64 value ([spec_float] with
      precision 53 and [emax] 1024, round to nearest even);
    - a Python [int] is a [Z];
    - a raised exception is the [Raise] branch of [result];
    - a [dict] keyed by commit hash is a [gmap string _];
    - a [datetime.date] is its proleptic Gregorian ordinal
      ([date.toordinal()]). *)

From Stdlib Require Import ZArith Lia List Bool Ascii String Sorted.
From Stdlib Require Import Floats.SpecFloat.
From stdpp Require Import base option list strings pretty gmap fin_maps.

Local Open Scope Z_scope.
#[local] Set Warnings "-register-all".

(** ** Exceptions and results *)

Abbreviation float := spec_float.

Inductive exn :=
| ScopeError (fraction : float)
| EngineError (msg : string)
| ValidationError (path msg : string)
| OverflowError
| ValueError.

Inductive result (A : Type) :=
| Ok (a : A)
| Raise (e : exn).
Arguments Ok {A} a.
Arguments Raise {A} e.

Definition rbind {A B} (r : result A) (k : A -> result B) : result B :=
  match r with
  | Ok a => k a
  | Raise e => Raise e
  end.

Notation "'let*' x ':=' r 'in' k" := (rbind r (fun x => k))
  (at level 10, x pattern, r at level 200, k at level 200).

(** ** Python floats (binary64) *)

Module Float.

Definition prec : Z := 53.
Definition emax : Z := 1024.

Definition zero : float := S754_zero false.
Definition one : float := S754_finite false 4503599627370496 (-52).
Definition neg_one : float := S754_finite true 4503599627370496 (-52).

Definition leb : float -> float -> bool := SFleb.
Definition ltb : float -> float -> bool := SFltb.
Definition eqb : float -> float -> bool := SFeqb.
Definition abs : float -> float := SFabs.

(** [float(n)] for an [int]: correctly rounded, [OverflowError] when the
    integer is too large for a double. *)
Definition of_int (n : Z) : result float :=
  match binary_normalize prec emax n 0 false with
  | S754_infinity _ => Raise OverflowError
  | f => Ok f
  end.

(** [x * n] with [x] a float and [n] an int: the int is converted first. *)
Definition mul_int (x : float) (n : Z) : result float :=
  let* y := of_int n in
  Ok (SFmul prec emax x y).

(** [math.floor]: exact integer floor of a finite double. *)
Definition floor (x : float) : result Z :=
  match x with
  | S754_zero _ => Ok 0
  | S754_finite s m e => Ok (Z.shiftl (cond_Zopp s (Zpos m)) e)
  | S754_infinity _ => Raise OverflowError
  | S754_nan => Raise ValueError
  end.

(** A double as Python can hold it: canonical mantissa and exponent. *)
Definition valid (x : float) : Prop := valid_binary prec emax x = true.

(** The floor of the real product [|x| * n], without any rounding of the
    product: used only to compare the code with the exact value. *)
Definition exact_floor_abs_mul (x : float) (n : Z) : Z :=
  match x with
  | S754_finite _ m e => Z.shiftl (Zpos m * n) e
  | _ => 0
  end.

End Float.

(** ** Dates, times and instants *)

Definition date := Z.

Inductive tzinfo :=
| tz_utc
| tz_zone (name : string)
| tz_offset (minutes : Z).

Record time := mk_time { hour : Z; minute : Z; second : Z }.

Record datetime := mk_datetime {
  dt_date : date;
  dt_time : time;
  dt_tz : tzinfo
}.

(** ** Commits ([synth/repo.py]) *)

Record Commit := mk_Commit {
  hash : string;
  author_date : datetime;
  committer_date : datetime;
  index : Z;
  subject : string;
  author_name : string;
  author_email : string;
  committer_name : string;
  committer_email : string;
  refs : string
}.

(** ** Scope selection ([synth/scope.py]) *)

(** Python slice bound: a negative bound counts from the end, and every
    bound is clamped into [0, len]. *)
Definition slice_bound {A} (l : list A) (i : Z) : nat :=
  let n := Z.of_nat (length l) in
  Z.to_nat (if i <? 0 then Z.max (i + n) 0 else Z.min i n).

(** [l[:i]] *)
Definition slice_to {A} (l : list A) (i : Z) : list A :=
  take (slice_bound l i) l.

(** [l[i:]] *)
Definition slice_from {A} (l : list A) (i : Z) : list A :=
  drop (slice_bound l i) l.

Definition apply_scope (commits : list Commit) (fraction : float)
  : result (list Commit * list Commit) :=
  if negb (Float.leb Float.neg_one fraction && Float.leb fraction Float.one)
  then Raise (ScopeError fraction)
  else
    let total := Z.of_nat (length commits) in
    if (total =? 0) || Float.eqb fraction Float.zero
    then Ok ([], commits)
    else
      let* p := Float.mul_int (Float.abs fraction) total in
      let* k := Float.floor p in
      if k =? 0 then Ok ([], commits)
      else if Float.ltb Float.zero fraction
      then Ok (slice_to commits k, slice_from commits k)
      else Ok (slice_from commits (total - k), slice_to commits (total - k)).

(** ** Calendar arithmetic ([datetime] of the standard library) *)

(** [date.max.toordinal()], the ordinal of 9999-12-31. *)
Definition date_max : date := 3652059.

(** [date.weekday()]: Monday is 0, Sunday is 6. *)
Definition weekday (d : date) : Z := (d + 6) mod 7.

(** [day + timedelta(days=n)]: [OverflowError] outside year 1..9999. *)
Definition date_add_days (d : date) (n : Z) : result date :=
  let d' := d + n in
  if (1 <=? d') && (d' <=? date_max) then Ok d' else Raise OverflowError.

(** [time(h, m, s)]: [ValueError] when a field is out of range. *)
Definition make_time (h m s : Z) : result time :=
  if (0 <=? h) && (h <=? 23) && (0 <=? m) && (m <=? 59) && (0 <=? s) && (s <=? 59)
  then Ok (mk_time h m s)
  else Raise ValueError.

Definition time_seconds (t : time) : Z :=
  hour t * 3600 + minute t * 60 + second t.

(** A [timedelta] is kept as its total number of seconds; the constructor
    refuses a magnitude over 999999999 days. *)
Definition timedelta := Z.

Definition make_timedelta (minutes seconds : Z) : result timedelta :=
  let s := minutes * 60 + seconds in
  if Z.abs (s / 86400) <=? 999999999 then Ok s else Raise OverflowError.

(** [datetime.combine(day, t, tzinfo=tz)] *)
Definition combine (day : date) (t : time) (tz : tzinfo) : datetime :=
  mk_datetime day t tz.

(** [dt + delta]: wall-clock arithmetic, the time zone is kept. *)
Definition datetime_add (dt : datetime) (delta : timedelta) : result datetime :=
  let total := time_seconds (dt_time dt) + delta in
  let d := dt_date dt + total / 86400 in
  let s := total mod 86400 in
  if (0 <? d) && (d <=? date_max)
  then Ok (mk_datetime d (mk_time (s / 3600) (s mod 3600 / 60) (s mod 60)) (dt_tz dt))
  else Raise OverflowError.

(** Comparison of two instants that carry the same [tzinfo] object, the
    only comparisons the engine makes: the wall-clock fields are compared
    lexicographically and the zone is ignored. *)
Definition datetime_compare (a b : datetime) : comparison :=
  match dt_date a ?= dt_date b with
  | Eq =>
      match hour (dt_time a) ?= hour (dt_time b) with
      | Eq =>
          match minute (dt_time a) ?= minute (dt_time b) with
          | Eq => second (dt_time a) ?= second (dt_time b)
          | c => c
          end
      | c => c
      end
  | c => c
  end.

Definition datetime_ltb (a b : datetime) : bool :=
  match datetime_compare a b with Lt => true | _ => false end.

Definition datetime_leb (a b : datetime) : bool :=
  match datetime_compare a b with Gt => false | _ => true end.

(** ** Configuration records ([synth/config.py], [synth/validation.py]) *)

(** A value of a loaded YAML document ([Any]). A mapping keeps its items
    in document order; keys are unique. *)
Inductive pyval :=
| VNone
| VBool (b : bool)
| VInt (n : Z)
| VFloat (x : float)
| VStr (s : string)
| VList (items : list pyval)
| VDict (items : list (string * pyval)).

Definition pydict := list (string * pyval).

(** [d.get(key)] *)
Fixpoint dict_get (d : pydict) (key : string) : pyval :=
  match d with
  | [] => VNone
  | (k, v) :: d' => if String.eqb k key then v else dict_get d' key
  end.

Record TimestampConfig := mk_TimestampConfig { mode : string }.

Record ScopeConfig := mk_ScopeConfig { fraction : float }.

Record Config := mk_Config {
  cfg_timestamp : TimestampConfig;
  cfg_scope : ScopeConfig;
  cfg_calendar : option pydict;
  cfg_work_patterns : option pydict;
  cfg_randomness : option pydict
}.

Record ParsedCalendar := mk_ParsedCalendar {
  cal_start : date;
  cal_end : date;
  timezone_name : string;
  tz : tzinfo
}.

Record ParsedWorkHours := mk_ParsedWorkHours {
  hours_start : time;
  hours_end : time
}.

Record ParsedWorkBlock := mk_ParsedWorkBlock {
  enabled : bool;
  hours : option ParsedWorkHours
}.

Record ParsedWorkPatterns := mk_ParsedWorkPatterns {
  weekdays : ParsedWorkBlock;
  saturday : ParsedWorkBlock;
  sunday : ParsedWorkBlock
}.

Record ParsedRandomness := mk_ParsedRandomness {
  seed : option Z;
  gap_minutes_min : Z;
  gap_minutes_max : Z;
  seconds_min : Z;
  seconds_max : Z
}.

Record ValidatedConfig := mk_ValidatedConfig {
  timestamp : TimestampConfig;
  scope : ScopeConfig;
  calendar : option ParsedCalendar;
  work_patterns : option ParsedWorkPatterns;
  randomness : option ParsedRandomness
}.

(** ** The Python runtime the code calls into

    Library functions whose algorithms are not part of the repository:
    the Mersenne Twister behind [random.Random], [datetime.strptime],
    [int()] on a string, [str.strip], [str.upper] and [zoneinfo]. *)

Inductive zone_lookup :=
| zone_found
| zone_not_found
| zone_error.

Class PyRuntime := {
  rng : Type;
  entropy : Type;
  (** [random.Random(seed)] for an integer seed *)
  Random_seeded : Z -> rng;
  (** [random.Random(None)]: seeded from the operating system *)
  Random_unseeded : entropy -> rng;
  (** the draw of [randint(a, b)] and the generator after it, for [a <= b] *)
  randint_draw : rng -> Z -> Z -> Z * rng;
  (** [datetime.strptime(value, "%Y-%m-%d").date()], [None] for [ValueError] *)
  strptime_ymd : string -> option date;
  (** [int(s)], [None] for [ValueError] *)
  int_of_str : string -> option Z;
  str_strip : string -> string;
  str_upper : string -> string;
  (** [ZoneInfo(name)] *)
  ZoneInfo : string -> zone_lookup
}.

(** What the code relies on from [random]: [randint(a, b)] lies in [a..b]. *)
Class PyRuntimeLaws (RT : PyRuntime) : Prop := {
  randint_draw_range :
    forall (g : rng) (a b : Z), a <= b ->
      a <= fst (randint_draw g a b) <= b;
  (** a parsed date is a [date]: year 1 to 9999 *)
  strptime_ymd_range :
    forall (s : string) (d : date), strptime_ymd s = Some d ->
      1 <= d <= 3652059
}.

(** ** Semantic validation ([synth/validation.py]) *)

Definition is_str (v : pyval) : bool :=
  match v with VStr _ => true | _ => false end.

Definition is_mapping (v : pyval) : bool :=
  match v with VDict _ => true | _ => false end.

Definition is_bool (v : pyval) : bool :=
  match v with VBool _ => true | _ => false end.

(** [isinstance(v, int)]: [bool] is a subclass of [int]. *)
Definition isinstance_int (v : pyval) : bool :=
  match v with VInt _ | VBool _ => true | _ => false end.

Definition _is_int (value : pyval) : bool :=
  isinstance_int value && negb (is_bool value).

(** [int(v)] for a value that passed [_is_int]. *)
Definition int_value (v : pyval) : Z :=
  match v with
  | VInt n => n
  | VBool b => if b then 1 else 0
  | _ => 0
  end.

(** [value.split(sep)] for a one-character separator. *)
Fixpoint split_on (sep : Ascii.ascii) (s : string) : list string :=
  match s with
  | EmptyString => [EmptyString]
  | String a s' =>
      if Ascii.eqb a sep then EmptyString :: split_on sep s'
      else
        match split_on sep s' with
        | h :: t => String a h :: t
        | [] => [String a EmptyString]
        end
  end.

Section Validation.
Context {RT : PyRuntime}.

Definition _require_int (obj : pydict) (key path : string) : result Z :=
  let raw := dict_get obj key in
  if negb (_is_int raw)
  then Raise (ValidationError path "value must be an integer")
  else Ok (int_value raw).

Definition _resolve_timezone (path name : string) : result tzinfo :=
  let upper := str_upper name in
  if String.eqb upper "UTC" || String.eqb upper "Z" || String.eqb upper "ETC/UTC"
  then Ok tz_utc
  else
    match ZoneInfo name with
    | zone_found => Ok (tz_zone name)
    | zone_not_found =>
        Raise (ValidationError path
                 ("invalid timezone: " +:+ name +:+ ". install tzdata or set timezone to UTC"))
    | zone_error => Raise (ValidationError path ("invalid timezone: " +:+ name))
    end.

Definition _parse_time (path value : string) : result time :=
  match split_on ":"%char value with
  | [p0; p1] =>
      match int_of_str p0, int_of_str p1 with
      | Some h, Some m =>
          if negb ((0 <=? h) && (h <=? 23))
          then Raise (ValidationError path ("hour out of range: " +:+ pretty h))
          else if negb ((0 <=? m) && (m <=? 59))
          then Raise (ValidationError path ("minute out of range: " +:+ pretty m))
          else make_time h m 0
      | _, _ => Raise (ValidationError path ("invalid time: " +:+ value))
      end
  | _ => Raise (ValidationError path "time must use HH:MM format")
  end.

Definition _parse_date (path value : string) : result date :=
  match strptime_ymd value with
  | Some d => Ok d
  | None => Raise (ValidationError path ("invalid date: " +:+ value))
  end.

Definition _validate_work_block (path : string) (block : pydict)
  : result ParsedWorkBlock :=
  match dict_get block "enabled" with
  | VBool enabled_raw =>
      let hours_raw := dict_get block "hours" in
      if negb enabled_raw then
        match hours_raw with
        | VNone => Ok (mk_ParsedWorkBlock false None)
        | _ => Raise (ValidationError (path +:+ ".hours")
                        "hours must be omitted when enabled is false")
        end
      else
        match hours_raw with
        | VDict hours_map =>
            match dict_get hours_map "start" with
            | VStr start_raw =>
                match dict_get hours_map "end" with
                | VStr end_raw =>
                    let* start_t := _parse_time (path +:+ ".hours.start") start_raw in
                    let* end_t := _parse_time (path +:+ ".hours.end") end_raw in
                    (* end_t <= start_t, on times whose fields are in range *)
                    if time_seconds end_t <=? time_seconds start_t
                    then Raise (ValidationError (path +:+ ".hours.end")
                                  "end must be after hours.start")
                    else Ok (mk_ParsedWorkBlock true
                               (Some (mk_ParsedWorkHours start_t end_t)))
                | _ => Raise (ValidationError (path +:+ ".hours.end")
                                "end must be a string")
                end
            | _ => Raise (ValidationError (path +:+ ".hours.start")
                            "start must be a string")
            end
        | _ => Raise (ValidationError (path +:+ ".hours")
                        "hours must be an object when enabled is true")
        end
  | _ => Raise (ValidationError (path +:+ ".enabled") "enabled must be a boolean")
  end.

Definition validate_calendar (calendar : pydict) : result ParsedCalendar :=
  match dict_get calendar "start" with
  | VStr start_raw =>
      match dict_get calendar "end" with
      | VStr end_raw =>
          let* start := _parse_date "calendar.start" start_raw in
          let* end_ := _parse_date "calendar.end" end_raw in
          if end_ <? start
          then Raise (ValidationError "calendar" "start must be on or before end")
          else
            let* tz_name :=
              match dict_get calendar "timezone" with
              | VNone => Ok "UTC"%string
              | VStr tz_name_raw =>
                  let tz_name := str_strip tz_name_raw in
                  if String.eqb tz_name ""
                  then Raise (ValidationError "calendar.timezone"
                                "timezone must not be empty")
                  else Ok tz_name
              | _ => Raise (ValidationError "calendar.timezone"
                              "timezone must be a string")
              end in
            let* tz := _resolve_timezone "calendar.timezone" tz_name in
            Ok (mk_ParsedCalendar start end_ tz_name tz)
      | _ => Raise (ValidationError "calendar.end" "end must be a string")
      end
  | _ => Raise (ValidationError "calendar.start" "start must be a string")
  end.

Definition validate_work_patterns (work_patterns : pydict)
  : result ParsedWorkPatterns :=
  match dict_get work_patterns "weekdays" with
  | VDict weekdays_raw =>
      match dict_get work_patterns "saturday" with
      | VDict saturday_raw =>
          match dict_get work_patterns "sunday" with
          | VDict sunday_raw =>
              let* weekdays := _validate_work_block "work_patterns.weekdays" weekdays_raw in
              let* saturday := _validate_work_block "work_patterns.saturday" saturday_raw in
              let* sunday := _validate_work_block "work_patterns.sunday" sunday_raw in
              if negb (enabled weekdays || enabled saturday || enabled sunday)
              then Raise (ValidationError "work_patterns"
                            "enable at least one of weekdays, saturday, or sunday")
              else Ok (mk_ParsedWorkPatterns weekdays saturday sunday)
          | _ => Raise (ValidationError "work_patterns.sunday" "sunday must be an object")
          end
      | _ => Raise (ValidationError "work_patterns.saturday" "saturday must be an object")
      end
  | _ => Raise (ValidationError "work_patterns.weekdays" "weekdays must be an object")
  end.

Definition validate_randomness (randomness : pydict) : result ParsedRandomness :=
  let seed_raw := dict_get randomness "seed" in
  let* seed :=
    match seed_raw with
    | VNone => Ok None
    | _ =>
        if negb (_is_int seed_raw)
        then Raise (ValidationError "randomness.seed" "seed must be an integer or null")
        else Ok (Some (int_value seed_raw))
    end in
  match dict_get randomness "gap_minutes" with
  | VDict gap_raw =>
      match dict_get randomness "seconds" with
      | VDict sec_raw =>
          let* gap_min := _require_int gap_raw "min" "randomness.gap_minutes.min" in
          let* gap_max := _require_int gap_raw "max" "randomness.gap_minutes.max" in
          if (gap_min <? 0) || (gap_max <? 0)
          then Raise (ValidationError "randomness.gap_minutes"
                        "min and max must be non negative")
          else if gap_max <? gap_min
          then Raise (ValidationError "randomness.gap_minutes"
                        "min must be less than or equal to max")
          else
            let* sec_min := _require_int sec_raw "min" "randomness.seconds.min" in
            let* sec_max := _require_int sec_raw "max" "randomness.seconds.max" in
            if negb ((0 <=? sec_min) && (sec_min <=? 59))
            then Raise (ValidationError "randomness.seconds.min"
                          "min must be between 0 and 59")
            else if negb ((0 <=? sec_max) && (sec_max <=? 59))
            then Raise (ValidationError "randomness.seconds.max"
                          "max must be between 0 and 59")
            else if sec_max <? sec_min
            then Raise (ValidationError "randomness.seconds"
                          "min must be less than or equal to max")
            else Ok (mk_ParsedRandomness seed gap_min gap_max sec_min sec_max)
      | _ => Raise (ValidationError "randomness.seconds" "seconds must be an object")
      end
  | _ => Raise (ValidationError "randomness.gap_minutes" "gap_minutes must be an object")
  end.

(** Returns [Ok tt] where the Python function returns [None]. *)
Definition _forbid_synthetic_sections (cfg : Config) (mode : string) : result unit :=
  if bool_decide (cfg_calendar cfg <> None)
  then Raise (ValidationError "calendar"
                ("calendar is not allowed in " +:+ mode +:+ " mode"))
  else if bool_decide (cfg_work_patterns cfg <> None)
  then Raise (ValidationError "work_patterns"
                ("work_patterns is not allowed in " +:+ mode +:+ " mode"))
  else if bool_decide (cfg_randomness cfg <> None)
  then Raise (ValidationError "randomness"
                ("randomness is not allowed in " +:+ mode +:+ " mode"))
  else Ok tt.

Definition validate_config (cfg : Config) : result ValidatedConfig :=
  let mode := mode (cfg_timestamp cfg) in
  if String.eqb mode "author" || String.eqb mode "commit" then
    let* _ := _forbid_synthetic_sections cfg mode in
    Ok (mk_ValidatedConfig (cfg_timestamp cfg) (cfg_scope cfg) None None None)
  else if negb (String.eqb mode "synthetic") then
    Raise (ValidationError "timestamp.mode" ("unsupported mode: " +:+ mode))
  else
    match cfg_calendar cfg with
    | None => Raise (ValidationError "calendar" "missing calendar for synthetic mode")
    | Some calendar =>
        match cfg_work_patterns cfg with
        | None => Raise (ValidationError "work_patterns"
                           "missing work_patterns for synthetic mode")
        | Some work_patterns =>
            match cfg_randomness cfg with
            | None => Raise (ValidationError "randomness"
                               "missing randomness for synthetic mode")
            | Some randomness =>
                let* parsed_calendar := validate_calendar calendar in
                let* parsed_work := validate_work_patterns work_patterns in
                let* parsed_rand := validate_randomness randomness in
                Ok (mk_ValidatedConfig (cfg_timestamp cfg) (cfg_scope cfg)
                      (Some parsed_calendar) (Some parsed_work) (Some parsed_rand))
            end
        end
    end.

End Validation.

(** ** Timestamp engine ([synth/engine.py]) *)

Section Engine.
Context {RT : PyRuntime}.

(** [rng.randint(a, b)]: the generator is advanced; [ValueError] on an
    empty range. *)
Definition randint (g : rng) (a b : Z) : result (Z * rng) :=
  if b <? a then Raise ValueError else Ok (randint_draw g a b).

(** [random.Random(seed)]; [ent] stands for the operating system's
    entropy, read only when the seed is [None]. *)
Definition Random (ent : entropy) (seed : option Z) : rng :=
  match seed with
  | Some s => Random_seeded s
  | None => Random_unseeded ent
  end.

Definition insert_stamp (stamp : Commit -> datetime)
  (m : gmap string datetime) (c : Commit) : gmap string datetime :=
  <[hash c := stamp c]> m.

(** [{c.hash: c.author_date for c in commits}]: a later commit with the
    same hash replaces the earlier entry. *)
Definition _author_mode (commits : list Commit) : gmap string datetime :=
  foldl (insert_stamp author_date) ∅ commits.

Definition _commit_mode (commits : list Commit) : gmap string datetime :=
  foldl (insert_stamp committer_date) ∅ commits.

Definition _random_gap (g : rng) (gap_min gap_max sec_min sec_max : Z)
  : result (timedelta * rng) :=
  let* (minutes, g) := randint g gap_min gap_max in
  let* (seconds, g) := randint g sec_min sec_max in
  let* delta := make_timedelta minutes seconds in
  Ok (delta, g).

Definition _work_block_for_day (day : date) (work : ParsedWorkPatterns)
  : ParsedWorkBlock :=
  let weekday := weekday day in
  if weekday <=? 4 then weekdays work
  else if weekday =? 5 then saturday work
  else sunday work.

Definition exhausted : exn := EngineError "Synthetic calendar window exhausted".

(** The [while day <= end_day] loop of [_next_enabled_day]; [n] is the
    number of days from [day] to [end_day], both included, so the loop
    condition holds exactly when [n] is not zero. *)
Fixpoint _next_enabled_day_loop (n : nat) (day : date) (work : ParsedWorkPatterns)
  : result date :=
  match n with
  | O => Raise exhausted
  | S n' =>
      let block := _work_block_for_day day work in
      if enabled block then Ok day
      else
        let* day := date_add_days day 1 in
        _next_enabled_day_loop n' day work
  end.

Definition _next_enabled_day (start_day end_day : date) (work : ParsedWorkPatterns)
  : result date :=
  _next_enabled_day_loop (Z.to_nat (end_day - start_day + 1)) start_day work.

Definition _window_bounds (day : date) (hours : ParsedWorkHours) (tz : tzinfo)
  : result (datetime * datetime) :=
  let* ts := make_time (hour (hours_start hours)) (minute (hours_start hours)) 0 in
  let* te := make_time (hour (hours_end hours)) (minute (hours_end hours)) 59 in
  Ok (combine day ts tz, combine day te tz).

Definition _pick_time_in_window (g : rng) (window : time * time) (sec_min sec_max : Z)
  : result (time * rng) :=
  let '(start, end_) := window in
  let start_s := hour start * 3600 + minute start * 60 in
  let end_s := hour end_ * 3600 + minute end_ * 60 + 59 in
  if end_s <? start_s
  then Raise (EngineError "Invalid work window: end before start")
  else
    let* (chosen_s, g) := randint g start_s end_s in
    let chosen_s := chosen_s - chosen_s mod 60 in
    let chosen_s := Z.max start_s (Z.min chosen_s end_s) in
    let chosen_minute := chosen_s mod 3600 / 60 in
    let chosen_hour := chosen_s / 3600 in
    let* (chosen_second, g) := randint g sec_min sec_max in
    let* t := make_time chosen_hour chosen_minute chosen_second in
    Ok (t, g).

(** [not block.enabled or block.hours is None] is the [None] result. *)
Definition usable_hours (block : ParsedWorkBlock) : option ParsedWorkHours :=
  if enabled block then hours block else None.

Definition _random_datetime_for_day (day : date) (work : ParsedWorkPatterns)
  (g : rng) (sec_min sec_max : Z) (tz : tzinfo) : result (datetime * rng) :=
  let block := _work_block_for_day day work in
  match usable_hours block with
  | None => Raise (EngineError "Internal error: requested random time for a disabled day")
  | Some h =>
      let* (t, g) :=
        _pick_time_in_window g (hours_start h, hours_end h) sec_min sec_max in
      Ok (combine day t tz, g)
  end.

(** The [while day <= end_day] loop of [_next_valid_datetime], with [n]
    the number of days from [day] to [end_day], both included. *)
Fixpoint _next_valid_datetime_loop (n : nat) (day : date) (candidate : datetime)
  (work : ParsedWorkPatterns) (g : rng) (sec_min sec_max : Z) (tz : tzinfo)
  : result (datetime * rng) :=
  match n with
  | O => Raise exhausted
  | S n' =>
      let block := _work_block_for_day day work in
      match usable_hours block with
      | None =>
          let* day := date_add_days day 1 in
          let candidate := combine day (mk_time 0 0 0) tz in
          _next_valid_datetime_loop n' day candidate work g sec_min sec_max tz
      | Some h =>
          let* (window_start, window_end) := _window_bounds day h tz in
          if datetime_ltb candidate window_start
          then _random_datetime_for_day day work g sec_min sec_max tz
          else if datetime_leb window_start candidate
                  && datetime_leb candidate window_end
          then Ok (candidate, g)
          else
            let* day := date_add_days day 1 in
            let candidate := combine day (mk_time 0 0 0) tz in
            _next_valid_datetime_loop n' day candidate work g sec_min sec_max tz
      end
  end.

Definition _next_valid_datetime (candidate : datetime) (end_day : date)
  (work : ParsedWorkPatterns) (g : rng) (sec_min sec_max : Z) (tz : tzinfo)
  : result (datetime * rng) :=
  let day := dt_date candidate in
  _next_valid_datetime_loop (Z.to_nat (end_day - day + 1)) day candidate
    work g sec_min sec_max tz.

(** The [for commit in commits[1:]] loop of [_synthetic_mode]. *)
Fixpoint _synthetic_loop (rest : list Commit) (current : datetime)
  (results : gmap string datetime) (g : rng)
  (end_day : date) (work : ParsedWorkPatterns)
  (gap_min gap_max sec_min sec_max : Z) (tz : tzinfo)
  : result (gmap string datetime) :=
  match rest with
  | [] => Ok results
  | commit :: rest' =>
      let* (gap, g) := _random_gap g gap_min gap_max sec_min sec_max in
      let* candidate := datetime_add current gap in
      let* (current, g) :=
        _next_valid_datetime candidate end_day work g sec_min sec_max tz in
      _synthetic_loop rest' current (<[hash commit := current]> results) g
        end_day work gap_min gap_max sec_min sec_max tz
  end.

Definition _synthetic_mode (ent : entropy) (commits : list Commit)
  (config : ValidatedConfig) : result (gmap string datetime) :=
  match commits with
  | [] => Ok ∅
  | first :: rest =>
      match calendar config, work_patterns config, randomness config with
      | Some calendar, Some work, Some randomness =>
          let start_day := cal_start calendar in
          let end_day := cal_end calendar in
          let tz := tz calendar in
          let g := Random ent (seed randomness) in
          let gap_min := gap_minutes_min randomness in
          let gap_max := gap_minutes_max randomness in
          let sec_min := seconds_min randomness in
          let sec_max := seconds_max randomness in
          let* day0 := _next_enabled_day start_day end_day work in
          let* (current, g) :=
            _random_datetime_for_day day0 work g sec_min sec_max tz in
          let results : gmap string datetime := {[ hash first := current ]} in
          _synthetic_loop rest current results g
            end_day work gap_min gap_max sec_min sec_max tz
      | _, _, _ =>
          Raise (EngineError
            "Synthetic mode requires validated calendar, work_patterns, and randomness")
      end
  end.

Definition compute_timestamps (ent : entropy) (commits : list Commit)
  (config : ValidatedConfig) : result (gmap string datetime) :=
  let mode := mode (timestamp config) in
  if String.eqb mode "author" then Ok (_author_mode commits)
  else if String.eqb mode "commit" then Ok (_commit_mode commits)
  else if String.eqb mode "synthetic" then _synthetic_mode ent commits config
  else Raise (EngineError ("Unsupported timestamp mode: " +:+ mode)).

End Engine.

(** ** A concrete runtime

    A small deterministic runtime on which the model can be run: a linear
    congruential generator in place of the Mersenne Twister, and parsers
    for the plain forms [YYYY-MM-DD] and decimal digits. *)

Module Demo.

Definition lcg_next (s : Z) : Z := (s * 1103515245 + 12345) mod 2147483648.

Definition lcg_draw (g : Z) (a b : Z) : Z * Z :=
  (a + lcg_next g mod (b - a + 1), lcg_next g).

Definition digit_of (a : Ascii.ascii) : option Z :=
  let n := Z.of_N (Ascii.N_of_ascii a) in
  if (48 <=? n) && (n <=? 57) then Some (n - 48) else None.

Fixpoint digits_value (acc : Z) (s : string) : option Z :=
  match s with
  | EmptyString => Some acc
  | String a s' =>
      match digit_of a with
      | Some d => digits_value (acc * 10 + d) s'
      | None => None
      end
  end.

Definition parse_digits (s : string) : option Z :=
  match s with
  | EmptyString => None
  | _ => digits_value 0 s
  end.

Definition is_leap (y : Z) : bool :=
  ((y mod 4 =? 0) && negb (y mod 100 =? 0)) || (y mod 400 =? 0).

Definition days_in_month (y m : Z) : Z :=
  if m =? 2 then (if is_leap y then 29 else 28)
  else if (m =? 4) || (m =? 6) || (m =? 9) || (m =? 11) then 30
  else 31.

Definition days_before_month (y m : Z) : Z :=
  fold_right Z.add 0
    (map (days_in_month y) (map Z.of_nat (seq 1 (Z.to_nat (m - 1))))).

Definition ordinal_of_ymd (y m d : Z) : Z :=
  let y1 := y - 1 in
  y1 * 365 + y1 / 4 - y1 / 100 + y1 / 400 + days_before_month y m + d.

Definition parse_ymd (s : string) : option date :=
  match split_on "-"%char s with
  | [ys; ms; ds] =>
      match parse_digits ys, parse_digits ms, parse_digits ds with
      | Some y, Some m, Some d =>
          let o := ordinal_of_ymd y m d in
          if (1 <=? y) && (y <=? 9999) && (1 <=? m) && (m <=? 12)
             && (1 <=? d) && (d <=? days_in_month y m)
             && (1 <=? o) && (o <=? date_max)
          then Some o
          else None
      | _, _, _ => None
      end
  | _ => None
  end.

Definition upper_ascii (a : Ascii.ascii) : Ascii.ascii :=
  let n := Ascii.N_of_ascii a in
  if ((97 <=? n) && (n <=? 122))%N then Ascii.ascii_of_N (n - 32) else a.

Fixpoint upper (s : string) : string :=
  match s with
  | EmptyString => EmptyString
  | String a s' => String (upper_ascii a) (upper s')
  end.

Definition runtime : PyRuntime := {|
  rng := Z;
  entropy := Z;
  Random_seeded := fun s => s;
  Random_unseeded := fun e => e;
  randint_draw := lcg_draw;
  strptime_ymd := parse_ymd;
  int_of_str := parse_digits;
  str_strip := fun s => s;
  str_upper := upper;
  ZoneInfo := fun _ => zone_not_found
|}.

Definition dt (d h m s : Z) : datetime := mk_datetime d (mk_time h m s) tz_utc.

Definition commit (h : string) (i : Z) : Commit :=
  mk_Commit h (dt (738000 + i) 10 0 0) (dt (738000 + i) 11 30 0) i
    "" "" "" "" "" "".

Definition commits5 : list Commit :=
  [commit "a1" 0; commit "b2" 1; commit "c3" 2; commit "d4" 3; commit "e5" 4].

Definition hours_doc (s e : string) : pyval :=
  VDict [("start"%string, VStr s); ("end"%string, VStr e)].

Definition synthetic_cfg : Config :=
  mk_Config (mk_TimestampConfig "synthetic") (mk_ScopeConfig Float.one)
    (Some [("start"%string, VStr "2024-01-01"); ("end"%string, VStr "2024-01-05");
           ("timezone"%string, VStr "UTC")])
    (Some [("weekdays"%string,
             VDict [("enabled"%string, VBool true);
                    ("hours"%string, hours_doc "09:00" "17:00")]);
           ("saturday"%string, VDict [("enabled"%string, VBool false)]);
           ("sunday"%string, VDict [("enabled"%string, VBool false)])])
    (Some [("seed"%string, VInt 42);
           ("gap_minutes"%string, VDict [("min"%string, VInt 25); ("max"%string, VInt 90)]);
           ("seconds"%string, VDict [("min"%string, VInt 5); ("max"%string, VInt 55)])]).

(** The same calendar, Monday to Friday, with work on Saturdays only. *)
Definition saturday_only_cfg : Config :=
  mk_Config (mk_TimestampConfig "synthetic") (mk_ScopeConfig Float.one)
    (Some [("start"%string, VStr "2024-01-01"); ("end"%string, VStr "2024-01-05")])
    (Some [("weekdays"%string, VDict [("enabled"%string, VBool false)]);
           ("saturday"%string,
             VDict [("enabled"%string, VBool true);
                    ("hours"%string, hours_doc "09:00" "17:00")]);
           ("sunday"%string, VDict [("enabled"%string, VBool false)])])
    (Some [("seed"%string, VInt 42);
           ("gap_minutes"%string, VDict [("min"%string, VInt 25); ("max"%string, VInt 90)]);
           ("seconds"%string, VDict [("min"%string, VInt 5); ("max"%string, VInt 55)])]).

(** What [validate_config] makes of [synthetic_cfg] and of
    [saturday_only_cfg]. *)
Definition weekday_hours : ParsedWorkBlock :=
  mk_ParsedWorkBlock true
    (Some (mk_ParsedWorkHours (mk_time 9 0 0) (mk_time 17 0 0))).

Definition day_off : ParsedWorkBlock := mk_ParsedWorkBlock false None.

Definition synthetic_vc : ValidatedConfig :=
  mk_ValidatedConfig (mk_TimestampConfig "synthetic") (mk_ScopeConfig Float.one)
    (Some (mk_ParsedCalendar 738886 738890 "UTC" tz_utc))
    (Some (mk_ParsedWorkPatterns weekday_hours day_off day_off))
    (Some (mk_ParsedRandomness (Some 42) 25 90 5 55)).

Definition saturday_only_vc : ValidatedConfig :=
  mk_ValidatedConfig (mk_TimestampConfig "synthetic") (mk_ScopeConfig Float.one)
    (Some (mk_ParsedCalendar 738886 738890 "UTC" tz_utc))
    (Some (mk_ParsedWorkPatterns day_off weekday_hours day_off))
    (Some (mk_ParsedRandomness (Some 42) 25 90 5 55)).

Definition author_cfg : Config :=
  mk_Config (mk_TimestampConfig "author") (mk_ScopeConfig Float.one)
    None None None.

Definition author_vc : ValidatedConfig :=
  mk_ValidatedConfig (mk_TimestampConfig "author") (mk_ScopeConfig Float.one)
    None None None.

(** An author-mode document that carries a calendar. *)
Definition author_with_calendar_cfg : Config :=
  mk_Config (mk_TimestampConfig "author") (mk_ScopeConfig Float.one)
    (Some [("start"%string, VStr "2024-01-01")]) None None.

(** [synthetic_vc] without a seed. *)
Definition unseeded_vc : ValidatedConfig :=
  mk_ValidatedConfig (mk_TimestampConfig "synthetic") (mk_ScopeConfig Float.one)
    (Some (mk_ParsedCalendar 738886 738890 "UTC" tz_utc))
    (Some (mk_ParsedWorkPatterns weekday_hours day_off day_off))
    (Some (mk_ParsedRandomness None 25 90 5 55)).

(** The instant given to the commit [h], if the computation returned. *)
Definition stamp_of (r : result (gmap string datetime)) (h : string)
  : option datetime :=
  match r with
  | Ok m => m !! h
  | Raise _ => None
  end.

(** The timestamps of the five commits under [synthetic_vc], as the
    model computes them with the generator above. *)
Definition stamps5 : gmap string datetime :=
  Eval vm_compute in
    match compute_timestamps (RT := runtime) 0 commits5 synthetic_vc with
    | Ok m => m
    | Raise _ => ∅
    end.

(** The double written [0.7]: [0x1.6666666666666p-1]. *)
Definition f07 : float := S754_finite false 6305039478318694 (-53).

Definition commits10 : list Commit :=
  commits5 ++ [commit "f6" 5; commit "a7" 6; commit "b8" 7; commit "c9" 8; commit "d0" 9].

End Demo.


(** ** Vocabulary of the specification *)

Definition known_mode (m : string) : Prop :=
  m = "author"%string \/ m = "commit"%string \/ m = "synthetic"%string.

(** The identifier is a content hash: two commits of the list with the
    same identifier are the same commit. *)
Definition content_addressed (commits : list Commit) : Prop :=
  forall c1 c2 : Commit,
    c1 ∈ commits -> c2 ∈ commits -> hash c1 = hash c2 -> c1 = c2.

(** [path] names a synthetic-only section that the document carries. *)
Definition section_present (cfg : Config) (path : string) : Prop :=
  (path = "calendar"%string /\ cfg_calendar cfg <> None)
  \/ (path = "work_patterns"%string /\ cfg_work_patterns cfg <> None)
  \/ (path = "randomness"%string /\ cfg_randomness cfg <> None).

(** [path] names a synthetic-only section that the document lacks. *)
Definition section_missing (cfg : Config) (path : string) : Prop :=
  (path = "calendar"%string /\ cfg_calendar cfg = None)
  \/ (path = "work_patterns"%string /\ cfg_work_patterns cfg = None)
  \/ (path = "randomness"%string /\ cfg_randomness cfg = None).

(** Field ranges of a [datetime.time]. *)
Definition valid_time (t : time) : Prop :=
  0 <= hour t <= 23 /\ 0 <= minute t <= 59 /\ 0 <= second t <= 59.

(** The order of [datetime_compare], as a proposition. *)
Definition dt_lt (a b : datetime) : Prop :=
  dt_date a < dt_date b
  \/ (dt_date a = dt_date b
      /\ (hour (dt_time a) < hour (dt_time b)
          \/ (hour (dt_time a) = hour (dt_time b)
              /\ (minute (dt_time a) < minute (dt_time b)
                  \/ (minute (dt_time a) = minute (dt_time b)
                      /\ second (dt_time a) < second (dt_time b)))))).

Definition dt_le (a b : datetime) : Prop :=
  dt_lt a b
  \/ (dt_date a = dt_date b /\ hour (dt_time a) = hour (dt_time b)
      /\ minute (dt_time a) = minute (dt_time b)
      /\ second (dt_time a) = second (dt_time b)).

(** The time of day [t] lies in the window of [h]: from the start minute
    at second 0 to the end minute at second 59. *)
Definition in_work_window (h : ParsedWorkHours) (t : time) : Prop :=
  valid_time t
  /\ hour (hours_start h) * 3600 + minute (hours_start h) * 60 <= time_seconds t
  /\ time_seconds t <= hour (hours_end h) * 3600 + minute (hours_end h) * 60 + 59.

(** The date of [d] has an enabled work block and the time of [d] lies in
    its window. *)
Definition on_work_day (work : ParsedWorkPatterns) (d : datetime) : Prop :=
  exists h,
    enabled (_work_block_for_day (dt_date d) work) = true
    /\ hours (_work_block_for_day (dt_date d) work) = Some h
    /\ in_work_window h (dt_time d).

(** Each instant is at or after the one before it, starting from [cur]. *)
Fixpoint chain (cur : datetime) (ts : list datetime) : Prop :=
  match ts with
  | [] => True
  | t :: ts' => dt_le cur t /\ chain t ts'
  end.

(** The dictionary after the assignments [results[c.hash] = t], in order. *)
Definition assign_all (results : gmap string datetime)
  (cts : list (Commit * datetime)) : gmap string datetime :=
  foldl (fun acc ct => <[hash (fst ct) := snd ct]> acc) results cts.

(** The shifted mantissa [shr_m mrs], [k] bits to the right of [M]: it is
    the floor of [M / 2^k], and the round and sticky bits are set only
    when bits were lost. *)
Definition shifted (M k : Z) (mrs : shr_record) : Prop :=
  0 <= shr_m mrs
  /\ shr_m mrs * 2 ^ k + (if shr_r mrs || shr_s mrs then 1 else 0) <= M.

(** [T] lies on the grid of the doubles near it: past 53 bits it is a
    multiple of the spacing. Every integer below [2^53] is on the grid,
    and so is every power of two. *)
Definition on_grid (T : Z) : Prop :=
  forall j : Z, 0 < j -> 2 ^ (j + 52) <= T -> (2 ^ j | T).

(** [sys.maxsize]: no list is longer. *)
Definition sys_maxsize : Z := 2 ^ 63 - 1.

(** Seconds on the wall clock, counted from midnight of ordinal 0. *)
Definition wall_seconds (d : datetime) : Z :=
  dt_date d * 86400 + time_seconds (dt_time d).

(** Each instant is at least [delta] wall-clock seconds after the one
    before it, starting from [cur]. *)
Fixpoint gap_chain (delta : Z) (cur : datetime) (ts : list datetime) : Prop :=
  match ts with
  | [] => True
  | t :: ts' => wall_seconds cur + delta <= wall_seconds t /\ gap_chain delta t ts'
  end.

(** A work window as [_validate_work_block] builds it: two times of day
    on the minute, the end after the start. *)
Definition well_formed_hours (h : ParsedWorkHours) : Prop :=
  valid_time (hours_start h) /\ second (hours_start h) = 0
  /\ valid_time (hours_end h) /\ second (hours_end h) = 0
  /\ time_seconds (hours_start h) < time_seconds (hours_end h).

(** A block carries hours exactly when it is enabled. *)
Definition well_formed_block (b : ParsedWorkBlock) : Prop :=
  match hours b with
  | None => enabled b = false
  | Some h => enabled b = true /\ well_formed_hours h
  end.

Definition well_formed_work (w : ParsedWorkPatterns) : Prop :=
  well_formed_block (weekdays w) /\ well_formed_block (saturday w)
  /\ well_formed_block (sunday w)
  /\ (enabled (weekdays w) || enabled (saturday w) || enabled (sunday w)) = true.

(** The outcomes of the engine that do not point at a defect of the
    program: a result, an exhausted calendar, or a date or a duration
    past what [datetime] can hold. *)
Definition benign {A} (r : result A) : Prop :=
  (exists a, r = Ok a) \/ r = Raise exhausted \/ r = Raise OverflowError.

(** The only exception of [r] is a [ValidationError]. *)
Definition raises_only_ValidationError {A} (r : result A) : Prop :=
  forall e, r = Raise e -> exists path msg, e = ValidationError path msg.

(** ** Further concrete inputs *)

Module Cases.

(** Work from Monday to Friday, 09:00 to 17:00. *)
Definition weekdays_only : ParsedWorkPatterns :=
  mk_ParsedWorkPatterns Demo.weekday_hours Demo.day_off Demo.day_off.

(** Saturday 2024-01-06 and Wednesday 2024-01-10. *)
Definition saturday_6th : date := 738891.
Definition wednesday_10th : date := 738895.

(** Monday 2024-01-01 at 18:00, after the end of the window. *)
Definition monday_evening : datetime := Demo.dt 738886 18 0 0.

(** What [_next_valid_datetime] makes of [monday_evening] with the
    generator of [Demo.runtime] in state 7. *)
Definition walked : datetime * Z :=
  Eval vm_compute in
    match _next_valid_datetime (RT := Demo.runtime) monday_evening 738890
            weekdays_only 7 5 55 tz_utc with
    | Ok p => p
    | Raise _ => (monday_evening, 0)
    end.

Definition calendar5 : ParsedCalendar :=
  mk_ParsedCalendar 738886 738890 "UTC" tz_utc.

Definition randomness42 : ParsedRandomness :=
  mk_ParsedRandomness (Some 42) 25 90 5 55.

End Cases.

(** ** Outcomes with other exceptions *)

(** The result of a function of the interface or of the report, with
    the exceptions of that function. *)
Inductive outcome (E A : Type) :=
| Returns (a : A)
| Raises (e : E).
Arguments Returns {E A} a.
Arguments Raises {E A} e.

(** ** The form's cleaned data ([user_ui/forms.py]) *)

Module Form.

(** [form.cleaned_data] of [RewriteConfigForm]: a [DateField],
    [TimeField] or [IntegerField] that is not required cleans to [None]
    when it is left empty, a [BooleanField] to [False]. *)
Record cleaned_data := mk_cleaned_data {
  mode : string;
  scope_fraction : float;
  calendar_start : option date;
  calendar_end : option date;
  weekdays_enabled : bool;
  weekdays_start : option time;
  weekdays_end : option time;
  saturday_enabled : bool;
  saturday_start : option time;
  saturday_end : option time;
  sunday_enabled : bool;
  sunday_start : option time;
  sunday_end : option time;
  randomness_seed : option Z;
  gap_minutes_min : option Z;
  gap_minutes_max : option Z;
  seconds_min : option Z;
  seconds_max : option Z
}.

(** [cleaned_data.get(f"{prefix}_enabled")], [None] being falsy. *)
Definition get_enabled (cd : cleaned_data) (prefix : string) : bool :=
  if String.eqb prefix "weekdays" then weekdays_enabled cd
  else if String.eqb prefix "saturday" then saturday_enabled cd
  else if String.eqb prefix "sunday" then sunday_enabled cd
  else false.

(** [cleaned_data[f"{prefix}_start"]] *)
Definition get_start (cd : cleaned_data) (prefix : string) : option time :=
  if String.eqb prefix "weekdays" then weekdays_start cd
  else if String.eqb prefix "saturday" then saturday_start cd
  else if String.eqb prefix "sunday" then sunday_start cd
  else None.

(** [cleaned_data[f"{prefix}_end"]] *)
Definition get_end (cd : cleaned_data) (prefix : string) : option time :=
  if String.eqb prefix "weekdays" then weekdays_end cd
  else if String.eqb prefix "saturday" then saturday_end cd
  else if String.eqb prefix "sunday" then sunday_end cd
  else None.

End Form.

(** ** Policy emission ([user_ui/yaml_emit.py]) *)

Definition _DEFAULT_GAP_MIN : Z := 25.
Definition _DEFAULT_GAP_MAX : Z := 90.
Definition _DEFAULT_SEC_MIN : Z := 5.
Definition _DEFAULT_SEC_MAX : Z := 55.

Definition _normalise_range (maybe_min maybe_max : option Z)
  (default_min default_max : Z) (clamp_min : Z) (clamp_max : option Z) : Z * Z :=
  let '(rmin, rmax) :=
    match maybe_min, maybe_max with
    | None, None => (default_min, default_max)
    | None, Some mx => (Z.min default_min mx, mx)
    | Some mn, None => (mn, Z.max default_max mn)
    | Some mn, Some mx => (mn, mx)
    end in
  let '(rmin, rmax) :=
    match clamp_max with
    | None => (Z.max clamp_min rmin, Z.max clamp_min rmax)
    | Some c => (Z.max clamp_min (Z.min c rmin), Z.max clamp_min (Z.min c rmax))
    end in
  let rmax := if rmax <? rmin then rmin else rmax in
  (rmin, rmax).

(** A decimal digit and a number on two or four digits, as [strftime]
    and [isoformat] print the fields of a time or of a date. *)
Definition digit_char (d : Z) : Ascii.ascii :=
  Ascii.ascii_of_N (Z.to_N (48 + d)).

Definition pad2 (n : Z) : string :=
  String (digit_char (n / 10)) (String (digit_char (n mod 10)) EmptyString).

Definition pad4 (n : Z) : string :=
  (pad2 (n / 100) +:+ pad2 (n mod 100))%string.

(** [t.strftime("%H:%M")] *)
Definition _fmt_time (t : time) : string :=
  (pad2 (hour t) +:+ ":" +:+ pad2 (minute t))%string.

(** The exceptions of the emitter: the [ValueError] of an unknown mode,
    and the [AttributeError] of a date or time that is [None]. *)
Inductive emit_exn :=
| UnsupportedMode (mode : string)
| AttributeError.

Definition _build_work_block (cleaned_data : Form.cleaned_data) (prefix : string)
  : outcome emit_exn pydict :=
  let enabled := Form.get_enabled cleaned_data prefix in
  if negb enabled then Returns [("enabled"%string, VBool false)]
  else
    match Form.get_start cleaned_data prefix, Form.get_end cleaned_data prefix with
    | Some start_t, Some end_t =>
        Returns [("enabled"%string, VBool true);
                 ("hours"%string,
                   VDict [("start"%string, VStr (_fmt_time start_t));
                          ("end"%string, VStr (_fmt_time end_t))])]
    | _, _ => Raises AttributeError
    end.

Section Emit.
(** The year, month and day of a date: the conversion from the ordinal
    is the library's. *)
Context (date_ymd : date -> Z * Z * Z).

(** [d.isoformat()] *)
Definition isoformat (d : date) : string :=
  let '(y, m, dd) := date_ymd d in
  (pad4 y +:+ "-" +:+ pad2 m +:+ "-" +:+ pad2 dd)%string.

(** [int(d.strftime("%Y%m%d"))]: month and day take two digits each. *)
Definition strftime_Ymd_int (d : date) : Z :=
  let '(y, m, dd) := date_ymd d in
  y * 10000 + m * 100 + dd.

Definition _build_randomness (cleaned_data : Form.cleaned_data) (calendar_start : date)
  : pydict :=
  let seed :=
    match Form.randomness_seed cleaned_data with
    | Some seed => seed
    | None => strftime_Ymd_int calendar_start
    end in
  let '(gap_min_i, gap_max_i) :=
    _normalise_range (Form.gap_minutes_min cleaned_data)
      (Form.gap_minutes_max cleaned_data)
      _DEFAULT_GAP_MIN _DEFAULT_GAP_MAX 0 None in
  let '(sec_min_i, sec_max_i) :=
    _normalise_range (Form.seconds_min cleaned_data)
      (Form.seconds_max cleaned_data)
      _DEFAULT_SEC_MIN _DEFAULT_SEC_MAX 0 (Some 59) in
  [("seed"%string, VInt seed);
   ("gap_minutes"%string,
     VDict [("min"%string, VInt gap_min_i); ("max"%string, VInt gap_max_i)]);
   ("seconds"%string,
     VDict [("min"%string, VInt sec_min_i); ("max"%string, VInt sec_max_i)])].

Definition build_policy_dict (cleaned_data : Form.cleaned_data)
  : outcome emit_exn pydict :=
  let mode := Form.mode cleaned_data in
  let scope_fraction := Form.scope_fraction cleaned_data in
  let policy : pydict :=
    [("timestamp"%string, VDict [("mode"%string, VStr mode)]);
     ("scope"%string, VDict [("fraction"%string, VFloat scope_fraction)])] in
  if String.eqb mode "author" || String.eqb mode "commit" then Returns policy
  else if negb (String.eqb mode "synthetic") then Raises (UnsupportedMode mode)
  else
    match Form.calendar_start cleaned_data, Form.calendar_end cleaned_data with
    | Some start_date, Some end_date =>
        let calendar : pydict :=
          [("start"%string, VStr (isoformat start_date));
           ("end"%string, VStr (isoformat end_date));
           ("timezone"%string, VStr "UTC")] in
        match _build_work_block cleaned_data "weekdays" with
        | Raises e => Raises e
        | Returns weekdays =>
            match _build_work_block cleaned_data "saturday" with
            | Raises e => Raises e
            | Returns saturday =>
                match _build_work_block cleaned_data "sunday" with
                | Raises e => Raises e
                | Returns sunday =>
                    Returns
                      (policy ++
                       [("calendar"%string, VDict calendar);
                        ("work_patterns"%string,
                          VDict [("weekdays"%string, VDict weekdays);
                                 ("saturday"%string, VDict saturday);
                                 ("sunday"%string, VDict sunday)]);
                        ("randomness"%string,
                          VDict (_build_randomness cleaned_data start_date))])
                end
            end
        end
    | _, _ => Raises AttributeError
    end.

End Emit.

(** ** Dry-run report ([synth/dryrun.py]) *)

Module DryRunEntry.
Record t := mk {
  index : Z;
  hash_prefix : string;
  author_date : datetime;
  committer_date : datetime;
  final_timestamp : datetime;
  changed : bool
}.
End DryRunEntry.

(** The exceptions of [build_entries]: the [KeyError] of a hash that has
    no timestamp, and the [ValueError] of a [hash_len] that is not
    positive. *)
Inductive entries_exn :=
| KeyError (key : string)
| ValueError_hash_len.

(** [entries.sort(key=lambda e: e.index)]: the sort is stable, entries
    with the same index keep their order. *)
Fixpoint insert_by_index (e : DryRunEntry.t) (sorted : list DryRunEntry.t)
  : list DryRunEntry.t :=
  match sorted with
  | [] => [e]
  | x :: rest =>
      if DryRunEntry.index e <=? DryRunEntry.index x then e :: x :: rest
      else x :: insert_by_index e rest
  end.

Definition sort_by_index (entries : list DryRunEntry.t) : list DryRunEntry.t :=
  foldr insert_by_index [] entries.

(** Entries in the order of their index. *)
Definition by_index (a b : DryRunEntry.t) : Prop :=
  DryRunEntry.index a <= DryRunEntry.index b.

Section DryRun.
(** [a != b] on two instants: the comparison of [datetime]. *)
Context (datetime_ne : datetime -> datetime -> bool).

Definition entry_of (c : Commit) (final : datetime) (hash_len : Z) : DryRunEntry.t :=
  let changed := datetime_ne (author_date c) final
                 || datetime_ne (committer_date c) final in
  DryRunEntry.mk (index c) (String.substring 0 (Z.to_nat hash_len) (hash c))
    (author_date c) (committer_date c) final changed.

(** The entry of a commit whose timestamp the plan holds. *)
Definition entry_for (final_timestamps : gmap string datetime) (hash_len : Z)
  (c : Commit) : DryRunEntry.t :=
  entry_of c (default (author_date c) (final_timestamps !! hash c)) hash_len.

(** The [for c in commits] loop of [build_entries]. *)
Fixpoint build_entries_loop (commits : list Commit)
  (final_timestamps : gmap string datetime) (hash_len : Z)
  (entries : list DryRunEntry.t) : outcome entries_exn (list DryRunEntry.t) :=
  match commits with
  | [] => Returns entries
  | c :: commits' =>
      match final_timestamps !! hash c with
      | None => Raises (KeyError (hash c))
      | Some final =>
          build_entries_loop commits' final_timestamps hash_len
            (entries ++ [entry_of c final hash_len])
      end
  end.

Definition build_entries (commits : list Commit)
  (final_timestamps : gmap string datetime) (hash_len : Z)
  : outcome entries_exn (list DryRunEntry.t) :=
  if hash_len <=? 0 then Raises ValueError_hash_len
  else
    match build_entries_loop commits final_timestamps hash_len [] with
    | Returns entries => Returns (sort_by_index entries)
    | Raises e => Raises e
    end.

End DryRun.

(** [s.ljust(w)] *)
Definition ljust (s : string) (w : nat) : string :=
  (s +:+ String.concat "" (replicate (w - String.length s) " "))%string.

(** [widths[i] = max(widths[i], len(cell))]: [None] is the [IndexError]
    of a row that is longer than the header. *)
Definition widen (widths : list nat) (i : nat) (cell : string) : option (list nat) :=
  match widths !! i with
  | Some w => Some (<[i := Nat.max w (String.length cell)]> widths)
  | None => None
  end.

(** The [for i, cell in enumerate(row)] loop, from index [i] on. *)
Fixpoint widen_row (widths : list nat) (i : nat) (row : list string)
  : option (list nat) :=
  match row with
  | [] => Some widths
  | cell :: row' =>
      match widen widths i cell with
      | Some widths' => widen_row widths' (S i) row'
      | None => None
      end
  end.

(** The [for row in rows] loop. *)
Fixpoint widen_rows (widths : list nat) (rows : list (list string))
  : option (list nat) :=
  match rows with
  | [] => Some widths
  | row :: rows' =>
      match widen_row widths 0 row with
      | Some widths' => widen_rows widths' rows'
      | None => None
      end
  end.

(** The cells of [fmt_row], from index [i] on. *)
Fixpoint fmt_cells (widths : list nat) (i : nat) (items : list string)
  : option (list string) :=
  match items with
  | [] => Some []
  | item :: items' =>
      match widths !! i, fmt_cells widths (S i) items' with
      | Some w, Some cells => Some (ljust item w :: cells)
      | _, _ => None
      end
  end.

Definition fmt_row (widths : list nat) (items : list string) : option string :=
  match fmt_cells widths 0 items with
  | Some cells => Some (String.concat "  " cells)
  | None => None
  end.

Fixpoint fmt_rows (widths : list nat) (rows : list (list string))
  : option (list string) :=
  match rows with
  | [] => Some []
  | row :: rows' =>
      match fmt_row widths row, fmt_rows widths rows' with
      | Some line, Some lines => Some (line :: lines)
      | _, _ => None
      end
  end.

Definition _format_table (headers : list string) (rows : list (list string))
  : option (list string) :=
  let widths := String.length <$> headers in
  match widen_rows widths rows with
  | None => None
  | Some widths =>
      match fmt_row widths headers,
            fmt_row widths ((fun w => String.concat "" (replicate w "-")) <$> widths),
            fmt_rows widths rows with
      | Some head, Some rule, Some lines => Some (head :: rule :: lines)
      | _, _, _ => None
      end
  end.

(** The timestamps of a plan ([main.py] and [synth/rewrite.py]):
    [compute_timestamps(selected, validated) if selected else {}]. *)
Definition final {RT : PyRuntime} (ent : entropy)
  (selected : list Commit) (validated : ValidatedConfig)
  : result (gmap string datetime) :=
  match selected with
  | [] => Ok ∅
  | _ => compute_timestamps ent selected validated
  end.

(** ** Concrete inputs for the interface and the report *)

Module Samples.

(** A synthetic form: work on weekdays from 09:00 to 17:00, and on
    Saturdays from 10:00:15 to 10:00:45, within one minute. *)
Definition form : Form.cleaned_data := {|
  Form.mode := "synthetic";
  Form.scope_fraction := Float.one;
  Form.calendar_start := Some 738886;
  Form.calendar_end := Some 738890;
  Form.weekdays_enabled := true;
  Form.weekdays_start := Some (mk_time 9 0 0);
  Form.weekdays_end := Some (mk_time 17 0 0);
  Form.saturday_enabled := true;
  Form.saturday_start := Some (mk_time 10 0 15);
  Form.saturday_end := Some (mk_time 10 0 45);
  Form.sunday_enabled := false;
  Form.sunday_start := None;
  Form.sunday_end := None;
  Form.randomness_seed := None;
  Form.gap_minutes_min := Some 30;
  Form.gap_minutes_max := None;
  Form.seconds_min := Some 70;
  Form.seconds_max := Some 10
|}.

(** Two instants in the same zone differ when their fields differ. *)
Definition datetime_ne (a b : datetime) : bool :=
  match datetime_compare a b with
  | Eq => false
  | _ => true
  end.

(** The timestamps of author mode for the five commits, and the entries
    of their report. *)
Definition author_stamps : gmap string datetime :=
  Eval vm_compute in _author_mode Demo.commits5.

Definition author_entries : list DryRunEntry.t :=
  Eval vm_compute in
    match build_entries datetime_ne Demo.commits5 author_stamps 12 with
    | Returns entries => entries
    | Raises _ => []
    end.

Definition headers : list string := ["idx"; "hash"; "changed"]%string.

Definition rows : list (list string) :=
  [["0"; "a1b2c3d4e5f6"; "yes"]; ["10"; "0f"; "no"]]%string.

End Samples.

(** ** Commit history ([synth/repo.py]) *)

(** [GitRepositoryError], for a line that has not nine fields and for a
    date that [fromisoformat] refuses. *)
Inductive repo_exn :=
| MalformedLine (line : string)
| InvalidTimestamp (line : string).

(** [_FIELD_SEP], the character NUL. *)
Definition _FIELD_SEP : Ascii.ascii := Ascii.zero.

Section Repo.
Context {RT : PyRuntime}.
(** [datetime.fromisoformat(s)], [None] for [ValueError] *)
Context (fromisoformat : string -> option datetime).

(** The body of the loop of [load_commit_history] for the line [line]
    at position [idx]. *)
Definition parse_log_line (idx : Z) (line : string) : outcome repo_exn Commit :=
  match split_on _FIELD_SEP line with
  | [commit_hash; author_str; committer_str; author_name; author_email;
     committer_name; committer_email; subject; refs] =>
      match fromisoformat author_str, fromisoformat committer_str with
      | Some author_date, Some committer_date =>
          Returns (mk_Commit commit_hash author_date committer_date idx subject
                     author_name author_email committer_name committer_email
                     (str_strip refs))
      | _, _ => Raises (InvalidTimestamp line)
      end
  | _ => Raises (MalformedLine line)
  end.

(** The [for idx, line in enumerate(...)] loop, from position [idx] on. *)
Fixpoint load_commit_history_loop (idx : Z) (lines : list string)
  (commits : list Commit) : outcome repo_exn (list Commit) :=
  match lines with
  | [] => Returns commits
  | line :: lines' =>
      match parse_log_line idx line with
      | Returns c => load_commit_history_loop (idx + 1) lines' (commits ++ [c])
      | Raises e => Raises e
      end
  end.

(** [load_commit_history], from the lines of the output of [git log]
    on: no line for an empty log. *)
Definition load_commit_history (lines : list string)
  : outcome repo_exn (list Commit) :=
  load_commit_history_loop 0 lines [].

End Repo.

(** ** The command line ([main.py]) *)

(** How [main] ends: it returns an exit code, with the entries of the
    report it printed if any, or an exception leaves it. *)
Inductive ending :=
| Exits (code : Z) (report : option (list DryRunEntry.t))
| Uncaught_exn (e : exn)
| Uncaught_entries_exn (e : entries_exn).

(** The [except (ConfigError, ValidationError, GitRepositoryError,
    ScopeError, EngineError)] clause of [main]. *)
Definition handled (e : exn) : ending :=
  match e with
  | ValidationError _ _ | ScopeError _ | EngineError _ => Exits 2 None
  | OverflowError | ValueError => Uncaught_exn e
  end.

Section Main.
Context {RT : PyRuntime}.
Context (fromisoformat : string -> option datetime).
Context (datetime_ne : datetime -> datetime -> bool).

(** [main], from the loaded configuration [cfg] and the lines of the
    log of the repository on. *)
Definition main (hash_len : Z) (dry_run : bool) (cfg : Config)
  (lines : list string) (ent : entropy) : ending :=
  if hash_len <=? 0 then Exits 2 None
  else
    match validate_config cfg with
    | Raise e => handled e
    | Ok validated =>
        match load_commit_history fromisoformat lines with
        | Raises _ => Exits 2 None
        | Returns commits =>
            match apply_scope commits (fraction (cfg_scope cfg)) with
            | Raise e => handled e
            | Ok (selected_commits, _untouched) =>
                if negb dry_run then Exits 2 None
                else
                  match final ent selected_commits validated with
                  | Raise e => handled e
                  | Ok final =>
                      match build_entries datetime_ne selected_commits final
                              hash_len with
                      | Raises e => Uncaught_entries_exn e
                      | Returns entries => Exits 0 (Some entries)
                      end
                  end
            end
        end
    end.

End Main.

(** The commits carry their position in the list as index. *)
Definition numbered_from (start : Z) (commits : list Commit) : Prop :=
  forall (i : nat) (c : Commit),
    commits !! i = Some c -> index c = start + Z.of_nat i.

(** Strictly increasing index. *)
Definition index_lt (a b : Commit) : Prop := index a < index b.

(** ** The configuration of a policy document ([synth/config.py]) *)

(** [raw_config.get(key)] for a section: a mapping or [None]. *)
Definition get_section (raw_config : pydict) (key : string)
  : option (option pydict) :=
  match dict_get raw_config key with
  | VNone => Some None
  | VDict d => Some (Some d)
  | _ => None
  end.

(** [math.isfinite] *)
Definition isfinite (x : float) : bool :=
  match x with
  | S754_nan | S754_infinity _ => false
  | _ => true
  end.

(** The [Config] that [load_config] builds from a loaded document that
    passed the schema: [None] for a fraction that is not finite (a
    [ConfigError]) and for a document that has not the shape the schema
    describes. *)
Definition policy_config (raw_config : pydict) : option Config :=
  match dict_get raw_config "timestamp", dict_get raw_config "scope" with
  | VDict ts, VDict sc =>
      match dict_get ts "mode", dict_get sc "fraction" with
      | VStr mode, VFloat fraction =>
          if negb (isfinite fraction) then None
          else
            match get_section raw_config "calendar",
                  get_section raw_config "work_patterns",
                  get_section raw_config "randomness" with
            | Some calendar, Some work_patterns, Some randomness =>
                Some (mk_Config (mk_TimestampConfig mode) (mk_ScopeConfig fraction)
                        calendar work_patterns randomness)
            | _, _, _ => None
            end
      | _, _ => None
      end
  | _, _ => None
  end.

(** The block [prefix] of the form is disabled, or has two valid times,
    the end in a later minute than the start. *)
Definition block_ready (cleaned_data : Form.cleaned_data) (prefix : string) : Prop :=
  Form.get_enabled cleaned_data prefix = true ->
  exists st en : time,
    Form.get_start cleaned_data prefix = Some st
    /\ Form.get_end cleaned_data prefix = Some en
    /\ valid_time st /\ valid_time en
    /\ hour st * 60 + minute st < hour en * 60 + minute en.

(** ** A concrete history *)

Module History.

Definition nul : string := String _FIELD_SEP EmptyString.

(** A line of the log, in the format of [load_commit_history]. *)
Definition log_line (h author_str committer_str : string) : string :=
  (h +:+ nul +:+ author_str +:+ nul +:+ committer_str +:+ nul +:+ "Ann" +:+ nul
   +:+ "ann@example.org" +:+ nul +:+ "Bob" +:+ nul +:+ "bob@example.org" +:+ nul
   +:+ "subject" +:+ nul +:+ "")%string.

Definition log : list string :=
  [log_line "a1" "2023-12-01" "2023-12-02";
   log_line "b2" "2023-12-03" "2023-12-03";
   log_line "c3" "2023-12-05" "2023-12-08"].

(** A reader of dates of the plain form [YYYY-MM-DD], at noon in UTC, in
    place of [datetime.fromisoformat]. *)
Definition fromisoformat (s : string) : option datetime :=
  match Demo.parse_ymd s with
  | Some d => Some (Demo.dt d 12 0 0)
  | None => None
  end.

Definition commits : list Commit :=
  Eval vm_compute in
    match load_commit_history (RT := Demo.runtime) fromisoformat log with
    | Returns l => l
    | Raises _ => []
    end.

(** The entries of the dry run of the scenario's document on this
    history. *)
Definition report : list DryRunEntry.t :=
  Eval vm_compute in
    match main (RT := Demo.runtime) fromisoformat Samples.datetime_ne 12 true
            Demo.synthetic_cfg log 0 with
    | Exits _ (Some r) => r
    | _ => []
    end.

End History.

(** ** A concrete form *)

Module Policy.

(** The year, month and day of the dates of January 2024. *)
Definition date_ymd (d : date) : Z * Z * Z := (2024, 1, d - 738885).

(** A synthetic form for the first week of January 2024, with work on
    weekdays from 09:00 to 17:30. *)
Definition form : Form.cleaned_data := {|
  Form.mode := "synthetic";
  Form.scope_fraction := Float.one;
  Form.calendar_start := Some 738886;
  Form.calendar_end := Some 738892;
  Form.weekdays_enabled := true;
  Form.weekdays_start := Some (mk_time 9 0 0);
  Form.weekdays_end := Some (mk_time 17 30 0);
  Form.saturday_enabled := false;
  Form.saturday_start := None;
  Form.saturday_end := None;
  Form.sunday_enabled := false;
  Form.sunday_start := None;
  Form.sunday_end := None;
  Form.randomness_seed := None;
  Form.gap_minutes_min := None;
  Form.gap_minutes_max := None;
  Form.seconds_min := None;
  Form.seconds_max := None
|}.

(** An author-mode form in which synthetic fields were left filled. *)
Definition author_form : Form.cleaned_data := {|
  Form.mode := "author";
  Form.scope_fraction := Float.one;
  Form.calendar_start := Some 738886;
  Form.calendar_end := None;
  Form.weekdays_enabled := true;
  Form.weekdays_start := None;
  Form.weekdays_end := None;
  Form.saturday_enabled := false;
  Form.saturday_start := None;
  Form.saturday_end := None;
  Form.sunday_enabled := false;
  Form.sunday_start := None;
  Form.sunday_end := None;
  Form.randomness_seed := Some 7;
  Form.gap_minutes_min := None;
  Form.gap_minutes_max := None;
  Form.seconds_min := None;
  Form.seconds_max := None
|}.

End Policy.

(** ** The rewrite plan ([synth/rewrite.py]) *)

(** The ordinal of 1970-01-01. *)
Definition _EPOCH_ORDINAL : Z := 719163.

(** [RewriteError("Missing computed timestamp for commit: ...")] *)
Inductive rewrite_exn :=
| MissingTimestamp (commit_hash : string).

(** [RewritePlan], without the path of the repository. *)
Module RewritePlan.
Record t := mk {
  selected_count : Z;
  total_commits : Z;
  mode : string;
  scope_fraction : float;
  date_map : gmap string string
}.
End RewritePlan.

(** How [_build_rewrite_plan] ends: with a plan, or with one of the
    exceptions of the steps it runs. *)
Inductive planning :=
| Planned (plan : RewritePlan.t)
| Plan_exn (e : exn)
| Plan_repo_exn (e : repo_exn)
| Plan_rewrite_exn (e : rewrite_exn).

Section Rewrite.
Context {RT : PyRuntime}.
Context (fromisoformat : string -> option datetime).
(** [str.lower] *)
Context (str_lower : string -> string).
(** The offset from UTC, in seconds, of an instant in a named zone: the
    zone database is the library's. *)
Context (zone_utcoffset : string -> datetime -> Z).

(** [dt.utcoffset()], in seconds; every instant of the model carries a
    [tzinfo]. *)
Definition utcoffset (dt : datetime) : Z :=
  match dt_tz dt with
  | tz_utc => 0
  | tz_offset minutes => minutes * 60
  | tz_zone name => zone_utcoffset name dt
  end.

(** [int(dt.timestamp())]: seconds since 1970-01-01 00:00 UTC. *)
Definition timestamp_seconds (dt : datetime) : Z :=
  wall_seconds dt - _EPOCH_ORDINAL * 86400 - utcoffset dt.

Definition _format_git_date (dt : datetime) : string :=
  let offset := utcoffset dt in
  let total_minutes := offset / 60 in
  let sign : string := if 0 <=? total_minutes then "+" else "-" in
  let total_minutes := Z.abs total_minutes in
  let hh := total_minutes / 60 in
  let mm := total_minutes mod 60 in
  let ts := timestamp_seconds dt in
  (pretty ts +:+ " " +:+ sign +:+ pad2 hh +:+ pad2 mm)%string.

(** The [for c in selected] loop of [_build_rewrite_plan]. *)
Fixpoint date_map_loop (selected : list Commit) (final : gmap string datetime)
  (date_map : gmap string string) : outcome rewrite_exn (gmap string string) :=
  match selected with
  | [] => Returns date_map
  | c :: selected' =>
      match final !! hash c with
      | None => Raises (MissingTimestamp (hash c))
      | Some t =>
          date_map_loop selected' final
            (<[str_lower (hash c) := _format_git_date t]> date_map)
      end
  end.

(** [_build_rewrite_plan], from the loaded configuration [cfg] and the
    lines of the log of the repository on. *)
Definition _build_rewrite_plan (cfg : Config) (lines : list string) (ent : entropy)
  : planning :=
  match validate_config cfg with
  | Raise e => Plan_exn e
  | Ok validated =>
      match load_commit_history fromisoformat lines with
      | Raises e => Plan_repo_exn e
      | Returns commits =>
          match apply_scope commits (fraction (cfg_scope cfg)) with
          | Raise e => Plan_exn e
          | Ok (selected, _untouched) =>
              match final ent selected validated with
              | Raise e => Plan_exn e
              | Ok final =>
                  match date_map_loop selected final ∅ with
                  | Raises e => Plan_rewrite_exn e
                  | Returns date_map =>
                      Planned (RewritePlan.mk (Z.of_nat (length selected))
                                 (Z.of_nat (length commits))
                                 (mode (cfg_timestamp cfg))
                                 (fraction (cfg_scope cfg))
                                 date_map)
                  end
              end
          end
      end
  end.

End Rewrite.

(** ** A concrete plan *)

Module Plan.

(** Lower case for the letters of a hash. *)
Fixpoint lower (s : string) : string :=
  match s with
  | EmptyString => EmptyString
  | String a s' =>
      let n := Ascii.N_of_ascii a in
      String (if ((65 <=? n) && (n <=? 90))%N then Ascii.ascii_of_N (n + 32) else a)
        (lower s')
  end.

(** No named zone is used. *)
Definition zone_utcoffset (name : string) (dt : datetime) : Z := 0.

(** The plan of the scenario's document on the history of three
    commits. *)
Definition plan : RewritePlan.t :=
  Eval vm_compute in
    match _build_rewrite_plan (RT := Demo.runtime) History.fromisoformat lower
            zone_utcoffset Demo.synthetic_cfg History.log 0 with
    | Planned p => p
    | _ => RewritePlan.mk 0 0 "" Float.zero ∅
    end.

(** The timestamps of the three commits under the scenario's
    document. *)
Definition stamps3 : gmap string datetime :=
  Eval vm_compute in
    match compute_timestamps (RT := Demo.runtime) 0 History.commits
            Demo.synthetic_vc with
    | Ok m => m
    | Raise _ => ∅
    end.

End Plan.

(** ** Instants and local time

    A [datetime] of the engine is a date, a time of day and a zone. The
    instant it denotes is [timestamp_seconds]: the wall clock minus the
    offset [utcoffset] that the zone gives to that wall clock. Python
    compares two values that carry the same [tzinfo] by their fields
    alone ([datetime_compare]); the instants come into play when a value
    leaves the engine, as in [_format_git_date]. *)

Section LocalTime.
(** [tz.utcoffset(dt)] of a named zone, in seconds, from the fields of
    [dt] (with [fold = 0], as every value of the engine has). *)
Context (zone_utcoffset : string -> datetime -> Z).
(** The offset from UTC, in seconds, in force in a named zone at an
    instant given in seconds since 1970-01-01 00:00 UTC: what
    [tz.fromutc] adds. *)
Context (zone_offset_at : string -> Z -> Z).

Definition offset_at (tz : tzinfo) (unix : Z) : Z :=
  match tz with
  | tz_utc => 0
  | tz_offset minutes => minutes * 60
  | tz_zone name => zone_offset_at name unix
  end.

(** [dt.astimezone(timezone.utc).astimezone(tz)]: the date and the time
    of day that the instant of [dt] has in the zone [tz]. *)
Definition local_datetime (tz : tzinfo) (dt : datetime) : datetime :=
  let unix := timestamp_seconds zone_utcoffset dt in
  let wall := unix + _EPOCH_ORDINAL * 86400 + offset_at tz unix in
  let s := wall mod 86400 in
  mk_datetime (wall / 86400) (mk_time (s / 3600) (s mod 3600 / 60) (s mod 60)) tz.

(** The fields of [dt] are the local date and time of an instant of its
    zone: the offset in force at the instant of [dt] is the one its
    fields were read with. It fails for a time of day inside an hour
    that the zone skips. *)
Definition exists_in_zone (dt : datetime) : Prop :=
  offset_at (dt_tz dt) (timestamp_seconds zone_utcoffset dt)
  = utcoffset zone_utcoffset dt.

End LocalTime.

(** ** Europe/Paris on 31 March 2024

    On that Sunday the zone goes from UTC+1 to UTC+2 at 01:00 UTC: the
    local clocks jump from 02:00 to 03:00 and the times of day from
    02:00:00 to 02:59:59 do not exist. *)

Module Paris.

(** 2024-03-31, a Sunday. *)
Definition march_31 : date := 738976.

(** [ZoneInfo("Europe/Paris").utcoffset(dt)] for the fields of [dt],
    within the winter and summer of 2024: one hour before 03:00 on the
    wall clock of 31 March, the skipped hour included (for [fold = 0]
    [zoneinfo] reads a skipped time with the offset in force before
    the change), two hours from 03:00 on. *)
Definition zone_utcoffset (name : string) (dt : datetime) : Z :=
  if wall_seconds dt <? march_31 * 86400 + 3 * 3600 then 3600 else 7200.

(** The offset in force at an instant: one hour before 2024-03-31
    01:00:00 UTC (1711846800), two hours from then on. *)
Definition zone_offset_at (name : string) (unix : Z) : Z :=
  if unix <? 1711846800 then 3600 else 7200.

(** The runtime of [Demo], with a zone database that knows the zone. *)
Definition runtime : PyRuntime := {|
  rng := Z;
  entropy := Z;
  Random_seeded := fun s => s;
  Random_unseeded := fun e => e;
  randint_draw := Demo.lcg_draw;
  strptime_ymd := Demo.parse_ymd;
  int_of_str := Demo.parse_digits;
  str_strip := fun s => s;
  str_upper := Demo.upper;
  ZoneInfo := fun name =>
    if String.eqb name "Europe/Paris" then zone_found else zone_not_found
|}.

(** A policy for that Sunday alone, with work from 01:30 to 03:30. *)
Definition cfg : Config :=
  mk_Config (mk_TimestampConfig "synthetic") (mk_ScopeConfig Float.one)
    (Some [("start"%string, VStr "2024-03-31"); ("end"%string, VStr "2024-03-31");
           ("timezone"%string, VStr "Europe/Paris")])
    (Some [("weekdays"%string, VDict [("enabled"%string, VBool false)]);
           ("saturday"%string, VDict [("enabled"%string, VBool false)]);
           ("sunday"%string,
             VDict [("enabled"%string, VBool true);
                    ("hours"%string, Demo.hours_doc "01:30" "03:30")])])
    (Some [("seed"%string, VInt 0);
           ("gap_minutes"%string, VDict [("min"%string, VInt 1); ("max"%string, VInt 30)]);
           ("seconds"%string, VDict [("min"%string, VInt 0); ("max"%string, VInt 59)])]).

Definition zone : tzinfo := tz_zone "Europe/Paris".

Definition sunday_hours : ParsedWorkHours :=
  mk_ParsedWorkHours (mk_time 1 30 0) (mk_time 3 30 0).

Definition work : ParsedWorkPatterns :=
  mk_ParsedWorkPatterns Demo.day_off Demo.day_off
    (mk_ParsedWorkBlock true (Some sunday_hours)).

(** What [validate_config] makes of [cfg]. *)
Definition vc : ValidatedConfig :=
  mk_ValidatedConfig (mk_TimestampConfig "synthetic") (mk_ScopeConfig Float.one)
    (Some (mk_ParsedCalendar march_31 march_31 "Europe/Paris" zone))
    (Some work)
    (Some (mk_ParsedRandomness (Some 0) 1 30 0 59)).

Definition commits2 : list Commit := [Demo.commit "a1" 0; Demo.commit "b2" 1].

(** The two values the engine computes: 02:54:46 and 03:00:50 on the
    wall clock of that Sunday. *)
Definition first_stamp : datetime := mk_datetime march_31 (mk_time 2 54 46) zone.
Definition second_stamp : datetime := mk_datetime march_31 (mk_time 3 0 50) zone.

Definition stamps2 : gmap string datetime :=
  <["b2"%string := second_stamp]> (<["a1"%string := first_stamp]> ∅).

End Paris.

(** * Properties *)

(** ** Results *)

Lemma rbind_Ok {A B} (r : result A) (k : A -> result B) (b : B) :
  rbind r k = Ok b -> exists a, r = Ok a /\ k a = Ok b.
Proof. destruct r as [a|e]; simpl; [eauto | discriminate]. Qed.

Ltac bind_inv H :=
  let a := fresh "a" in
  let Ha := fresh "H" a in
  apply rbind_Ok in H; destruct H as (a & Ha & H).

(** ** Mode dispatch *)

Section Dispatch.
Context {RT : PyRuntime}.

(** C9. With no selected commit, [compute_timestamps] returns the empty
    map in each of the three modes; in synthetic mode this happens before
    the calendar, the work patterns or the randomness section is looked
    at, so the statement asks nothing of these fields. *)
Theorem compute_timestamps_empty (ent : entropy) (config : ValidatedConfig) :
  known_mode (mode (timestamp config)) ->
  compute_timestamps ent [] config = Ok ∅.
Proof.
  intros Hm. unfold compute_timestamps.
  destruct Hm as [-> | [-> | ->]]; reflexivity.
Qed.

(** C7. With a seed in the configuration the result of
    [compute_timestamps] does not depend on anything but the commits and
    the configuration: two invocations agree whatever the entropy of the
    operating system is at each of them. The generator is built inside
    [_synthetic_mode] and is neither an argument nor a result. *)
Theorem compute_timestamps_seeded_deterministic
  (ent1 ent2 : entropy) (commits : list Commit) (config : ValidatedConfig)
  (rnd : ParsedRandomness) (s : Z) :
  mode (timestamp config) = "synthetic"%string ->
  randomness config = Some rnd ->
  seed rnd = Some s ->
  compute_timestamps ent1 commits config = compute_timestamps ent2 commits config.
Proof.
  intros Hm Hr Hs. unfold compute_timestamps. rewrite Hm. simpl.
  unfold _synthetic_mode. rewrite Hr.
  destruct commits as [|c0 rest]; [reflexivity|].
  destruct (calendar config) as [cal|]; [|reflexivity].
  destruct (work_patterns config) as [work|]; [|reflexivity].
  unfold Random. rewrite Hs. reflexivity.
Qed.

End Dispatch.

(** ** Author and commit modes *)

Section CopyModes.
Context {RT : PyRuntime}.

Lemma foldl_insert_stamp_lookup (stamp : Commit -> datetime)
  (commits : list Commit) (m0 : gmap string datetime) (c : Commit) :
  c ∈ commits ->
  (forall c', c' ∈ commits -> hash c' = hash c -> stamp c' = stamp c) ->
  foldl (insert_stamp stamp) m0 commits !! hash c = Some (stamp c).
Proof.
  induction commits as [|x l IH] using rev_ind; intros Hin Hsame.
  - inversion Hin.
  - rewrite foldl_app. simpl. unfold insert_stamp at 1.
    destruct (decide (hash x = hash c)) as [Heq|Hne].
    + rewrite Heq, lookup_insert_eq. f_equal. apply Hsame; [|exact Heq].
      apply elem_of_app. right. apply list_elem_of_singleton. reflexivity.
    + rewrite lookup_insert_ne by exact Hne.
      apply IH.
      * apply elem_of_app in Hin. destruct Hin as [Hin|Hin]; [exact Hin|].
        apply list_elem_of_singleton in Hin. subst x. congruence.
      * intros c' Hc'. apply Hsame. apply elem_of_app. left. exact Hc'.
Qed.

(** C3. In author mode every selected commit's identifier is mapped to
    that commit's own author instant, and in commit mode to its own
    committer instant. The list is any list whose identifiers are content
    hashes ([content_addressed]); the configuration is any configuration
    of that mode. *)
Theorem compute_timestamps_copy_modes
  (ent : entropy) (commits : list Commit) (config : ValidatedConfig) :
  content_addressed commits ->
  (mode (timestamp config) = "author"%string ->
   exists result, compute_timestamps ent commits config = Ok result
     /\ forall c, c ∈ commits -> result !! hash c = Some (author_date c))
  /\
  (mode (timestamp config) = "commit"%string ->
   exists result, compute_timestamps ent commits config = Ok result
     /\ forall c, c ∈ commits -> result !! hash c = Some (committer_date c)).
Proof.
  intros Hca. split; intros Hm; unfold compute_timestamps; rewrite Hm; simpl;
    eexists; (split; [reflexivity|]); intros c Hc;
    apply foldl_insert_stamp_lookup; try exact Hc;
    intros c' Hc' Hh; f_equal; apply Hca; assumption.
Qed.

End CopyModes.

(** ** Validation: the mode and its sections *)

Section ValidateConfig.
Context {RT : PyRuntime}.

(** C8. In author or commit mode a document that carries a calendar, a
    work_patterns or a randomness section is refused with a
    [ValidationError] whose path is a section that is present and whose
    message names that section and the mode; in synthetic mode a document
    that lacks one of the three is refused with a [ValidationError] whose
    path is a section that is missing. *)
Theorem validate_config_sections (cfg : Config) :
  let m := mode (cfg_timestamp cfg) in
  ((m = "author"%string \/ m = "commit"%string) ->
   (cfg_calendar cfg <> None \/ cfg_work_patterns cfg <> None
    \/ cfg_randomness cfg <> None) ->
   exists path,
     validate_config cfg =
       Raise (ValidationError path (path +:+ " is not allowed in " +:+ m +:+ " mode"))
     /\ section_present cfg path)
  /\
  (m = "synthetic"%string ->
   (cfg_calendar cfg = None \/ cfg_work_patterns cfg = None
    \/ cfg_randomness cfg = None) ->
   exists path,
     validate_config cfg =
       Raise (ValidationError path ("missing " +:+ path +:+ " for synthetic mode"))
     /\ section_missing cfg path).
Proof.
  intros m. split.
  - intros Hm Hsec. unfold validate_config. fold m.
    assert (String.eqb m "author" || String.eqb m "commit" = true) as ->.
    { destruct Hm as [-> | ->]; reflexivity. }
    unfold _forbid_synthetic_sections, section_present.
    destruct (cfg_calendar cfg) as [cal|].
    { exists "calendar"%string. split; [reflexivity|]. left. split; [reflexivity|discriminate]. }
    destruct (cfg_work_patterns cfg) as [wp|].
    { exists "work_patterns"%string. split; [reflexivity|].
      right. left. split; [reflexivity|discriminate]. }
    destruct (cfg_randomness cfg) as [rnd|].
    { exists "randomness"%string. split; [reflexivity|].
      right. right. split; [reflexivity|discriminate]. }
    exfalso. destruct Hsec as [H | [H | H]]; apply H; reflexivity.
  - intros Hm Hsec. unfold validate_config. fold m. rewrite Hm. simpl.
    unfold section_missing.
    destruct (cfg_calendar cfg) as [cal|].
    2:{ exists "calendar"%string. split; [reflexivity|]. left. split; reflexivity. }
    destruct (cfg_work_patterns cfg) as [wp|].
    2:{ exists "work_patterns"%string. split; [reflexivity|].
        right. left. split; reflexivity. }
    destruct (cfg_randomness cfg) as [rnd|].
    2:{ exists "randomness"%string. split; [reflexivity|].
        right. right. split; reflexivity. }
    exfalso. destruct Hsec as [H | [H | H]]; discriminate H.
Qed.

(** C10. A successful [validate_config] hands the timestamp and the
    scope records of the input over unchanged, and in author and commit
    mode it leaves the calendar, the work patterns and the randomness of
    the result empty. *)
Theorem validate_config_frame (cfg : Config) (vc : ValidatedConfig) :
  validate_config cfg = Ok vc ->
  timestamp vc = cfg_timestamp cfg
  /\ scope vc = cfg_scope cfg
  /\ mode (timestamp vc) = mode (cfg_timestamp cfg)
  /\ fraction (scope vc) = fraction (cfg_scope cfg)
  /\ ((mode (cfg_timestamp cfg) = "author"%string
       \/ mode (cfg_timestamp cfg) = "commit"%string) ->
      calendar vc = None /\ work_patterns vc = None /\ randomness vc = None).
Proof.
  unfold validate_config. intros H.
  destruct (String.eqb (mode (cfg_timestamp cfg)) "author"
            || String.eqb (mode (cfg_timestamp cfg)) "commit") eqn:Hac.
  - bind_inv H. injection H as <-. simpl.
    split; [reflexivity|]. split; [reflexivity|].
    split; [reflexivity|]. split; [reflexivity|].
    intros _. split; [reflexivity|]. split; reflexivity.
  - destruct (String.eqb (mode (cfg_timestamp cfg)) "synthetic") eqn:Hs;
      simpl in H; [|discriminate].
    destruct (cfg_calendar cfg) as [cal|]; [|discriminate].
    destruct (cfg_work_patterns cfg) as [wp|]; [|discriminate].
    destruct (cfg_randomness cfg) as [rnd|]; [|discriminate].
    bind_inv H. bind_inv H. bind_inv H. injection H as <-. simpl.
    split; [reflexivity|]. split; [reflexivity|].
    split; [reflexivity|]. split; [reflexivity|].
    intros [Hm | Hm]; rewrite Hm in Hac; discriminate Hac.
Qed.

End ValidateConfig.

(** ** Order on instants *)

Lemma datetime_ltb_lt (a b : datetime) : datetime_ltb a b = true <-> dt_lt a b.
Proof.
  unfold datetime_ltb, datetime_compare, dt_lt.
  destruct (Z.compare_spec (dt_date a) (dt_date b));
    destruct (Z.compare_spec (hour (dt_time a)) (hour (dt_time b)));
    destruct (Z.compare_spec (minute (dt_time a)) (minute (dt_time b)));
    destruct (Z.compare_spec (second (dt_time a)) (second (dt_time b)));
    split; intros; try discriminate; try reflexivity; lia.
Qed.

Lemma datetime_leb_le (a b : datetime) : datetime_leb a b = true <-> dt_le a b.
Proof.
  unfold datetime_leb, datetime_compare, dt_le, dt_lt.
  destruct (Z.compare_spec (dt_date a) (dt_date b));
    destruct (Z.compare_spec (hour (dt_time a)) (hour (dt_time b)));
    destruct (Z.compare_spec (minute (dt_time a)) (minute (dt_time b)));
    destruct (Z.compare_spec (second (dt_time a)) (second (dt_time b)));
    split; intros; try discriminate; try reflexivity; lia.
Qed.

Lemma dt_le_refl (a : datetime) : dt_le a a.
Proof. unfold dt_le. right. repeat split; reflexivity. Qed.

Lemma dt_le_trans (a b c : datetime) : dt_le a b -> dt_le b c -> dt_le a c.
Proof. unfold dt_le, dt_lt. lia. Qed.

Lemma dt_lt_le (a b : datetime) : dt_lt a b -> dt_le a b.
Proof. unfold dt_le. auto. Qed.

Lemma make_time_Ok (h m s : Z) (t : time) :
  make_time h m s = Ok t ->
  t = mk_time h m s /\ 0 <= h <= 23 /\ 0 <= m <= 59 /\ 0 <= s <= 59.
Proof.
  unfold make_time.
  destruct (0 <=? h) eqn:H1; [|discriminate].
  destruct (h <=? 23) eqn:H2; [|discriminate].
  destruct (0 <=? m) eqn:H3; [|discriminate].
  destruct (m <=? 59) eqn:H4; [|discriminate].
  destruct (0 <=? s) eqn:H5; [|discriminate].
  destruct (s <=? 59) eqn:H6; [|discriminate].
  simpl. intros [= <-]. split; [reflexivity|]. lia.
Qed.

Lemma datetime_add_Ok (d : datetime) (delta : timedelta) (r : datetime) :
  datetime_add d delta = Ok r ->
  valid_time (dt_time r)
  /\ (valid_time (dt_time d) -> 0 <= delta -> dt_le d r).
Proof.
  unfold datetime_add.
  destruct ((0 <? _) && (_ <=? date_max)); [|discriminate].
  intros [= <-]. simpl. unfold valid_time, dt_le, dt_lt, time_seconds. simpl.
  split.
  - pose proof (Z.mod_pos_bound
      (hour (dt_time d) * 3600 + minute (dt_time d) * 60 + second (dt_time d) + delta)
      86400 ltac:(lia)) as Hs.
    Z.div_mod_to_equations. lia.
  - intros Hv Hd. Z.div_mod_to_equations. lia.
Qed.

(** ** The work-window walk *)

Lemma date_add_days_Ok (d n d' : Z) :
  date_add_days d n = Ok d' -> d' = d + n /\ 1 <= d' <= date_max.
Proof.
  unfold date_add_days.
  destruct (1 <=? d + n) eqn:H1; [|discriminate].
  destruct (d + n <=? date_max) eqn:H2; [|discriminate].
  simpl. intros [= <-]. lia.
Qed.

Lemma usable_hours_Some (block : ParsedWorkBlock) (h : ParsedWorkHours) :
  usable_hours block = Some h -> enabled block = true /\ hours block = Some h.
Proof. unfold usable_hours. destruct (enabled block); [auto | discriminate]. Qed.

Lemma _window_bounds_Ok (day : date) (h : ParsedWorkHours) (z : tzinfo)
  (ws we : datetime) :
  _window_bounds day h z = Ok (ws, we) ->
  ws = combine day (mk_time (hour (hours_start h)) (minute (hours_start h)) 0) z
  /\ we = combine day (mk_time (hour (hours_end h)) (minute (hours_end h)) 59) z
  /\ 0 <= hour (hours_start h) <= 23 /\ 0 <= minute (hours_start h) <= 59
  /\ 0 <= hour (hours_end h) <= 23 /\ 0 <= minute (hours_end h) <= 59.
Proof.
  unfold _window_bounds. intros H.
  bind_inv H. bind_inv H. injection H as <- <-.
  apply make_time_Ok in Ha, Ha0.
  destruct Ha as [-> ?], Ha0 as [-> ?]. repeat split; lia.
Qed.

Section Walk.
Context {RT : PyRuntime} {Laws : PyRuntimeLaws RT}.

Lemma randint_Ok (g g' : rng) (a b v : Z) :
  randint g a b = Ok (v, g') -> a <= v <= b.
Proof.
  unfold randint. destruct (b <? a) eqn:Hab; [discriminate|].
  intros [= Hd]. pose proof (randint_draw_range g a b ltac:(lia)) as Hr.
  rewrite Hd in Hr. exact Hr.
Qed.

Lemma _pick_time_in_window_Ok (g g' : rng) (st en t : time) (sec_min sec_max : Z) :
  _pick_time_in_window g (st, en) sec_min sec_max = Ok (t, g') ->
  valid_time t
  /\ sec_min <= second t <= sec_max
  /\ hour st * 3600 + minute st * 60 <= time_seconds t
  /\ time_seconds t <= hour en * 3600 + minute en * 60 + 59.
Proof.
  unfold _pick_time_in_window.
  destruct (_ <? _) eqn:Hw; [discriminate|]. intros H.
  apply rbind_Ok in H. destruct H as ([r g1] & Hr & H).
  apply rbind_Ok in H. destruct H as ([cs g2] & Hcs & H).
  apply rbind_Ok in H. destruct H as (t' & Ht & H).
  injection H as <- <-.
  apply randint_Ok in Hr, Hcs. apply make_time_Ok in Ht.
  destruct Ht as (-> & Hh & Hm & Hs).
  unfold valid_time, time_seconds. simpl.
  repeat split; try lia.
  - Z.div_mod_to_equations. lia.
  - Z.div_mod_to_equations. lia.
Qed.

Lemma _random_datetime_for_day_Ok (day : date) (work : ParsedWorkPatterns)
  (g g' : rng) (sec_min sec_max : Z) (z : tzinfo) (r : datetime) :
  _random_datetime_for_day day work g sec_min sec_max z = Ok (r, g') ->
  dt_date r = day /\ on_work_day work r.
Proof.
  unfold _random_datetime_for_day.
  destruct (usable_hours _) as [h|] eqn:Hu; [|discriminate]. intros H.
  apply rbind_Ok in H. destruct H as ([t g1] & Hp & H). injection H as <- <-.
  apply usable_hours_Some in Hu. destruct Hu as [He Hh].
  apply _pick_time_in_window_Ok in Hp. destruct Hp as (Hv & _ & Hlo & Hhi).
  split; [reflexivity|]. exists h. simpl.
  split; [exact He|]. split; [exact Hh|].
  split; [exact Hv|]. split; [exact Hlo | exact Hhi].
Qed.

Lemma _next_valid_datetime_loop_Ok (work : ParsedWorkPatterns)
  (sec_min sec_max : Z) (z : tzinfo) (n : nat) :
  forall (day : date) (cand : datetime) (g g' : rng) (r : datetime),
    dt_date cand = day ->
    _next_valid_datetime_loop n day cand work g sec_min sec_max z = Ok (r, g') ->
    dt_le cand r /\ (valid_time (dt_time cand) -> on_work_day work r).
Proof.
  induction n as [|n IH]; intros day cand g g' r Hday H; [discriminate|].
  simpl in H.
  assert (Hnext : forall day',
    date_add_days day 1 = Ok day' ->
    _next_valid_datetime_loop n day' (combine day' (mk_time 0 0 0) z)
      work g sec_min sec_max z = Ok (r, g') ->
    dt_le cand r /\ (valid_time (dt_time cand) -> on_work_day work r)).
  { intros day' Hd Hrec. apply date_add_days_Ok in Hd. destruct Hd as [-> _].
    apply IH in Hrec; [|reflexivity]. destruct Hrec as [Hle Hw]. split.
    - eapply dt_le_trans; [|exact Hle]. apply dt_lt_le. left. simpl. lia.
    - intros _. apply Hw. unfold valid_time. simpl. lia. }
  destruct (usable_hours _) as [h|] eqn:Hu.
  - apply rbind_Ok in H. destruct H as ([ws we] & Hwb & H).
    apply _window_bounds_Ok in Hwb.
    destruct Hwb as (-> & -> & Hsh & Hsm & Heh & Hem).
    destruct (datetime_ltb cand _) eqn:Hlt.
    + apply datetime_ltb_lt in Hlt.
      pose proof H as Hr. apply _random_datetime_for_day_Ok in Hr.
      destruct Hr as [Hd Hon]. split; [|intros _; exact Hon].
      unfold _random_datetime_for_day in H. rewrite Hu in H.
      apply rbind_Ok in H. destruct H as ([t g1] & Hp & H). injection H as <- <-.
      apply _pick_time_in_window_Ok in Hp. destruct Hp as (Hv & _ & Hlo & _).
      revert Hlt Hv Hlo. unfold dt_le, dt_lt, valid_time, time_seconds. simpl. lia.
    + destruct (datetime_leb _ cand && datetime_leb cand _) eqn:Hin.
      * injection H as <- <-. split; [apply dt_le_refl|]. intros Hv.
        apply andb_true_iff in Hin. destruct Hin as [Hlo Hhi].
        apply datetime_leb_le in Hlo, Hhi.
        apply usable_hours_Some in Hu. destruct Hu as [He Hh].
        exists h. rewrite Hday. repeat split; try assumption; try apply Hv.
        -- revert Hlo Hv. unfold dt_le, dt_lt, valid_time, time_seconds. simpl. lia.
        -- revert Hhi Hv. unfold dt_le, dt_lt, valid_time, time_seconds. simpl. lia.
      * apply rbind_Ok in H. destruct H as (day' & Hd & H). eauto.
  - apply rbind_Ok in H. destruct H as (day' & Hd & H). eauto.
Qed.

Lemma _next_valid_datetime_Ok (cand : datetime) (end_day : date)
  (work : ParsedWorkPatterns) (g g' : rng) (sec_min sec_max : Z) (z : tzinfo)
  (r : datetime) :
  _next_valid_datetime cand end_day work g sec_min sec_max z = Ok (r, g') ->
  dt_le cand r /\ (valid_time (dt_time cand) -> on_work_day work r).
Proof.
  unfold _next_valid_datetime. apply _next_valid_datetime_loop_Ok. reflexivity.
Qed.

End Walk.

(** ** What validation guarantees *)

Section ValidationGuarantees.
Context {RT : PyRuntime}.

Lemma validate_randomness_Ok (d : pydict) (r : ParsedRandomness) :
  validate_randomness d = Ok r ->
  0 <= gap_minutes_min r <= gap_minutes_max r
  /\ 0 <= seconds_min r <= seconds_max r /\ seconds_max r <= 59.
Proof.
  unfold validate_randomness. intros H.
  apply rbind_Ok in H. destruct H as (sd & _ & H).
  destruct (dict_get d "gap_minutes") as [| | | | |?|gap_raw]; try discriminate.
  destruct (dict_get d "seconds") as [| | | | |?|sec_raw]; try discriminate.
  apply rbind_Ok in H. destruct H as (gmin & _ & H).
  apply rbind_Ok in H. destruct H as (gmax & _ & H).
  destruct ((gmin <? 0) || (gmax <? 0)) eqn:H1; [discriminate|].
  destruct (gmax <? gmin) eqn:H2; [discriminate|].
  apply rbind_Ok in H. destruct H as (smin & _ & H).
  apply rbind_Ok in H. destruct H as (smax & _ & H).
  destruct ((0 <=? smin) && (smin <=? 59)) eqn:H3; [|discriminate].
  destruct ((0 <=? smax) && (smax <=? 59)) eqn:H4; [|discriminate].
  destruct (smax <? smin) eqn:H5; [discriminate|].
  simpl in H. injection H as <-. simpl. lia.
Qed.

Lemma validate_calendar_Ok {Laws : PyRuntimeLaws RT} (d : pydict) (c : ParsedCalendar) :
  validate_calendar d = Ok c ->
  1 <= cal_start c /\ cal_start c <= cal_end c /\ cal_end c <= date_max.
Proof.
  unfold validate_calendar, _parse_date. intros H.
  destruct (dict_get d "start") as [| | | |start_raw| |]; try discriminate.
  destruct (dict_get d "end") as [| | | |end_raw| |]; try discriminate.
  destruct (strptime_ymd start_raw) as [s0|] eqn:Hs; [|discriminate].
  destruct (strptime_ymd end_raw) as [e0|] eqn:He; [|discriminate].
  simpl in H. destruct (e0 <? s0) eqn:Hlt; [discriminate|].
  apply rbind_Ok in H. destruct H as (nm & _ & H).
  apply rbind_Ok in H. destruct H as (z & _ & H).
  injection H as <-. simpl.
  apply strptime_ymd_range in Hs, He. unfold date_max. lia.
Qed.

Lemma validate_config_synthetic (cfg : Config) (vc : ValidatedConfig) :
  validate_config cfg = Ok vc ->
  mode (timestamp vc) = "synthetic"%string ->
  exists dc dw dr cal work rnd,
    validate_calendar dc = Ok cal
    /\ validate_work_patterns dw = Ok work
    /\ validate_randomness dr = Ok rnd
    /\ calendar vc = Some cal /\ work_patterns vc = Some work
    /\ randomness vc = Some rnd.
Proof.
  unfold validate_config. intros H Hm.
  destruct (String.eqb (mode (cfg_timestamp cfg)) "author"
            || String.eqb (mode (cfg_timestamp cfg)) "commit") eqn:Hac.
  - apply rbind_Ok in H. destruct H as (u & _ & H). injection H as <-.
    simpl in Hm. rewrite Hm in Hac. discriminate Hac.
  - destruct (String.eqb (mode (cfg_timestamp cfg)) "synthetic"); [|discriminate].
    simpl in H.
    destruct (cfg_calendar cfg) as [dc|]; [|discriminate].
    destruct (cfg_work_patterns cfg) as [dw|]; [|discriminate].
    destruct (cfg_randomness cfg) as [dr|]; [|discriminate].
    apply rbind_Ok in H. destruct H as (cal & Hc & H).
    apply rbind_Ok in H. destruct H as (work & Hw & H).
    apply rbind_Ok in H. destruct H as (rnd & Hr & H).
    injection H as <-. exists dc, dw, dr, cal, work, rnd. simpl. auto 10.
Qed.

End ValidationGuarantees.

(** ** The synthetic timeline *)

Lemma assign_all_keep (cts : list (Commit * datetime)) :
  forall (results : gmap string datetime) (h : string),
    h ∉ (fun ct => hash (fst ct)) <$> cts ->
    assign_all results cts !! h = results !! h.
Proof.
  induction cts as [|[c t] cts IH]; intros results h Hn; [reflexivity|].
  unfold assign_all in *. simpl. rewrite IH.
  - apply lookup_insert_ne. intros Heq. apply Hn. simpl. rewrite Heq. left.
  - intros Hin. apply Hn. simpl. right. exact Hin.
Qed.

Lemma assign_all_lookup (cts : list (Commit * datetime)) :
  forall (results : gmap string datetime) (i : nat) (c : Commit) (t : datetime),
    NoDup ((fun ct => hash (fst ct)) <$> cts) ->
    cts !! i = Some (c, t) ->
    assign_all results cts !! hash c = Some t.
Proof.
  induction cts as [|[c0 t0] cts IH]; intros results i c t Hnd Hi.
  - destruct i; discriminate Hi.
  - simpl in Hnd. apply NoDup_cons in Hnd. destruct Hnd as [Hn Hnd].
    destruct i as [|i]; simpl in Hi.
    + injection Hi as -> ->. unfold assign_all. simpl.
      fold (assign_all (<[hash c := t]> results) cts).
      rewrite assign_all_keep by exact Hn. apply lookup_insert_eq.
    + unfold assign_all. simpl. fold (assign_all (<[hash c0 := t0]> results) cts).
      eapply IH; eassumption.
Qed.

Lemma assign_all_value (cts : list (Commit * datetime)) :
  forall (results : gmap string datetime) (h : string) (t : datetime),
    assign_all results cts !! h = Some t ->
    results !! h = Some t \/ t ∈ snd <$> cts.
Proof.
  induction cts as [|[c0 t0] cts IH]; intros results h t H; [left; exact H|].
  unfold assign_all in H. simpl in H.
  fold (assign_all (<[hash c0 := t0]> results) cts) in H.
  apply IH in H. destruct H as [H|H].
  - destruct (decide (hash c0 = h)) as [<-|Hne].
    + rewrite lookup_insert_eq in H. injection H as <-. right. simpl. left.
    + rewrite lookup_insert_ne in H by exact Hne. left. exact H.
  - right. simpl. right. exact H.
Qed.

Lemma chain_sorted (ts : list datetime) :
  forall (t0 : datetime) (i j : nat) (ti tj : datetime),
    chain t0 ts -> (i <= j)%nat ->
    (t0 :: ts) !! i = Some ti -> (t0 :: ts) !! j = Some tj -> dt_le ti tj.
Proof.
  induction ts as [|t1 ts IH]; intros t0 i j ti tj Hc Hij Hi Hj.
  - destruct i as [|i]; [|destruct i; discriminate Hi].
    destruct j as [|j]; [|destruct j; discriminate Hj].
    simpl in Hi, Hj. injection Hi as <-. injection Hj as <-. apply dt_le_refl.
  - destruct Hc as [H01 Hc].
    destruct i as [|i].
    + simpl in Hi. injection Hi as <-.
      destruct j as [|j].
      * simpl in Hj. injection Hj as <-. apply dt_le_refl.
      * apply dt_le_trans with t1; [exact H01|].
        apply (IH t1 0%nat j t1 tj Hc); [lia | reflexivity | exact Hj].
    + destruct j as [|j]; [lia|].
      apply (IH t1 i j ti tj Hc); [lia | exact Hi | exact Hj].
Qed.

Section Timeline.
Context {RT : PyRuntime} {Laws : PyRuntimeLaws RT}.

Lemma _random_gap_Ok (g g' : rng) (gap_min gap_max sec_min sec_max : Z)
  (delta : timedelta) :
  _random_gap g gap_min gap_max sec_min sec_max = Ok (delta, g') ->
  gap_min * 60 + sec_min <= delta.
Proof.
  unfold _random_gap. intros H.
  apply rbind_Ok in H. destruct H as ([mi g1] & Hmi & H).
  apply rbind_Ok in H. destruct H as ([se g2] & Hse & H).
  apply rbind_Ok in H. destruct H as (d & Hd & H). injection H as <- <-.
  apply randint_Ok in Hmi, Hse. unfold make_timedelta in Hd.
  destruct (_ <=? _); [|discriminate]. injection Hd as <-. lia.
Qed.

Lemma _synthetic_loop_Ok (end_day : date) (work : ParsedWorkPatterns)
  (gap_min gap_max sec_min sec_max : Z) (z : tzinfo) (rest : list Commit) :
  forall (current : datetime) (results : gmap string datetime) (g : rng)
         (m : gmap string datetime),
    _synthetic_loop rest current results g end_day work
      gap_min gap_max sec_min sec_max z = Ok m ->
    valid_time (dt_time current) ->
    exists ts : list datetime,
      length ts = length rest
      /\ m = assign_all results (zip rest ts)
      /\ Forall (on_work_day work) ts
      /\ (0 <= gap_min -> 0 <= sec_min -> chain current ts).
Proof.
  induction rest as [|c rest IH]; intros current results g m H Hv.
  - injection H as <-. exists []. repeat split; constructor.
  - simpl in H.
    apply rbind_Ok in H. destruct H as ([gap g1] & Hgap & H).
    apply rbind_Ok in H. destruct H as (cand & Hadd & H).
    apply rbind_Ok in H. destruct H as ([next g2] & Hnext & H).
    apply _random_gap_Ok in Hgap.
    apply datetime_add_Ok in Hadd. destruct Hadd as [Hcv Hcle].
    apply _next_valid_datetime_Ok in Hnext. destruct Hnext as [Hnle Hon].
    specialize (Hon Hcv).
    assert (Hnv : valid_time (dt_time next)).
    { destruct Hon as (h & _ & _ & Hw). apply Hw. }
    apply IH in H; [|exact Hnv].
    destruct H as (ts & Hlen & -> & Hall & Hch).
    exists (next :: ts). simpl. split; [lia|]. split; [reflexivity|].
    split; [constructor; assumption|].
    intros Hg Hs. split; [|apply Hch; assumption].
    eapply dt_le_trans; [|exact Hnle]. apply Hcle; [exact Hv | lia].
Qed.

Lemma _synthetic_mode_Ok (ent : entropy) (first : Commit) (rest : list Commit)
  (config : ValidatedConfig) (m : gmap string datetime) :
  _synthetic_mode ent (first :: rest) config = Ok m ->
  exists cal work rnd t0 ts,
    calendar config = Some cal /\ work_patterns config = Some work
    /\ randomness config = Some rnd
    /\ length ts = length rest
    /\ m = assign_all ∅ (zip (first :: rest) (t0 :: ts))
    /\ Forall (on_work_day work) (t0 :: ts)
    /\ (0 <= gap_minutes_min rnd -> 0 <= seconds_min rnd -> chain t0 ts).
Proof.
  unfold _synthetic_mode. intros H.
  destruct (calendar config) as [cal|]; [|discriminate].
  destruct (work_patterns config) as [work|]; [|discriminate].
  destruct (randomness config) as [rnd|]; [|discriminate].
  apply rbind_Ok in H. destruct H as (day0 & _ & H).
  apply rbind_Ok in H. destruct H as ([t0 g1] & Ht0 & H).
  apply _random_datetime_for_day_Ok in Ht0. destruct Ht0 as [_ Hon0].
  assert (Hv0 : valid_time (dt_time t0)).
  { destruct Hon0 as (h & _ & _ & Hw). apply Hw. }
  apply _synthetic_loop_Ok in H; [|exact Hv0].
  destruct H as (ts & Hlen & -> & Hall & Hch).
  exists cal, work, rnd, t0, ts.
  split; [reflexivity|]. split; [reflexivity|]. split; [reflexivity|].
  split; [exact Hlen|]. split; [reflexivity|].
  split; [constructor; assumption | exact Hch].
Qed.

End Timeline.

(** ** The loops, as the code writes them *)

Section Loops.
Context {RT : PyRuntime}.

Lemma _next_enabled_day_step (start_day end_day : date) (work : ParsedWorkPatterns) :
  _next_enabled_day start_day end_day work =
    if start_day <=? end_day then
      if enabled (_work_block_for_day start_day work) then Ok start_day
      else
        let* day := date_add_days start_day 1 in
        _next_enabled_day day end_day work
    else Raise exhausted.
Proof.
  unfold _next_enabled_day. destruct (Z.leb_spec start_day end_day) as [Hle|Hgt].
  - replace (Z.to_nat (end_day - start_day + 1))
      with (S (Z.to_nat (end_day - (start_day + 1) + 1))) by lia.
    simpl. destruct (enabled _); [reflexivity|].
    destruct (date_add_days start_day 1) as [d|e] eqn:Hd; [|reflexivity].
    apply date_add_days_Ok in Hd. destruct Hd as [-> _]. reflexivity.
  - replace (Z.to_nat (end_day - start_day + 1)) with O by lia. reflexivity.
Qed.

Lemma _next_enabled_day_loop_exhausted (work : ParsedWorkPatterns) (n : nat) :
  forall day : date,
    0 <= day -> day + Z.of_nat n <= date_max ->
    (forall d, day <= d < day + Z.of_nat n ->
       enabled (_work_block_for_day d work) = false) ->
    _next_enabled_day_loop n day work = Raise exhausted.
Proof.
  induction n as [|n IH]; intros day H0 Hmax Hoff; [reflexivity|].
  simpl. rewrite Hoff by lia.
  unfold date_add_days.
  replace ((1 <=? day + 1) && (day + 1 <=? date_max)) with true
    by (symmetry; apply andb_true_iff; split; apply Z.leb_le; lia).
  simpl. apply IH; [lia | lia |]. intros d Hd. apply Hoff. lia.
Qed.

Lemma _next_valid_datetime_loop_step (day end_day : date) (cand : datetime)
  (work : ParsedWorkPatterns) (g : rng) (sec_min sec_max : Z) (z : tzinfo) :
  _next_valid_datetime_loop (Z.to_nat (end_day - day + 1)) day cand
    work g sec_min sec_max z =
    if day <=? end_day then
      match usable_hours (_work_block_for_day day work) with
      | None =>
          let* day' := date_add_days day 1 in
          _next_valid_datetime_loop (Z.to_nat (end_day - day' + 1)) day'
            (combine day' (mk_time 0 0 0) z) work g sec_min sec_max z
      | Some h =>
          let* (window_start, window_end) := _window_bounds day h z in
          if datetime_ltb cand window_start
          then _random_datetime_for_day day work g sec_min sec_max z
          else if datetime_leb window_start cand && datetime_leb cand window_end
          then Ok (cand, g)
          else
            let* day' := date_add_days day 1 in
            _next_valid_datetime_loop (Z.to_nat (end_day - day' + 1)) day'
              (combine day' (mk_time 0 0 0) z) work g sec_min sec_max z
      end
    else Raise exhausted.
Proof.
  destruct (Z.leb_spec day end_day) as [Hle|Hgt].
  - replace (Z.to_nat (end_day - day + 1))
      with (S (Z.to_nat (end_day - (day + 1) + 1))) by lia.
    simpl.
    assert (Hnext :
      (let* day0 := date_add_days day 1 in
       _next_valid_datetime_loop (Z.to_nat (end_day - (day + 1) + 1)) day0
         (combine day0 (mk_time 0 0 0) z) work g sec_min sec_max z)
      = (let* day' := date_add_days day 1 in
         _next_valid_datetime_loop (Z.to_nat (end_day - day' + 1)) day'
           (combine day' (mk_time 0 0 0) z) work g sec_min sec_max z)).
    { destruct (date_add_days day 1) as [d|e] eqn:Hd; [|reflexivity].
      apply date_add_days_Ok in Hd. destruct Hd as [-> _]. reflexivity. }
    destruct (usable_hours _) as [h|]; [|exact Hnext].
    destruct (_window_bounds day h z) as [[ws we]|e]; [|reflexivity].
    simpl. destruct (datetime_ltb cand ws); [reflexivity|].
    destruct (datetime_leb ws cand && datetime_leb cand we); [reflexivity|].
    exact Hnext.
  - replace (Z.to_nat (end_day - day + 1)) with O by lia. reflexivity.
Qed.

(** On the last representable date the day increment of the loop fails
    before the loop condition can. *)
Lemma _next_enabled_day_overflow (work : ParsedWorkPatterns) :
  enabled (_work_block_for_day date_max work) = false ->
  _next_enabled_day date_max date_max work = Raise OverflowError.
Proof.
  intros Hoff. rewrite _next_enabled_day_step, Z.leb_refl, Hoff. reflexivity.
Qed.

End Loops.

(** ** Synthetic mode *)

Section Synthetic.
Context {RT : PyRuntime} {Laws : PyRuntimeLaws RT}.

(** The order of the wall clock. For a validated synthetic configuration
    and a non-empty list of commits with distinct identifiers, whenever
    [compute_timestamps] returns, the dates and times of day it assigns
    are non-decreasing along the list in the order of [datetime_compare],
    in which the zone plays no part. And [_next_valid_datetime] never
    returns a date and time of day before those of its candidate. *)
Lemma synthetic_timeline_wall_clock_order
  (cfg : Config) (vc : ValidatedConfig) (ent : entropy)
  (commits : list Commit) (m : gmap string datetime) :
  validate_config cfg = Ok vc ->
  mode (timestamp vc) = "synthetic"%string ->
  commits <> [] ->
  NoDup (hash <$> commits) ->
  compute_timestamps ent commits vc = Ok m ->
  (forall (i j : nat) (ci cj : Commit),
     (i <= j)%nat -> commits !! i = Some ci -> commits !! j = Some cj ->
     exists ti tj,
       m !! hash ci = Some ti /\ m !! hash cj = Some tj
       /\ datetime_leb ti tj = true)
  /\
  (forall (candidate : datetime) (end_day : date) (work : ParsedWorkPatterns)
          (g g' : rng) (sec_min sec_max : Z) (z : tzinfo) (r : datetime),
     _next_valid_datetime candidate end_day work g sec_min sec_max z = Ok (r, g') ->
     datetime_leb candidate r = true).
Proof.
  intros Hval Hm Hne Hnd H. split.
  2:{ intros candidate end_day work g g' sec_min sec_max z r Hr.
      apply datetime_leb_le. apply _next_valid_datetime_Ok in Hr. apply Hr. }
  destruct commits as [|first rest]; [congruence|].
  unfold compute_timestamps in H. rewrite Hm in H. simpl in H.
  apply _synthetic_mode_Ok in H.
  destruct H as (cal & work & rnd & t0 & ts & Hc & Hw & Hr & Hlen & -> & Hall & Hch).
  destruct (validate_config_synthetic cfg vc Hval Hm)
    as (dc & dw & dr & cal' & work' & rnd' & _ & _ & Hvr & _ & _ & Hr').
  rewrite Hr in Hr'. injection Hr' as <-.
  apply validate_randomness_Ok in Hvr.
  specialize (Hch ltac:(lia) ltac:(lia)).
  assert (Hlen' : length (first :: rest) = length (t0 :: ts)) by (simpl; lia).
  assert (Hnd' : NoDup ((fun ct => hash (fst ct)) <$> zip (first :: rest) (t0 :: ts))).
  { change (fun ct : Commit * datetime => hash (fst ct)) with (hash ∘ (@fst Commit datetime)).
    rewrite list_fmap_compose, fst_zip by lia. exact Hnd. }
  intros i j ci cj Hij Hi Hj.
  destruct (lookup_lt_is_Some_2 (t0 :: ts) i) as [ti Hti].
  { rewrite <- Hlen'. eapply lookup_lt_Some. exact Hi. }
  destruct (lookup_lt_is_Some_2 (t0 :: ts) j) as [tj Htj].
  { rewrite <- Hlen'. eapply lookup_lt_Some. exact Hj. }
  exists ti, tj.
  split; [|split].
  - eapply assign_all_lookup; [exact Hnd'|]. apply lookup_zip_Some. eauto.
  - eapply assign_all_lookup; [exact Hnd'|]. apply lookup_zip_Some. eauto.
  - apply datetime_leb_le. eapply chain_sorted; eassumption.
Qed.

Lemma assign_all_is_Some (cts : list (Commit * datetime)) :
  forall (results : gmap string datetime) (h : string),
    is_Some (results !! h) \/ h ∈ (fun ct => hash (fst ct)) <$> cts ->
    is_Some (assign_all results cts !! h).
Proof.
  induction cts as [|[c0 t0] cts IH]; intros results h Hh.
  - destruct Hh as [Hh|Hh]; [exact Hh | inversion Hh].
  - unfold assign_all. simpl. fold (assign_all (<[hash c0 := t0]> results) cts).
    apply IH. destruct (decide (hash c0 = h)) as [<-|Hne].
    + left. rewrite lookup_insert_eq. eauto.
    + destruct Hh as [Hh|Hh].
      * left. rewrite lookup_insert_ne by exact Hne. exact Hh.
      * right. rewrite fmap_cons in Hh. apply elem_of_cons in Hh.
        destruct Hh as [Hh|Hh]; [simpl in Hh; congruence | exact Hh].
Qed.

(** The windows on the wall clock. Whenever [compute_timestamps] returns
    in synthetic mode for a non-empty list of commits, every commit has a
    value, and the date field of every value has an enabled work block,
    its time-of-day field lying between the block's start minute
    (second 0) and its end minute (second 59). Nothing is said of the
    zone. The property needs nothing from validation. *)
Lemma synthetic_timeline_wall_clock_windows
  (vc : ValidatedConfig) (ent : entropy) (commits : list Commit)
  (m : gmap string datetime) :
  mode (timestamp vc) = "synthetic"%string ->
  commits <> [] ->
  compute_timestamps ent commits vc = Ok m ->
  exists work,
    work_patterns vc = Some work
    /\ (forall c, c ∈ commits -> is_Some (m !! hash c))
    /\ (forall (h : string) (t : datetime), m !! h = Some t ->
          exists hrs,
            enabled (_work_block_for_day (dt_date t) work) = true
            /\ hours (_work_block_for_day (dt_date t) work) = Some hrs
            /\ in_work_window hrs (dt_time t)).
Proof.
  intros Hm Hne H.
  destruct commits as [|first rest]; [congruence|].
  unfold compute_timestamps in H. rewrite Hm in H. simpl in H.
  apply _synthetic_mode_Ok in H.
  destruct H as (cal & work & rnd & t0 & ts & Hc & Hw & Hr & Hlen & -> & Hall & _).
  exists work. split; [exact Hw|]. split.
  - intros c Hc'. apply assign_all_is_Some. right.
    change (fun ct : Commit * datetime => hash (fst ct)) with (hash ∘ (@fst Commit datetime)).
    rewrite list_fmap_compose, fst_zip by (simpl; lia).
    apply list_elem_of_fmap_2. exact Hc'.
  - intros h t Ht. apply assign_all_value in Ht. destruct Ht as [Ht|Ht].
    + rewrite lookup_empty in Ht. discriminate Ht.
    + rewrite snd_zip in Ht by (simpl; lia).
      rewrite Forall_forall in Hall. apply Hall in Ht. exact Ht.
Qed.

(** C6, amended. For a validated synthetic configuration whose calendar
    ends before 9999-12-31 and has no date with an enabled work block,
    [compute_timestamps] fails with the engine error "Synthetic calendar
    window exhausted" for every non-empty list of commits. *)
Theorem synthetic_calendar_exhausted
  (cfg : Config) (vc : ValidatedConfig) (ent : entropy) (commits : list Commit)
  (cal : ParsedCalendar) (work : ParsedWorkPatterns) :
  validate_config cfg = Ok vc ->
  mode (timestamp vc) = "synthetic"%string ->
  calendar vc = Some cal ->
  work_patterns vc = Some work ->
  commits <> [] ->
  cal_end cal < date_max ->
  (forall d : date, cal_start cal <= d <= cal_end cal ->
     enabled (_work_block_for_day d work) = false) ->
  compute_timestamps ent commits vc =
    Raise (EngineError "Synthetic calendar window exhausted").
Proof.
  intros Hval Hm Hc Hw Hne Hend Hoff.
  destruct (validate_config_synthetic cfg vc Hval Hm)
    as (dc & dw & dr & cal' & work' & rnd & Hvc & _ & _ & Hc' & _ & Hr).
  rewrite Hc in Hc'. injection Hc' as <-.
  apply validate_calendar_Ok in Hvc. destruct Hvc as (Hs & Hse & _).
  destruct commits as [|first rest]; [congruence|].
  unfold compute_timestamps. rewrite Hm. simpl.
  unfold _synthetic_mode. rewrite Hc, Hw, Hr.
  unfold _next_enabled_day.
  rewrite _next_enabled_day_loop_exhausted; [reflexivity | lia | lia |].
  intros d Hd. apply Hoff. lia.
Qed.

End Synthetic.

(** ** Rounding of binary64 values

    Facts about [binary_round_aux] (round to nearest, ties to even) that
    the scope selector depends on: rounding a positive value that is at
    most [T] gives a value that is at most [T], when [T] is itself on the
    grid of the doubles. Values [m * 2^e] are compared after scaling by
    [2^K], with [K] large enough to make every exponent non-negative. *)

Module Rounding.

Lemma digits2_pos_bounds (p : positive) :
  2 ^ (Zpos (digits2_pos p) - 1) <= Zpos p < 2 ^ Zpos (digits2_pos p).
Proof.
  induction p as [p IH|p IH|]; simpl digits2_pos.
  - rewrite Pos2Z.inj_succ.
    replace (Z.succ (Zpos (digits2_pos p)) - 1) with (Z.succ (Zpos (digits2_pos p) - 1)) by lia.
    rewrite !Z.pow_succ_r by lia. lia.
  - rewrite Pos2Z.inj_succ.
    replace (Z.succ (Zpos (digits2_pos p)) - 1) with (Z.succ (Zpos (digits2_pos p) - 1)) by lia.
    rewrite !Z.pow_succ_r by lia. lia.
  - simpl. lia.
Qed.

Lemma shr_1_shifted (M k : Z) (mrs : shr_record) :
  0 <= k -> shifted M k mrs -> shifted M (k + 1) (shr_1 mrs).
Proof.
  intros Hk [H0 H]. unfold shifted.
  rewrite Z.pow_add_r by lia. change (2 ^ 1) with 2.
  assert (Hp : 0 < 2 ^ k) by (apply Z.pow_pos_nonneg; lia).
  destruct mrs as [m r s]. simpl in *.
  destruct m as [|p|p]; [| |lia].
  - simpl. destruct (r || s); simpl; lia.
  - destruct p as [p|p|]; simpl.
    + rewrite Pos2Z.inj_xI in H. destruct (r || s); nia.
    + rewrite Pos2Z.inj_xO in H. destruct (r || s); simpl; nia.
    + destruct (r || s); nia.
Qed.

Lemma iter_pos_shr_1_shifted (M : Z) (p : positive) :
  forall (k : Z) (mrs : shr_record),
    0 <= k -> shifted M k mrs ->
    shifted M (k + Zpos p) (SpecFloat.iter_pos shr_1 p mrs).
Proof.
  induction p as [p IH|p IH|]; intros k mrs Hk H; simpl SpecFloat.iter_pos.
  - replace (k + Zpos p~1) with (k + 1 + Zpos p + Zpos p) by lia.
    apply IH; [lia|]. apply IH; [lia|]. apply shr_1_shifted; assumption.
  - replace (k + Zpos p~0) with (k + Zpos p + Zpos p) by lia.
    apply IH; [lia|]. apply IH; assumption.
  - apply shr_1_shifted; assumption.
Qed.

Lemma shr_shifted (M e n : Z) :
  0 <= M ->
  exists k,
    0 <= k
    /\ snd (shr (Build_shr_record M false false) e n) = e + k
    /\ shifted M k (fst (shr (Build_shr_record M false false) e n))
    /\ (k = 0 -> fst (shr (Build_shr_record M false false) e n)
                 = Build_shr_record M false false)
    /\ (0 < k -> k = n).
Proof.
  intros HM.
  assert (H0 : shifted M 0 (Build_shr_record M false false)).
  { unfold shifted. simpl. lia. }
  destruct n as [|p|p]; simpl.
  - exists 0. split; [lia|]. split; [lia|]. split; [exact H0|].
    split; [reflexivity | lia].
  - exists (Zpos p). split; [lia|]. split; [reflexivity|]. split.
    + apply (iter_pos_shr_1_shifted M p 0 _ ltac:(lia) H0).
    + split; [lia | reflexivity].
  - exists 0. split; [lia|]. split; [lia|]. split; [exact H0|].
    split; [reflexivity | lia].
Qed.

Lemma round_nearest_even_cases (mrs : shr_record) :
  round_nearest_even (shr_m mrs) (loc_of_shr_record mrs) = shr_m mrs
  \/ (round_nearest_even (shr_m mrs) (loc_of_shr_record mrs) = shr_m mrs + 1
      /\ shr_r mrs || shr_s mrs = true).
Proof.
  destruct mrs as [m r s]. destruct r, s; simpl; auto.
  destruct (Z.even m); auto.
Qed.

Lemma scaled_le_cancel (a b X : Z) : 0 < X -> a * X <= b * X -> a <= b.
Proof. intros HX H. nia. Qed.

Lemma binary_round_aux_le (K T : Z) (sx : bool) (m : positive) (e : Z) :
  0 <= K -> 0 <= e + K -> on_grid T -> T < 2 ^ 900 ->
  Zpos m * 2 ^ (e + K) <= T * 2 ^ K ->
  binary_round_aux 53 1024 sx (Zpos m) e loc_Exact = S754_zero sx
  \/ exists m' e',
       binary_round_aux 53 1024 sx (Zpos m) e loc_Exact = S754_finite sx m' e'
       /\ e <= e' /\ Zpos m' * 2 ^ (e' + K) <= T * 2 ^ K.
Proof.
  intros HK HeK Hgrid HT Hle.
  unfold binary_round_aux, shr_fexp.
  change (shr_record_of_loc (Zpos m) loc_Exact)
    with (Build_shr_record (Zpos m) false false).
  set (n1 := fexp 53 1024 (Zdigits2 (Zpos m) + e) - e).
  destruct (shr_shifted (Zpos m) e n1 ltac:(lia)) as (k1 & Hk1 & He1 & Hs1 & Hid1 & Hn1).
  destruct (shr (Build_shr_record (Zpos m) false false) e n1) as [mrs1 e1].
  simpl in He1, Hs1, Hid1. subst e1.
  set (m1 := round_nearest_even (shr_m mrs1) (loc_of_shr_record mrs1)).
  assert (HX : 0 < 2 ^ (e + K)) by (apply Z.pow_pos_nonneg; lia).
  assert (HXK : 0 < 2 ^ K) by (apply Z.pow_pos_nonneg; lia).
  assert (Hk1p : 0 < 2 ^ k1) by (apply Z.pow_pos_nonneg; lia).
  assert (Hm1 : 0 <= m1 /\ m1 * 2 ^ (e + k1 + K) <= T * 2 ^ K).
  { destruct Hs1 as [Hs0 Hs1].
    replace (e + k1 + K) with (k1 + (e + K)) by lia.
    rewrite Z.pow_add_r by lia.
    destruct (round_nearest_even_cases mrs1) as [Heq | [Heq Hrs]]; fold m1 in Heq.
    - rewrite Heq. split; [lia|].
      destruct (shr_r mrs1 || shr_s mrs1); nia.
    - rewrite Heq. split; [lia|]. rewrite Hrs in Hs1.
      assert (Hk1pos : 0 < k1).
      { destruct (Z.eq_dec k1 0) as [Hz|Hz]; [|lia].
        rewrite (Hid1 Hz) in Hrs. discriminate Hrs. }
      specialize (Hn1 Hk1pos).
      set (e1 := e + k1) in *.
      assert (He1 : e1 = fexp 53 1024 (Zdigits2 (Zpos m) + e)) by (unfold e1, n1 in *; lia).
      assert (Hstrict : shr_m mrs1 * 2 ^ (e1 + K) < T * 2 ^ K).
      { unfold e1. replace (e + k1 + K) with (k1 + (e + K)) by lia.
        rewrite Z.pow_add_r by lia. nia. }
      rewrite <- Z.pow_add_r by lia. replace (k1 + (e + K)) with (e1 + K) by (unfold e1; lia).
      assert (HX1 : 0 < 2 ^ (e1 + K)) by (apply Z.pow_pos_nonneg; unfold e1; lia).
      destruct (Z_le_gt_dec e1 0) as [Hneg|Hpos].
      + assert (HTK : T * 2 ^ K = T * 2 ^ (- e1) * 2 ^ (e1 + K)).
        { rewrite <- Z.mul_assoc, <- Z.pow_add_r by (unfold e1; lia).
          f_equal. f_equal. lia. }
        rewrite HTK in *.
        assert (shr_m mrs1 < T * 2 ^ (- e1)) by nia. nia.
      + assert (Hd := digits2_pos_bounds m).
        unfold fexp, SpecFloat.emin in He1. simpl Zdigits2 in He1.
        assert (He1' : e1 = Zpos (digits2_pos m) + e - 53) by lia.
        assert (Hbig : 2 ^ (e1 + 52) <= T).
        { apply (scaled_le_cancel _ _ (2 ^ K) HXK).
          rewrite <- Z.pow_add_r by lia.
          replace (e1 + 52 + K) with ((Zpos (digits2_pos m) - 1) + (e + K)) by lia.
          rewrite Z.pow_add_r by lia. nia. }
        destruct (Hgrid e1 ltac:(lia) Hbig) as [q Hq].
        assert (HTK : T * 2 ^ K = q * 2 ^ (e1 + K)).
        { rewrite Hq, Z.pow_add_r by lia. ring. }
        rewrite HTK in *.
        assert (shr_m mrs1 < q) by nia. nia. }
  destruct Hm1 as [Hm1 Hm1le].
  set (n2 := fexp 53 1024 (Zdigits2 m1 + (e + k1)) - (e + k1)).
  change (shr_record_of_loc m1 loc_Exact) with (Build_shr_record m1 false false).
  destruct (shr_shifted m1 (e + k1) n2 Hm1) as (k2 & Hk2 & He2 & Hs2 & _ & _).
  destruct (shr (Build_shr_record m1 false false) (e + k1) n2) as [mrs2 e2].
  simpl in He2, Hs2. subst e2. destruct Hs2 as [Hs0 Hs2].
  assert (Hfin : shr_m mrs2 * 2 ^ (e + k1 + k2 + K) <= T * 2 ^ K).
  { replace (e + k1 + k2 + K) with (k2 + (e + k1 + K)) by lia.
    rewrite Z.pow_add_r by lia.
    assert (0 < 2 ^ (e + k1 + K)) by (apply Z.pow_pos_nonneg; lia).
    assert (0 < 2 ^ k2) by (apply Z.pow_pos_nonneg; lia).
    destruct (shr_r mrs2 || shr_s mrs2); nia. }
  simpl fst. simpl snd.
  destruct (shr_m mrs2) as [|m2|m2] eqn:Hm2; [left; reflexivity| |lia].
  right.
  assert (Hexp : e + k1 + k2 <= 1024 - 53).
  { assert (2 ^ (e + k1 + k2 + K) < 2 ^ (900 + K)).
    { rewrite (Z.pow_add_r 2 900 K) by lia.
      assert (0 < 2 ^ (e + k1 + k2 + K)) by (apply Z.pow_pos_nonneg; lia).
      nia. }
    apply Z.pow_lt_mono_r_iff in H; lia. }
  apply Z.leb_le in Hexp. rewrite Hexp.
  exists m2, (e + k1 + k2). split; [reflexivity|]. split; [lia | exact Hfin].
Qed.

Lemma pos_iter_xO (d m : positive) : Zpos (Pos.iter xO m d) = Zpos m * 2 ^ Zpos d.
Proof.
  induction d as [|d IH] using Pos.peano_ind.
  - simpl. lia.
  - rewrite Pos.iter_succ, Pos2Z.inj_xO, IH, Pos2Z.inj_succ, Z.pow_succ_r by lia. ring.
Qed.

Lemma shl_align_value (mx : positive) (ex ex' : Z) :
  snd (shl_align mx ex ex') <= ex
  /\ Z.min ex ex' <= snd (shl_align mx ex ex')
  /\ Zpos (fst (shl_align mx ex ex'))
     = Zpos mx * 2 ^ (ex - snd (shl_align mx ex ex')).
Proof.
  unfold shl_align. destruct (ex' - ex) as [|d|d] eqn:Hd; simpl.
  - rewrite Z.sub_diag. simpl. lia.
  - rewrite Z.sub_diag. simpl. lia.
  - rewrite pos_iter_xO. replace (ex - ex') with (Zpos d) by lia. lia.
Qed.

(** [float(n)] for [0 < n <= T]: a finite double that is at most [T]. *)
Lemma of_int_le (K T n : Z) :
  1074 <= K -> on_grid T -> T < 2 ^ 900 -> 0 <= n <= T ->
  Float.of_int n = Ok (S754_zero false)
  \/ exists m e,
       Float.of_int n = Ok (S754_finite false m e)
       /\ -1074 <= e /\ Zpos m * 2 ^ (e + K) <= T * 2 ^ K.
Proof.
  intros HK Hgrid HT Hn. unfold Float.of_int, binary_normalize.
  destruct n as [|p|p]; [left; reflexivity| |lia].
  unfold binary_round.
  pose proof (shl_align_value p 0
    (fexp Float.prec Float.emax (Zpos (digits2_pos p) + 0))) as Hal.
  destruct (shl_align p 0 _) as [mz ez]. simpl in Hal.
  destruct Hal as (Hez0 & Hez1 & Hmz).
  assert (Hfe : -1074 <= fexp Float.prec Float.emax (Zpos (digits2_pos p) + 0)).
  { unfold fexp, SpecFloat.emin, Float.prec, Float.emax. lia. }
  assert (Hval : Zpos mz * 2 ^ (ez + K) <= T * 2 ^ K).
  { rewrite Hmz, <- Z.mul_assoc, <- Z.pow_add_r by lia.
    replace (0 - ez + (ez + K)) with K by lia.
    assert (0 < 2 ^ K) by (apply Z.pow_pos_nonneg; lia). nia. }
  unfold Float.prec, Float.emax.
  destruct (binary_round_aux_le K T false mz ez ltac:(lia) ltac:(lia) Hgrid HT Hval)
    as [Hz | (m' & e' & Hr & He & Hv)].
  - left. rewrite Hz. reflexivity.
  - right. rewrite Hr.
    exists m', e'. split; [reflexivity|]. split; [lia | exact Hv].
Qed.

Lemma unit_range_cases (s : bool) (m : positive) (e : Z) :
  Float.leb Float.neg_one (S754_finite s m e) = true ->
  Float.leb (S754_finite s m e) Float.one = true ->
  e < -52 \/ (e = -52 /\ Zpos m <= 2 ^ 52).
Proof.
  unfold Float.leb, SFleb, SFcompare, Float.one, Float.neg_one.
  change (2 ^ 52) with (Zpos 4503599627370496).
  set (C := 4503599627370496%positive).
  destruct s.
  - intros Hlo _.
    destruct (Z.compare_spec (-52) e) as [Heq|Hlt|Hgt]; [|discriminate Hlo|left; lia].
    right. split; [lia|].
    rewrite Pos.compare_cont_spec in Hlo. simpl Pos.switch_Eq in Hlo.
    apply Pos2Z.pos_le_pos, Pos.le_nlt. intros Hlt.
    apply Pos.compare_lt_iff in Hlt. rewrite Hlt in Hlo. discriminate Hlo.
  - intros _ Hhi.
    destruct (Z.compare_spec e (-52)) as [Heq|Hlt|Hgt]; [|left; lia|discriminate Hhi].
    right. split; [lia|].
    rewrite Pos.compare_cont_spec in Hhi. simpl Pos.switch_Eq in Hhi.
    apply Pos2Z.pos_le_pos, Pos.le_nlt. intros Hlt.
    apply Pos.compare_gt_iff in Hlt. rewrite Hlt in Hhi. discriminate Hhi.
Qed.

(** A valid double in [-1, 1] has magnitude [m * 2^e <= 1]. *)
Lemma unit_range_bound (K : Z) (s : bool) (m : positive) (e : Z) :
  1074 <= K ->
  Float.valid (S754_finite s m e) ->
  Float.leb Float.neg_one (S754_finite s m e) = true ->
  Float.leb (S754_finite s m e) Float.one = true ->
  -1074 <= e /\ Zpos m * 2 ^ (e + K) <= 2 ^ K.
Proof.
  intros HK Hv Hlo Hhi.
  pose proof (unit_range_cases s m e Hlo Hhi) as Hcases. clear Hlo Hhi.
  unfold Float.valid, valid_binary, bounded, canonical_mantissa in Hv.
  apply andb_true_iff in Hv. destruct Hv as [Hc _].
  apply Z.eqb_eq in Hc.
  unfold fexp, SpecFloat.emin, Float.prec, Float.emax in Hc.
  assert (Hd53 : Zpos (digits2_pos m) <= 53) by (clear - Hc; lia).
  assert (He : -1074 <= e) by (clear - Hc; lia).
  clear Hc.
  pose proof (digits2_pos_bounds m) as Hd.
  split; [exact He|].
  assert (HeK : 0 < 2 ^ (e + K)) by (apply Z.pow_pos_nonneg; lia).
  destruct Hcases as [Hlow | [-> Hm]].
  - apply Z.le_trans with (2 ^ Zpos (digits2_pos m) * 2 ^ (e + K)).
    + apply Z.mul_le_mono_nonneg_r; lia.
    + rewrite <- Z.pow_add_r by lia. apply Z.pow_le_mono_r; lia.
  - apply Z.le_trans with (2 ^ 52 * 2 ^ (-52 + K)).
    + apply Z.mul_le_mono_nonneg_r; [lia | exact Hm].
    + rewrite <- Z.pow_add_r by lia. apply Z.pow_le_mono_r; lia.
Qed.

Lemma shiftl_scaled_le (K T e : Z) (m : positive) :
  0 <= K -> 0 <= e + K -> Zpos m * 2 ^ (e + K) <= T * 2 ^ K ->
  0 <= Z.shiftl (Zpos m) e <= T.
Proof.
  intros HK HeK H.
  assert (HXK : 0 < 2 ^ K) by (apply Z.pow_pos_nonneg; lia).
  destruct (Z_le_gt_dec 0 e) as [Hpos|Hneg].
  - rewrite Z.shiftl_mul_pow2 by lia.
    assert (0 < 2 ^ e) by (apply Z.pow_pos_nonneg; lia).
    rewrite Z.pow_add_r in H by lia. split; [nia|]. nia.
  - replace (Z.shiftl (Zpos m) e) with (Zpos m / 2 ^ (- e)).
    2:{ rewrite <- Z.shiftr_div_pow2 by lia. rewrite <- Z.shiftl_opp_r.
        f_equal. lia. }
    assert (Hp : 0 < 2 ^ (- e)) by (apply Z.pow_pos_nonneg; lia).
    assert (HTK : T * 2 ^ K = T * 2 ^ (- e) * 2 ^ (e + K)).
    { rewrite <- Z.mul_assoc, <- Z.pow_add_r by lia. f_equal. f_equal. lia. }
    rewrite HTK in H.
    assert (HeKp : 0 < 2 ^ (e + K)) by (apply Z.pow_pos_nonneg; lia).
    split.
    + apply Z.div_pos; lia.
    + apply Z.div_le_upper_bound; [lia|]. nia.
Qed.

End Rounding.

(** ** Scope selection *)

Lemma on_grid_small (T : Z) : T < 2 ^ 53 -> on_grid T.
Proof.
  intros HT j Hj Hle. exfalso.
  assert (2 ^ 53 <= 2 ^ (j + 52)) by (apply Z.pow_le_mono_r; lia). lia.
Qed.

Lemma on_grid_pow2 (n : Z) : 0 <= n -> on_grid (2 ^ n).
Proof.
  intros Hn j Hj Hle.
  assert (j + 52 <= n).
  { destruct (Z_le_gt_dec (j + 52) n) as [H|H]; [exact H|]. exfalso.
    assert (2 ^ n < 2 ^ (j + 52)) by (apply Z.pow_lt_mono_r; lia). lia. }
  exists (2 ^ (n - j)). rewrite <- Z.pow_add_r by lia. f_equal. lia.
Qed.

(** The product [|fraction| * N] of the selector, for a fraction in
    [-1, 1] and a bound [T] on the grid: it is a finite double, and its
    floor lies between 0 and [T]. *)
Lemma mul_int_floor_le (fraction : float) (N T : Z) :
  Float.valid fraction ->
  Float.leb Float.neg_one fraction = true ->
  Float.leb fraction Float.one = true ->
  0 <= N <= T -> on_grid T -> T < 2 ^ 900 ->
  exists p k,
    Float.mul_int (Float.abs fraction) N = Ok p
    /\ Float.floor p = Ok k /\ 0 <= k <= T.
Proof.
  intros Hv Hlo Hhi HN Hgrid HT.
  destruct (Rounding.of_int_le 1074 T N ltac:(lia) Hgrid HT HN)
    as [Hy | (my & ey & Hy & Hey & Hyv)];
    unfold Float.mul_int; rewrite Hy; simpl rbind.
  - destruct fraction as [s|s| |s m e]; try discriminate Hhi;
      try (destruct s; discriminate);
      eexists; exists 0; (split; [reflexivity|]); (split; [reflexivity|lia]).
  - destruct fraction as [s|s| |s m e]; try discriminate Hhi;
      try (destruct s; discriminate).
    + eexists; exists 0; (split; [reflexivity|]); (split; [reflexivity|lia]).
    + destruct (Rounding.unit_range_bound 1074 s m e ltac:(lia) Hv Hlo Hhi)
        as [He Hxv].
      assert (Hprod : Zpos (m * my) * 2 ^ (e + ey + 2148) <= T * 2 ^ 2148).
      { assert (E1 : 2 ^ (e + ey + 2148) = 2 ^ (e + 1074) * 2 ^ (ey + 1074))
          by (rewrite <- Z.pow_add_r by lia; f_equal; lia).
        assert (E2 : 2 ^ 2148 = 2 ^ 1074 * 2 ^ 1074)
          by (rewrite <- Z.pow_add_r by lia; f_equal).
        rewrite E1, E2, Pos2Z.inj_mul. clear E1 E2.
        assert (HA : 0 < 2 ^ (e + 1074)) by (apply Z.pow_pos_nonneg; lia).
        assert (HB : 0 < 2 ^ (ey + 1074)) by (apply Z.pow_pos_nonneg; lia).
        revert Hxv Hyv HA HB.
        generalize (2 ^ (e + 1074)) (2 ^ (ey + 1074)) (2 ^ 1074).
        intros A B C Hxv Hyv HA HB.
        replace (Zpos m * Zpos my * (A * B))
          with ((Zpos m * A) * (Zpos my * B)) by ring.
        replace (T * (C * C)) with (C * (T * C)) by ring.
        apply Z.mul_le_mono_nonneg;
          [apply Z.mul_nonneg_nonneg; lia | exact Hxv
          | apply Z.mul_nonneg_nonneg; lia | exact Hyv]. }
      simpl Float.abs. unfold SFmul.
      destruct (Rounding.binary_round_aux_le 2148 T (xorb false false)
                  (m * my) (e + ey) ltac:(lia) ltac:(lia) Hgrid HT Hprod)
        as [Hz | (m' & e' & Hr & He' & Hv')];
        unfold Float.prec, Float.emax.
      * rewrite Hz. eexists; exists 0.
        split; [reflexivity|]. split; [reflexivity|lia].
      * rewrite Hr. eexists; exists (Z.shiftl (Zpos m') e').
        split; [reflexivity|]. split; [reflexivity|].
        apply (Rounding.shiftl_scaled_le 2148); [lia | lia | exact Hv'].
Qed.

Lemma slice_to_from {A} (l : list A) (i : Z) : slice_to l i ++ slice_from l i = l.
Proof. unfold slice_to, slice_from. apply take_drop. Qed.

Lemma length_slice_to {A} (l : list A) (i : Z) :
  0 <= i <= Z.of_nat (length l) -> Z.of_nat (length (slice_to l i)) = i.
Proof.
  intros Hi. unfold slice_to, slice_bound. rewrite length_take.
  destruct (Z.ltb_spec i 0); lia.
Qed.

Lemma length_slice_from {A} (l : list A) (i : Z) :
  0 <= i <= Z.of_nat (length l) ->
  Z.of_nat (length (slice_from l i)) = Z.of_nat (length l) - i.
Proof.
  intros Hi. unfold slice_from, slice_bound. rewrite length_drop.
  destruct (Z.ltb_spec i 0); lia.
Qed.

Lemma ltb_zero_antisym (x : float) :
  Float.ltb Float.zero x = true -> Float.ltb x Float.zero = false.
Proof.
  unfold Float.ltb, SFltb, SFcompare, Float.zero.
  destruct x as [s|s| |s m e]; try destruct s; congruence.
Qed.

Lemma eqb_zero_inv (x : float) :
  Float.eqb x Float.zero = true -> exists s, x = S754_zero s.
Proof.
  unfold Float.eqb, SFeqb, SFcompare, Float.zero.
  destruct x as [s|s| |s m e]; try destruct s; try discriminate; eauto.
Qed.

(** C1. For every list Python can hold and every fraction in [-1, 1],
    [apply_scope] returns a pair that splits the list without reordering,
    dropping or repeating anything: [selected] is a prefix of the list
    and [untouched] the rest when the fraction is positive, [selected] is
    a suffix and [untouched] what precedes it when the fraction is
    negative, and [selected] is empty when the fraction is zero or the
    list is empty. *)
Theorem apply_scope_partition (commits : list Commit) (fraction : float) :
  Float.valid fraction ->
  Float.leb Float.neg_one fraction = true ->
  Float.leb fraction Float.one = true ->
  Z.of_nat (length commits) <= sys_maxsize ->
  exists selected untouched,
    apply_scope commits fraction = Ok (selected, untouched)
    /\ (Float.ltb Float.zero fraction = true -> selected ++ untouched = commits)
    /\ (Float.ltb fraction Float.zero = true -> untouched ++ selected = commits)
    /\ (Float.eqb fraction Float.zero = true \/ commits = [] ->
        selected = [] /\ untouched = commits).
Proof.
  intros Hv Hlo Hhi Hlen. unfold apply_scope. rewrite Hlo, Hhi. simpl negb. cbv iota.
  set (total := Z.of_nat (length commits)) in *.
  assert (Hearly : exists selected untouched,
    Ok ([], commits) = Ok (selected, untouched)
    /\ (Float.ltb Float.zero fraction = true -> selected ++ untouched = commits)
    /\ (Float.ltb fraction Float.zero = true -> untouched ++ selected = commits)
    /\ (Float.eqb fraction Float.zero = true \/ commits = [] ->
        selected = [] /\ untouched = commits)).
  { exists [], commits. split; [reflexivity|]. split; [reflexivity|].
    split; [intros _; apply app_nil_r | auto]. }
  destruct ((total =? 0) || Float.eqb fraction Float.zero) eqn:Hz; [exact Hearly|].
  apply orb_false_iff in Hz. destruct Hz as [Hz0 Hze].
  assert (Hne : ~ (Float.eqb fraction Float.zero = true \/ commits = [])).
  { intros [H|H]; [congruence|]. subst commits. discriminate Hz0. }
  destruct (mul_int_floor_le fraction total (2 ^ 64) Hv Hlo Hhi)
    as (p & k & Hp & Hk & Hkr).
  { unfold sys_maxsize in Hlen. lia. }
  { apply on_grid_pow2. lia. }
  { apply Z.pow_lt_mono_r; lia. }
  rewrite Hp. simpl rbind. rewrite Hk. simpl rbind.
  destruct (k =? 0); [exact Hearly|].
  destruct (Float.ltb Float.zero fraction) eqn:Hpos.
  - exists (slice_to commits k), (slice_from commits k).
    split; [reflexivity|]. split; [intros _; apply slice_to_from|].
    split; [|intros H; contradiction].
    intros Hneg. rewrite (ltb_zero_antisym _ Hpos) in Hneg. discriminate Hneg.
  - exists (slice_from commits (total - k)), (slice_to commits (total - k)).
    split; [reflexivity|]. split; [intros H; discriminate H|].
    split; [intros _; apply slice_to_from | intros H; contradiction].
Qed.

(** C2, amended. For a list of fewer than [2^53] commits and a fraction in
    [-1, 1], the number of selected commits is the floor of the double
    that the multiplication [|fraction| * N] produces, that is of the
    product rounded to the nearest double. *)
Theorem apply_scope_selected_length (commits : list Commit) (fraction : float) :
  Float.valid fraction ->
  Float.leb Float.neg_one fraction = true ->
  Float.leb fraction Float.one = true ->
  Z.of_nat (length commits) < 2 ^ 53 ->
  exists selected untouched p,
    apply_scope commits fraction = Ok (selected, untouched)
    /\ Float.mul_int (Float.abs fraction) (Z.of_nat (length commits)) = Ok p
    /\ Float.floor p = Ok (Z.of_nat (length selected)).
Proof.
  intros Hv Hlo Hhi Hlen. unfold apply_scope. rewrite Hlo, Hhi. simpl negb. cbv iota.
  set (total := Z.of_nat (length commits)) in *.
  destruct (mul_int_floor_le fraction total total Hv Hlo Hhi)
    as (p & k & Hp & Hk & Hkr).
  { unfold total. lia. }
  { apply on_grid_small. exact Hlen. }
  { eapply Z.lt_trans; [exact Hlen|]. apply Z.pow_lt_mono_r; lia. }
  destruct ((total =? 0) || Float.eqb fraction Float.zero) eqn:Hz.
  - exists [], commits, p. split; [reflexivity|]. split; [exact Hp|].
    rewrite Hk. f_equal. simpl.
    apply orb_true_iff in Hz. destruct Hz as [Hz|Hz].
    + apply Z.eqb_eq in Hz. lia.
    + apply eqb_zero_inv in Hz. destruct Hz as [s ->].
      unfold Float.mul_int in Hp. simpl Float.abs in Hp.
      apply rbind_Ok in Hp. destruct Hp as (y & _ & Hp). injection Hp as <-.
      unfold Float.floor, SFmul in Hk.
      destruct y as [sy|sy| |sy my ey];
        first [discriminate Hk | injection Hk as <-; reflexivity].
  - rewrite Hp. simpl rbind. rewrite Hk. simpl rbind.
    destruct (Z.eqb_spec k 0) as [Hk0|Hk0].
    + exists [], commits, p. split; [reflexivity|]. split; [reflexivity|].
      rewrite Hk. f_equal. simpl. lia.
    + destruct (Float.ltb Float.zero fraction).
      * exists (slice_to commits k), (slice_from commits k), p.
        split; [reflexivity|]. split; [reflexivity|].
        rewrite Hk. f_equal. symmetry. apply length_slice_to. fold total. lia.
      * exists (slice_from commits (total - k)), (slice_to commits (total - k)), p.
        split; [reflexivity|]. split; [reflexivity|].
        rewrite Hk. f_equal. rewrite length_slice_from by (fold total; lia).
        fold total. lia.
Qed.

(** * The properties on concrete inputs *)

Lemma demo_runtime_laws : PyRuntimeLaws Demo.runtime.
Proof.
  split.
  - intros g a b Hab. simpl. unfold Demo.lcg_draw. simpl.
    pose proof (Z.mod_pos_bound (Demo.lcg_next g) (b - a + 1) ltac:(lia)). lia.
  - intros s d. simpl. unfold Demo.parse_ymd.
    destruct (split_on _ s) as [|ys [|ms [|ds [|? ?]]]]; try discriminate.
    destruct (Demo.parse_digits ys) as [y|]; [|discriminate].
    destruct (Demo.parse_digits ms) as [m|]; [|discriminate].
    destruct (Demo.parse_digits ds) as [d0|]; [|discriminate].
    cbv zeta. set (o := Demo.ordinal_of_ymd y m d0).
    destruct (_ && (o <=? date_max)) eqn:Hc; [|discriminate].
    intros [= <-]. apply andb_true_iff in Hc. destruct Hc as [Hc Hhi].
    apply andb_true_iff in Hc. destruct Hc as [_ Hlo].
    unfold date_max in *. lia.
Qed.

Lemma demo_validate_synthetic :
  validate_config (RT := Demo.runtime) Demo.synthetic_cfg = Ok Demo.synthetic_vc.
Proof. vm_compute. reflexivity. Qed.

Lemma demo_validate_saturday_only :
  validate_config (RT := Demo.runtime) Demo.saturday_only_cfg
  = Ok Demo.saturday_only_vc.
Proof. vm_compute. reflexivity. Qed.

Lemma demo_stamps5 :
  compute_timestamps (RT := Demo.runtime) 0 Demo.commits5 Demo.synthetic_vc
  = Ok Demo.stamps5.
Proof. vm_compute. reflexivity. Qed.

Lemma NoDup_content_addressed (commits : list Commit) :
  NoDup (hash <$> commits) -> content_addressed commits.
Proof.
  intros Hnd c1 c2 H1 H2 Hh.
  apply list_elem_of_lookup in H1, H2. destruct H1 as [i Hi], H2 as [j Hj].
  assert (i = j).
  { eapply NoDup_lookup; [exact Hnd| |].
    - rewrite list_lookup_fmap, Hi. reflexivity.
    - rewrite list_lookup_fmap, Hj. simpl. f_equal. symmetry. exact Hh. }
  subst j. congruence.
Qed.

Lemma demo_commits5_NoDup : NoDup (hash <$> Demo.commits5).
Proof. apply (bool_decide_unpack _). vm_compute. exact I. Qed.

(** C1 on ten commits and the fraction 0.7. *)
Lemma apply_scope_partition_witness :
  exists selected untouched,
    apply_scope Demo.commits10 Demo.f07 = Ok (selected, untouched)
    /\ (Float.ltb Float.zero Demo.f07 = true ->
        selected ++ untouched = Demo.commits10)
    /\ (Float.ltb Demo.f07 Float.zero = true ->
        untouched ++ selected = Demo.commits10)
    /\ (Float.eqb Demo.f07 Float.zero = true \/ Demo.commits10 = [] ->
        selected = [] /\ untouched = Demo.commits10).
Proof.
  apply (apply_scope_partition Demo.commits10 Demo.f07).
  - vm_compute. reflexivity.
  - vm_compute. reflexivity.
  - vm_compute. reflexivity.
  - apply Z.leb_le. vm_compute. reflexivity.
Defined.

(** C2 as amended, on ten commits and the fraction 0.7. *)
Lemma apply_scope_selected_length_witness :
  exists selected untouched p,
    apply_scope Demo.commits10 Demo.f07 = Ok (selected, untouched)
    /\ Float.mul_int (Float.abs Demo.f07) (Z.of_nat (length Demo.commits10)) = Ok p
    /\ Float.floor p = Ok (Z.of_nat (length selected)).
Proof.
  apply (apply_scope_selected_length Demo.commits10 Demo.f07).
  - vm_compute. reflexivity.
  - vm_compute. reflexivity.
  - vm_compute. reflexivity.
  - apply Z.ltb_lt. vm_compute. reflexivity.
Defined.

(** C2 as stated fails: for ten commits and the double 0.7 the code
    selects seven commits, because [0.7 * 10] rounds to [7.0], while the
    floor of the exact product of that double and 10 is 6. *)
Lemma apply_scope_exact_floor_fails :
  Float.valid Demo.f07
  /\ Float.leb Float.neg_one Demo.f07 = true
  /\ Float.leb Demo.f07 Float.one = true
  /\ exists selected untouched,
       apply_scope Demo.commits10 Demo.f07 = Ok (selected, untouched)
       /\ length Demo.commits10 = 10%nat
       /\ length selected = 7%nat
       /\ Float.exact_floor_abs_mul Demo.f07 10 = 6.
Proof.
  split; [vm_compute; reflexivity|].
  split; [vm_compute; reflexivity|].
  split; [vm_compute; reflexivity|].
  eexists. eexists. split; [vm_compute; reflexivity|].
  split; [reflexivity|]. split; reflexivity.
Qed.

(** C3 on five commits in author mode. *)
Lemma compute_timestamps_copy_modes_witness :
  exists result,
    compute_timestamps (RT := Demo.runtime) 0 Demo.commits5 Demo.author_vc = Ok result
    /\ forall c, c ∈ Demo.commits5 -> result !! hash c = Some (author_date c).
Proof.
  apply (compute_timestamps_copy_modes (RT := Demo.runtime) 0
           Demo.commits5 Demo.author_vc).
  - apply NoDup_content_addressed. apply (bool_decide_unpack _).
    vm_compute. exact I.
  - reflexivity.
Defined.

Lemma demo_saturday_only_no_work_day (d : date) :
  738886 <= d <= 738890 ->
  enabled (_work_block_for_day d
             (mk_ParsedWorkPatterns Demo.day_off Demo.weekday_hours Demo.day_off))
  = false.
Proof.
  intros Hd.
  assert (Hc : d = 738886 \/ d = 738887 \/ d = 738888 \/ d = 738889 \/ d = 738890)
    by lia.
  destruct Hc as [-> | [-> | [-> | [-> | ->]]]]; reflexivity.
Qed.

(** C6 as amended, on a calendar from Monday to Friday with work on
    Saturdays only. *)
Lemma synthetic_calendar_exhausted_witness :
  compute_timestamps (RT := Demo.runtime) 0 Demo.commits5 Demo.saturday_only_vc
  = Raise (EngineError "Synthetic calendar window exhausted").
Proof.
  apply (synthetic_calendar_exhausted (RT := Demo.runtime)
           (Laws := demo_runtime_laws)
           Demo.saturday_only_cfg Demo.saturday_only_vc 0 Demo.commits5
           (mk_ParsedCalendar 738886 738890 "UTC" tz_utc)
           (mk_ParsedWorkPatterns Demo.day_off Demo.weekday_hours Demo.day_off)).
  - vm_compute. reflexivity.
  - reflexivity.
  - reflexivity.
  - reflexivity.
  - discriminate.
  - vm_compute. reflexivity.
  - exact demo_saturday_only_no_work_day.
Defined.

(** C6 as stated fails on the empty selection: the configuration is
    validated, no date of its calendar has an enabled work block, and
    [compute_timestamps] returns the empty map instead of failing. *)
Lemma exhausted_claim_fails_on_empty_selection :
  validate_config (RT := Demo.runtime) Demo.saturday_only_cfg
    = Ok Demo.saturday_only_vc
  /\ (forall d : date, 738886 <= d <= 738890 ->
        enabled (_work_block_for_day d
                   (mk_ParsedWorkPatterns Demo.day_off Demo.weekday_hours Demo.day_off))
        = false)
  /\ compute_timestamps (RT := Demo.runtime) 0 [] Demo.saturday_only_vc = Ok ∅
  /\ (forall msg : string,
        compute_timestamps (RT := Demo.runtime) 0 [] Demo.saturday_only_vc
        <> Raise (EngineError msg)).
Proof.
  split; [vm_compute; reflexivity|].
  split; [exact demo_saturday_only_no_work_day|].
  split; [reflexivity|]. intros msg H. discriminate H.
Qed.

(** C7 on the scenario, at two different states of the system entropy. *)
Lemma compute_timestamps_seeded_deterministic_witness :
  compute_timestamps (RT := Demo.runtime) 1 Demo.commits5 Demo.synthetic_vc
  = compute_timestamps (RT := Demo.runtime) 2 Demo.commits5 Demo.synthetic_vc.
Proof.
  apply (compute_timestamps_seeded_deterministic (RT := Demo.runtime) 1 2
           Demo.commits5 Demo.synthetic_vc
           (mk_ParsedRandomness (Some 42) 25 90 5 55) 42);
    reflexivity.
Defined.

(** Without a seed the result follows the system entropy: the claim of
    determinism does not extend to unseeded runs. *)
Example unseeded_runs_can_differ :
  Demo.stamp_of
    (compute_timestamps (RT := Demo.runtime) 1 Demo.commits5 Demo.unseeded_vc) "a1"
  <> Demo.stamp_of
    (compute_timestamps (RT := Demo.runtime) 2 Demo.commits5 Demo.unseeded_vc) "a1".
Proof. vm_compute. intros H. discriminate H. Qed.

(** C8 on an author-mode document that carries a calendar. *)
Lemma validate_config_sections_witness :
  exists path,
    validate_config (RT := Demo.runtime) Demo.author_with_calendar_cfg =
      Raise (ValidationError path (path +:+ " is not allowed in " +:+ "author" +:+ " mode"))
    /\ section_present Demo.author_with_calendar_cfg path.
Proof.
  apply (proj1 (validate_config_sections (RT := Demo.runtime)
                  Demo.author_with_calendar_cfg)).
  - left. reflexivity.
  - left. discriminate.
Defined.

(** C9 in synthetic mode, with a calendar that has no work day. *)
Lemma compute_timestamps_empty_witness :
  compute_timestamps (RT := Demo.runtime) 0 [] Demo.saturday_only_vc = Ok ∅.
Proof.
  apply (compute_timestamps_empty (RT := Demo.runtime) 0 Demo.saturday_only_vc).
  right. right. reflexivity.
Defined.

(** C10 on the scenario's document. *)
Lemma validate_config_frame_witness :
  timestamp Demo.synthetic_vc = cfg_timestamp Demo.synthetic_cfg
  /\ scope Demo.synthetic_vc = cfg_scope Demo.synthetic_cfg
  /\ mode (timestamp Demo.synthetic_vc) = mode (cfg_timestamp Demo.synthetic_cfg)
  /\ fraction (scope Demo.synthetic_vc) = fraction (cfg_scope Demo.synthetic_cfg)
  /\ ((mode (cfg_timestamp Demo.synthetic_cfg) = "author"%string
       \/ mode (cfg_timestamp Demo.synthetic_cfg) = "commit"%string) ->
      calendar Demo.synthetic_vc = None /\ work_patterns Demo.synthetic_vc = None
      /\ randomness Demo.synthetic_vc = None).
Proof.
  apply (validate_config_frame (RT := Demo.runtime)
           Demo.synthetic_cfg Demo.synthetic_vc).
  vm_compute. reflexivity.
Defined.

(** * Further properties of the engine *)

(** ** The first enabled day *)

Lemma _next_enabled_day_loop_first (work : ParsedWorkPatterns) (n : nat) :
  forall day d : date,
    _next_enabled_day_loop n day work = Ok d ->
    day <= d < day + Z.of_nat n
    /\ enabled (_work_block_for_day d work) = true
    /\ forall d', day <= d' < d -> enabled (_work_block_for_day d' work) = false.
Proof.
  induction n as [|n IH]; intros day d H; [discriminate|].
  simpl in H. destruct (enabled (_work_block_for_day day work)) eqn:He.
  - injection H as <-. split; [lia|]. split; [exact He|]. intros; lia.
  - bind_inv H. apply date_add_days_Ok in Ha. destruct Ha as [-> _].
    apply IH in H. destruct H as (Hr & Hen & Hbefore).
    split; [lia|]. split; [exact Hen|].
    intros d' Hd'. destruct (Z.eq_dec d' day) as [->|]; [exact He|].
    apply Hbefore. lia.
Qed.

Lemma _next_enabled_day_loop_finds (work : ParsedWorkPatterns) (n : nat) :
  forall day e : date,
    0 <= day -> day + Z.of_nat n - 1 <= date_max ->
    day <= e < day + Z.of_nat n ->
    enabled (_work_block_for_day e work) = true ->
    exists d, _next_enabled_day_loop n day work = Ok d.
Proof.
  induction n as [|n IH]; intros day e H0 Hmax He Hen; [lia|].
  simpl. destruct (enabled (_work_block_for_day day work)) eqn:Hd; [eauto|].
  assert (e <> day) by (intros ->; congruence).
  unfold date_add_days.
  destruct (Z.leb_spec 1 (day + 1)); [|lia].
  destruct (Z.leb_spec (day + 1) date_max); [|lia].
  simpl. apply (IH (day + 1) e); [lia | lia | lia | exact Hen].
Qed.

(** X1. When [_next_enabled_day] returns, the date it returns lies in the
    window, has an enabled work block, and no earlier date of the window
    has one. *)
Theorem _next_enabled_day_first (start_day end_day d : date)
  (work : ParsedWorkPatterns) :
  _next_enabled_day start_day end_day work = Ok d ->
  start_day <= d <= end_day
  /\ enabled (_work_block_for_day d work) = true
  /\ forall d', start_day <= d' < d ->
       enabled (_work_block_for_day d' work) = false.
Proof.
  unfold _next_enabled_day. intros H.
  apply _next_enabled_day_loop_first in H. destruct H as (Hr & Hen & Hb).
  split; [lia|]. split; assumption.
Qed.

(** X2. If some date of the window has an enabled work block, and the
    window lies in the range of [date], then [_next_enabled_day] returns,
    and returns a date no later than that one. *)
Theorem _next_enabled_day_finds (start_day end_day e : date)
  (work : ParsedWorkPatterns) :
  0 <= start_day -> end_day <= date_max ->
  start_day <= e <= end_day ->
  enabled (_work_block_for_day e work) = true ->
  exists d, _next_enabled_day start_day end_day work = Ok d /\ d <= e.
Proof.
  intros H0 Hmax He Hen. unfold _next_enabled_day.
  destruct (_next_enabled_day_loop_finds work
              (Z.to_nat (end_day - start_day + 1)) start_day e)
    as [d Hd]; [lia | lia | lia | exact Hen |].
  exists d. split; [exact Hd|].
  apply _next_enabled_day_loop_first in Hd. destruct Hd as (Hr & _ & Hb).
  destruct (Z_le_gt_dec d e) as [Hle|Hgt]; [exact Hle|].
  rewrite Hb in Hen by lia. discriminate Hen.
Qed.

(** ** Wall-clock seconds *)

Lemma dt_le_wall (a b : datetime) :
  valid_time (dt_time a) -> valid_time (dt_time b) ->
  dt_le a b -> wall_seconds a <= wall_seconds b.
Proof. unfold valid_time, dt_le, dt_lt, wall_seconds, time_seconds. lia. Qed.

Lemma wall_le_date (a b : datetime) :
  valid_time (dt_time a) -> valid_time (dt_time b) ->
  wall_seconds a <= wall_seconds b -> dt_date a <= dt_date b.
Proof. unfold valid_time, wall_seconds, time_seconds. lia. Qed.

Lemma datetime_add_wall (d : datetime) (delta : timedelta) (r : datetime) :
  datetime_add d delta = Ok r ->
  wall_seconds r = wall_seconds d + delta /\ dt_tz r = dt_tz d.
Proof.
  unfold datetime_add.
  destruct ((0 <? _) && (_ <=? date_max)); [|discriminate].
  intros [= <-]. unfold wall_seconds, time_seconds. simpl.
  split; [|reflexivity].
  Z.div_mod_to_equations. lia.
Qed.

Lemma gap_chain_lookup (delta : Z) (ts : list datetime) :
  forall (t0 : datetime) (i : nat) (ti tj : datetime),
    gap_chain delta t0 ts ->
    (t0 :: ts) !! i = Some ti -> (t0 :: ts) !! S i = Some tj ->
    wall_seconds ti + delta <= wall_seconds tj.
Proof.
  induction ts as [|t ts IH]; intros t0 i ti tj Hc Hi Hj.
  - destruct i; discriminate Hj.
  - destruct Hc as [Hd Hc]. destruct i as [|i].
    + injection Hi as <-. injection Hj as <-. exact Hd.
    + exact (IH t i ti tj Hc Hi Hj).
Qed.

Lemma gap_chain_later (delta : Z) (ts : list datetime) :
  forall t0 t : datetime,
    0 <= delta -> gap_chain delta t0 ts -> t ∈ ts ->
    wall_seconds t0 <= wall_seconds t.
Proof.
  induction ts as [|t1 ts IH]; intros t0 t Hd Hc Ht.
  - inversion Ht.
  - destruct Hc as [H1 Hc]. apply elem_of_cons in Ht. destruct Ht as [->|Ht]; [lia|].
    specialize (IH t1 t Hd Hc Ht). lia.
Qed.

Lemma datetime_leb_ltb_false (a b : datetime) :
  datetime_leb a b = true -> datetime_ltb b a = false.
Proof.
  unfold datetime_leb, datetime_ltb, datetime_compare.
  destruct (Z.compare_spec (dt_date a) (dt_date b));
    destruct (Z.compare_spec (dt_date b) (dt_date a)); try lia;
    destruct (Z.compare_spec (hour (dt_time a)) (hour (dt_time b)));
    destruct (Z.compare_spec (hour (dt_time b)) (hour (dt_time a))); try lia;
    destruct (Z.compare_spec (minute (dt_time a)) (minute (dt_time b)));
    destruct (Z.compare_spec (minute (dt_time b)) (minute (dt_time a))); try lia;
    destruct (Z.compare_spec (second (dt_time a)) (second (dt_time b)));
    destruct (Z.compare_spec (second (dt_time b)) (second (dt_time a))); try lia;
    intros; try discriminate; reflexivity.
Qed.

Section WalkRange.
Context {RT : PyRuntime} {Laws : PyRuntimeLaws RT}.

(** The instant the walk returns: its date, its zone, and the window of
    its date, which contains it. *)
Lemma _next_valid_datetime_loop_range (work : ParsedWorkPatterns)
  (sec_min sec_max : Z) (z : tzinfo) (n : nat) :
  forall (day : date) (cand : datetime) (g g' : rng) (r : datetime),
    dt_date cand = day ->
    _next_valid_datetime_loop n day cand work g sec_min sec_max z = Ok (r, g') ->
    day <= dt_date r < day + Z.of_nat n
    /\ (dt_tz cand = z -> dt_tz r = z)
    /\ exists h ws we,
         usable_hours (_work_block_for_day (dt_date r) work) = Some h
         /\ _window_bounds (dt_date r) h z = Ok (ws, we)
         /\ datetime_leb ws r = true /\ datetime_leb r we = true.
Proof.
  induction n as [|n IH]; intros day cand g g' r Hday H; [discriminate|].
  simpl in H.
  assert (Hnext : forall day',
    date_add_days day 1 = Ok day' ->
    _next_valid_datetime_loop n day' (combine day' (mk_time 0 0 0) z)
      work g sec_min sec_max z = Ok (r, g') ->
    day <= dt_date r < day + Z.of_nat (S n)
    /\ (dt_tz cand = z -> dt_tz r = z)
    /\ exists h ws we,
         usable_hours (_work_block_for_day (dt_date r) work) = Some h
         /\ _window_bounds (dt_date r) h z = Ok (ws, we)
         /\ datetime_leb ws r = true /\ datetime_leb r we = true).
  { intros day' Hd Hrec. apply date_add_days_Ok in Hd. destruct Hd as [-> _].
    apply IH in Hrec; [|reflexivity]. destruct Hrec as (Hr & Hz & Hw).
    split; [lia|]. split; [|exact Hw]. intros _. apply Hz. reflexivity. }
  destruct (usable_hours _) as [h|] eqn:Hu.
  - apply rbind_Ok in H. destruct H as ([ws we] & Hwb & H).
    pose proof Hwb as Hwb'. apply _window_bounds_Ok in Hwb'.
    destruct Hwb' as (Hws & Hwe & Hsh & Hsm & Heh & Hem).
    destruct (datetime_ltb cand ws) eqn:Hlt.
    + unfold _random_datetime_for_day in H. rewrite Hu in H.
      apply rbind_Ok in H. destruct H as ([t g1] & Hp & H). injection H as <- <-.
      apply _pick_time_in_window_Ok in Hp. destruct Hp as (Hv & _ & Hlo & Hhi).
      simpl. split; [lia|]. split; [reflexivity|].
      exists h, ws, we. split; [exact Hu|]. split; [exact Hwb|].
      subst ws we. split; apply datetime_leb_le;
        revert Hv Hlo Hhi; unfold dt_le, dt_lt, valid_time, time_seconds; simpl; lia.
    + destruct (datetime_leb ws cand && datetime_leb cand we) eqn:Hin.
      * injection H as <- <-. apply andb_true_iff in Hin. destruct Hin as [Hlo Hhi].
        rewrite Hday. split; [lia|]. split; [auto|].
        exists h, ws, we. auto.
      * apply rbind_Ok in H. destruct H as (day' & Hd & H). eauto.
  - apply rbind_Ok in H. destruct H as (day' & Hd & H). eauto.
Qed.

Lemma _next_valid_datetime_range (cand : datetime) (end_day : date)
  (work : ParsedWorkPatterns) (g g' : rng) (sec_min sec_max : Z) (z : tzinfo)
  (r : datetime) :
  _next_valid_datetime cand end_day work g sec_min sec_max z = Ok (r, g') ->
  dt_date cand <= dt_date r <= end_day
  /\ (dt_tz cand = z -> dt_tz r = z)
  /\ exists h ws we,
       usable_hours (_work_block_for_day (dt_date r) work) = Some h
       /\ _window_bounds (dt_date r) h z = Ok (ws, we)
       /\ datetime_leb ws r = true /\ datetime_leb r we = true.
Proof.
  unfold _next_valid_datetime. intros H.
  apply _next_valid_datetime_loop_range in H; [|reflexivity].
  destruct H as (Hr & Hz & Hw). split; [lia|]. split; assumption.
Qed.

(** X7. The instant [_next_valid_datetime] returns is a fixed point of
    it: given back as the candidate, with the same last day, work
    patterns and zone, it is returned as it is, and the generator is not
    used. *)
Theorem _next_valid_datetime_fixed_point (cand : datetime) (end_day : date)
  (work : ParsedWorkPatterns) (g g' : rng) (sec_min sec_max : Z) (z : tzinfo)
  (r : datetime) :
  _next_valid_datetime cand end_day work g sec_min sec_max z = Ok (r, g') ->
  forall (g2 : rng) (sec_min2 sec_max2 : Z),
    _next_valid_datetime r end_day work g2 sec_min2 sec_max2 z = Ok (r, g2).
Proof.
  intros H g2 sec_min2 sec_max2.
  apply _next_valid_datetime_range in H.
  destruct H as (Hr & _ & h & ws & we & Hu & Hwb & Hlo & Hhi).
  unfold _next_valid_datetime.
  rewrite _next_valid_datetime_loop_step.
  destruct (Z.leb_spec (dt_date r) end_day); [|lia].
  rewrite Hu, Hwb. simpl rbind.
  rewrite (datetime_leb_ltb_false _ _ Hlo), Hlo, Hhi. reflexivity.
Qed.

(** The assignments of the loop of [_synthetic_mode]: every instant is a
    valid time of day in the zone of the calendar, dated no later than
    the last day, and follows the one before it by at least the smallest
    gap. *)
Lemma _synthetic_loop_trace (end_day : date) (work : ParsedWorkPatterns)
  (gap_min gap_max sec_min sec_max : Z) (z : tzinfo) (rest : list Commit) :
  forall (current : datetime) (results : gmap string datetime) (g : rng)
         (m : gmap string datetime),
    _synthetic_loop rest current results g end_day work
      gap_min gap_max sec_min sec_max z = Ok m ->
    valid_time (dt_time current) -> dt_tz current = z ->
    exists ts : list datetime,
      length ts = length rest
      /\ m = assign_all results (zip rest ts)
      /\ Forall (fun t => valid_time (dt_time t) /\ dt_tz t = z
                          /\ dt_date t <= end_day) ts
      /\ gap_chain (gap_min * 60 + sec_min) current ts.
Proof.
  induction rest as [|c rest IH]; intros current results g m H Hv Hz.
  - injection H as <-. exists []. repeat split; constructor.
  - simpl in H.
    apply rbind_Ok in H. destruct H as ([gap g1] & Hgap & H).
    apply rbind_Ok in H. destruct H as (cand & Hadd & H).
    apply rbind_Ok in H. destruct H as ([next g2] & Hnext & H).
    apply _random_gap_Ok in Hgap.
    pose proof (datetime_add_wall _ _ _ Hadd) as [Hwall Hctz].
    apply datetime_add_Ok in Hadd. destruct Hadd as [Hcv _].
    pose proof (_next_valid_datetime_range _ _ _ _ _ _ _ _ _ Hnext)
      as (Hnr & Hnz & _).
    apply _next_valid_datetime_Ok in Hnext. destruct Hnext as [Hnle Hon].
    specialize (Hon Hcv).
    assert (Hnv : valid_time (dt_time next)).
    { destruct Hon as (h & _ & _ & Hw). apply Hw. }
    assert (Hntz : dt_tz next = z) by (apply Hnz; congruence).
    apply IH in H; [|exact Hnv|exact Hntz].
    destruct H as (ts & Hlen & -> & Hall & Hch).
    exists (next :: ts). simpl. split; [lia|]. split; [reflexivity|].
    split; [constructor; [|exact Hall]; split; [exact Hnv|]; split; [exact Hntz|lia]|].
    split; [|exact Hch].
    pose proof (dt_le_wall _ _ Hcv Hnv Hnle). lia.
Qed.

Lemma _synthetic_mode_trace (ent : entropy) (first : Commit) (rest : list Commit)
  (config : ValidatedConfig) (m : gmap string datetime) :
  _synthetic_mode ent (first :: rest) config = Ok m ->
  exists cal work rnd t0 ts,
    calendar config = Some cal /\ work_patterns config = Some work
    /\ randomness config = Some rnd
    /\ _next_enabled_day (cal_start cal) (cal_end cal) work = Ok (dt_date t0)
    /\ length ts = length rest
    /\ m = assign_all ∅ (zip (first :: rest) (t0 :: ts))
    /\ Forall (fun t => valid_time (dt_time t) /\ dt_tz t = tz cal
                        /\ dt_date t <= cal_end cal) (t0 :: ts)
    /\ gap_chain (gap_minutes_min rnd * 60 + seconds_min rnd) t0 ts.
Proof.
  unfold _synthetic_mode. intros H.
  destruct (calendar config) as [cal|]; [|discriminate].
  destruct (work_patterns config) as [work|]; [|discriminate].
  destruct (randomness config) as [rnd|]; [|discriminate].
  apply rbind_Ok in H. destruct H as (day0 & Hd0 & H).
  apply rbind_Ok in H. destruct H as ([t0 g1] & Ht0 & H).
  assert (Htz0 : dt_tz t0 = tz cal).
  { unfold _random_datetime_for_day in Ht0.
    destruct (usable_hours _); [|discriminate].
    apply rbind_Ok in Ht0. destruct Ht0 as ([t g2] & _ & Ht0).
    injection Ht0 as <- <-. reflexivity. }
  apply _random_datetime_for_day_Ok in Ht0. destruct Ht0 as [Hday0 Hon0].
  assert (Hv0 : valid_time (dt_time t0)).
  { destruct Hon0 as (h & _ & _ & Hw). apply Hw. }
  apply _synthetic_loop_trace in H; [|exact Hv0|exact Htz0].
  destruct H as (ts & Hlen & -> & Hall & Hch).
  exists cal, work, rnd, t0, ts.
  split; [reflexivity|]. split; [reflexivity|]. split; [reflexivity|].
  split; [rewrite Hday0; exact Hd0|].
  split; [exact Hlen|]. split; [reflexivity|].
  split; [|exact Hch].
  constructor; [|exact Hall]. split; [exact Hv0|]. split; [exact Htz0|].
  apply _next_enabled_day_loop_first in Hd0. lia.
Qed.

End WalkRange.

Lemma foldl_insert_stamp_dom (stamp : Commit -> datetime) (commits : list Commit) :
  forall (m0 : gmap string datetime) (h : string),
    is_Some (foldl (insert_stamp stamp) m0 commits !! h)
    <-> is_Some (m0 !! h) \/ h ∈ hash <$> commits.
Proof.
  induction commits as [|c commits IH]; intros m0 h; simpl.
  - split; [auto|]. intros [H|H]; [exact H|]. inversion H.
  - rewrite IH. unfold insert_stamp at 1. rewrite lookup_insert_is_Some'.
    rewrite elem_of_cons. split.
    + intros [[->|H]|H]; auto.
    + intros [H|[->|H]]; auto.
Qed.

Lemma assign_all_dom (cts : list (Commit * datetime)) :
  forall (results : gmap string datetime) (h : string),
    is_Some (assign_all results cts !! h)
    <-> is_Some (results !! h) \/ h ∈ (fun ct => hash (fst ct)) <$> cts.
Proof.
  intros results h. split; [|apply assign_all_is_Some].
  intros H.
  destruct (decide (h ∈ (fun ct => hash (fst ct)) <$> cts)) as [Hin|Hout]; [auto|].
  left. rewrite <- (assign_all_keep cts results h Hout). exact H.
Qed.

Section Timeline2.
Context {RT : PyRuntime} {Laws : PyRuntimeLaws RT}.

Lemma compute_timestamps_dom (ent : entropy) (commits : list Commit)
  (config : ValidatedConfig) (m : gmap string datetime) :
  compute_timestamps ent commits config = Ok m ->
  forall h : string, is_Some (m !! h) <-> h ∈ hash <$> commits.
Proof.
  unfold compute_timestamps. intros H h.
  destruct (String.eqb (mode (timestamp config)) "author").
  { injection H as <-. unfold _author_mode. rewrite foldl_insert_stamp_dom.
    rewrite lookup_empty. split; [intros [[x Hx]|Hx]; [discriminate|exact Hx] | auto]. }
  destruct (String.eqb (mode (timestamp config)) "commit").
  { injection H as <-. unfold _commit_mode. rewrite foldl_insert_stamp_dom.
    rewrite lookup_empty. split; [intros [[x Hx]|Hx]; [discriminate|exact Hx] | auto]. }
  destruct (String.eqb (mode (timestamp config)) "synthetic"); [|discriminate].
  destruct commits as [|first rest].
  { injection H as <-. rewrite lookup_empty. split.
    - intros [x Hx]. discriminate.
    - intros Hx. inversion Hx. }
  apply _synthetic_mode_Ok in H.
  destruct H as (cal & work & rnd & t0 & ts & _ & _ & _ & Hlen & -> & _ & _).
  rewrite assign_all_dom, lookup_empty.
  change (fun ct : Commit * datetime => hash (fst ct))
    with (hash ∘ (@fst Commit datetime)).
  rewrite list_fmap_compose, fst_zip by (simpl; lia).
  split; [intros [[x Hx]|Hx]; [discriminate|exact Hx] | auto].
Qed.

(** X5. In every mode, the dictionary [compute_timestamps] returns has
    one key for each selected commit and no other key. *)
Theorem compute_timestamps_keys (ent : entropy) (commits : list Commit)
  (config : ValidatedConfig) (m : gmap string datetime) :
  compute_timestamps ent commits config = Ok m ->
  forall h : string, is_Some (m !! h) <-> h ∈ hash <$> commits.
Proof. apply compute_timestamps_dom. Qed.

(** X3. In synthetic mode under a validated configuration, every instant
    of the result is dated within the calendar, first and last day
    included, and carries the zone of the calendar. *)
Theorem synthetic_timeline_within_calendar
  (cfg : Config) (vc : ValidatedConfig) (ent : entropy)
  (commits : list Commit) (m : gmap string datetime) (cal : ParsedCalendar) :
  validate_config cfg = Ok vc ->
  mode (timestamp vc) = "synthetic"%string ->
  calendar vc = Some cal ->
  compute_timestamps ent commits vc = Ok m ->
  forall (h : string) (t : datetime), m !! h = Some t ->
    cal_start cal <= dt_date t <= cal_end cal /\ dt_tz t = tz cal.
Proof.
  intros Hval Hm Hcal H h t Hht.
  unfold compute_timestamps in H. rewrite Hm in H. simpl in H.
  destruct commits as [|first rest].
  { injection H as <-. rewrite lookup_empty in Hht. discriminate Hht. }
  apply _synthetic_mode_trace in H.
  destruct H as (cal' & work & rnd & t0 & ts & Hc & Hw & Hr & Hd0 & Hlen & -> & Hall & Hch).
  rewrite Hcal in Hc. injection Hc as <-.
  destruct (validate_config_synthetic cfg vc Hval Hm)
    as (dc & dw & dr & cal' & work' & rnd' & _ & _ & Hvr & _ & _ & Hr').
  rewrite Hr in Hr'. injection Hr' as <-.
  apply validate_randomness_Ok in Hvr.
  apply assign_all_value in Hht. rewrite lookup_empty in Hht.
  destruct Hht as [Hht|Hin]; [discriminate|].
  rewrite snd_zip in Hin by (simpl; lia).
  pose proof Hall as Hall'. rewrite Forall_forall in Hall'.
  destruct (Hall' t Hin) as (Hv & Hz & Hend).
  split; [|exact Hz]. split; [|exact Hend].
  apply _next_enabled_day_first in Hd0. destruct Hd0 as (Hr0 & _ & _).
  apply elem_of_cons in Hin. destruct Hin as [->|Hin]; [lia|].
  assert (Hv0 : valid_time (dt_time t0)).
  { inversion Hall as [|? ? H0 ?]; subst. apply H0. }
  assert (Hd : 0 <= gap_minutes_min rnd * 60 + seconds_min rnd) by lia.
  pose proof (gap_chain_later _ ts t0 t Hd Hch Hin) as Hwall.
  pose proof (wall_le_date _ _ Hv0 Hv Hwall). lia.
Qed.

(** X4. In synthetic mode, of two commits that follow each other in the
    list, the second is stamped at least the smallest configured gap
    after the first: [gap_minutes.min] minutes and [seconds.min]
    seconds, on the wall clock of the calendar's zone. *)
Theorem synthetic_timeline_minimum_gap
  (vc : ValidatedConfig) (ent : entropy) (commits : list Commit)
  (m : gmap string datetime) (rnd : ParsedRandomness) :
  mode (timestamp vc) = "synthetic"%string ->
  randomness vc = Some rnd ->
  NoDup (hash <$> commits) ->
  compute_timestamps ent commits vc = Ok m ->
  forall (i : nat) (ci cj : Commit),
    commits !! i = Some ci -> commits !! S i = Some cj ->
    exists ti tj,
      m !! hash ci = Some ti /\ m !! hash cj = Some tj
      /\ wall_seconds ti + (gap_minutes_min rnd * 60 + seconds_min rnd)
         <= wall_seconds tj.
Proof.
  intros Hm Hrnd Hnd H i ci cj Hi Hj.
  unfold compute_timestamps in H. rewrite Hm in H. simpl in H.
  destruct commits as [|first rest]; [discriminate Hi|].
  apply _synthetic_mode_trace in H.
  destruct H as (cal & work & rnd' & t0 & ts & _ & _ & Hr & _ & Hlen & -> & _ & Hch).
  rewrite Hrnd in Hr. injection Hr as <-.
  assert (Hlen' : length (first :: rest) = length (t0 :: ts)) by (simpl; lia).
  assert (Hnd' : NoDup ((fun ct => hash (fst ct)) <$> zip (first :: rest) (t0 :: ts))).
  { change (fun ct : Commit * datetime => hash (fst ct))
      with (hash ∘ (@fst Commit datetime)).
    rewrite list_fmap_compose, fst_zip by lia. exact Hnd. }
  destruct (lookup_lt_is_Some_2 (t0 :: ts) i) as [ti Hti].
  { rewrite <- Hlen'. eapply lookup_lt_Some. exact Hi. }
  destruct (lookup_lt_is_Some_2 (t0 :: ts) (S i)) as [tj Htj].
  { rewrite <- Hlen'. eapply lookup_lt_Some. exact Hj. }
  exists ti, tj.
  split; [|split].
  - eapply assign_all_lookup; [exact Hnd'|]. apply lookup_zip_Some. eauto.
  - eapply assign_all_lookup; [exact Hnd'|]. apply lookup_zip_Some. eauto.
  - eapply gap_chain_lookup; eassumption.
Qed.

End Timeline2.

(** * Further properties of validation *)

Lemma make_time_total (h m s : Z) :
  0 <= h <= 23 -> 0 <= m <= 59 -> 0 <= s <= 59 ->
  make_time h m s = Ok (mk_time h m s).
Proof.
  intros Hh Hm Hs. unfold make_time.
  destruct (Z.leb_spec 0 h); [|lia]. destruct (Z.leb_spec h 23); [|lia].
  destruct (Z.leb_spec 0 m); [|lia]. destruct (Z.leb_spec m 59); [|lia].
  destruct (Z.leb_spec 0 s); [|lia]. destruct (Z.leb_spec s 59); [|lia].
  reflexivity.
Qed.

Lemma raises_only_Ok {A} (a : A) : raises_only_ValidationError (Ok a).
Proof. intros e H. discriminate H. Qed.

Lemma raises_only_Raise {A} (path msg : string) :
  raises_only_ValidationError (@Raise A (ValidationError path msg)).
Proof. intros e [= <-]. eauto. Qed.

Lemma raises_only_bind {A B} (r : result A) (k : A -> result B) :
  raises_only_ValidationError r ->
  (forall a, r = Ok a -> raises_only_ValidationError (k a)) ->
  raises_only_ValidationError (rbind r k).
Proof.
  intros Hr Hk. destruct r as [a|e]; simpl.
  - apply Hk. reflexivity.
  - intros e' [= <-]. apply Hr. reflexivity.
Qed.

Create HintDb validation.
#[local] Hint Resolve raises_only_Ok raises_only_Raise : validation.

Section ValidationMore.
Context {RT : PyRuntime}.

Lemma _parse_time_Ok (path value : string) (t : time) :
  _parse_time path value = Ok t -> valid_time t /\ second t = 0.
Proof.
  unfold _parse_time.
  destruct (split_on ":" value) as [|p0 [|p1 [|? ?]]]; try discriminate.
  destruct (int_of_str p0) as [h|]; [|discriminate].
  destruct (int_of_str p1) as [m|]; [|discriminate].
  destruct ((0 <=? h) && (h <=? 23)); [|discriminate].
  destruct ((0 <=? m) && (m <=? 59)); [|discriminate].
  simpl. intros H. apply make_time_Ok in H. destruct H as [-> H].
  unfold valid_time. simpl. split; [lia | reflexivity].
Qed.

Lemma _parse_time_raises (path value : string) :
  raises_only_ValidationError (_parse_time path value).
Proof.
  unfold _parse_time.
  destruct (split_on ":" value) as [|p0 [|p1 [|? ?]]]; auto with validation.
  destruct (int_of_str p0) as [h|]; auto with validation.
  destruct (int_of_str p1) as [m|]; auto with validation.
  destruct ((0 <=? h) && (h <=? 23)) eqn:Hh; simpl; auto with validation.
  destruct ((0 <=? m) && (m <=? 59)) eqn:Hm; simpl; auto with validation.
  rewrite make_time_total by lia. auto with validation.
Qed.

Lemma _validate_work_block_Ok (path : string) (block : pydict) (b : ParsedWorkBlock) :
  _validate_work_block path block = Ok b -> well_formed_block b.
Proof.
  unfold _validate_work_block.
  destruct (dict_get block "enabled") as [|en| | | | |]; try discriminate.
  destruct en; simpl.
  - destruct (dict_get block "hours") as [| | | | | |hm]; try discriminate.
    destruct (dict_get hm "start") as [| | | |sr| |]; try discriminate.
    destruct (dict_get hm "end") as [| | | |er| |]; try discriminate.
    intros H. bind_inv H. bind_inv H.
    destruct (time_seconds a0 <=? time_seconds a) eqn:Hc; [discriminate|].
    injection H as <-. apply _parse_time_Ok in Ha, Ha0.
    unfold well_formed_block, well_formed_hours. simpl.
    apply Z.leb_gt in Hc. intuition.
  - destruct (dict_get block "hours"); try discriminate.
    intros [= <-]. reflexivity.
Qed.

Lemma _validate_work_block_raises (path : string) (block : pydict) :
  raises_only_ValidationError (_validate_work_block path block).
Proof.
  unfold _validate_work_block.
  destruct (dict_get block "enabled") as [|en| | | | |]; auto with validation.
  destruct en; simpl.
  - destruct (dict_get block "hours") as [| | | | | |hm]; auto with validation.
    destruct (dict_get hm "start") as [| | | |sr| |]; auto with validation.
    destruct (dict_get hm "end") as [| | | |er| |]; auto with validation.
    apply raises_only_bind; [apply _parse_time_raises|]. intros st _.
    apply raises_only_bind; [apply _parse_time_raises|]. intros en _.
    destruct (_ <=? _); auto with validation.
  - destruct (dict_get block "hours"); auto with validation.
Qed.

Lemma validate_work_patterns_Ok (d : pydict) (w : ParsedWorkPatterns) :
  validate_work_patterns d = Ok w -> well_formed_work w.
Proof.
  unfold validate_work_patterns.
  destruct (dict_get d "weekdays") as [| | | | | |wd]; try discriminate.
  destruct (dict_get d "saturday") as [| | | | | |sa]; try discriminate.
  destruct (dict_get d "sunday") as [| | | | | |su]; try discriminate.
  intros H. bind_inv H. bind_inv H. bind_inv H.
  destruct (enabled a || enabled a0 || enabled a1) eqn:He; [|discriminate].
  injection H as <-.
  apply _validate_work_block_Ok in Ha, Ha0, Ha1.
  unfold well_formed_work. simpl. auto.
Qed.

Lemma validate_work_patterns_raises (d : pydict) :
  raises_only_ValidationError (validate_work_patterns d).
Proof.
  unfold validate_work_patterns.
  destruct (dict_get d "weekdays") as [| | | | | |wd]; auto with validation.
  destruct (dict_get d "saturday") as [| | | | | |sa]; auto with validation.
  destruct (dict_get d "sunday") as [| | | | | |su]; auto with validation.
  apply raises_only_bind; [apply _validate_work_block_raises|]. intros a _.
  apply raises_only_bind; [apply _validate_work_block_raises|]. intros a0 _.
  apply raises_only_bind; [apply _validate_work_block_raises|]. intros a1 _.
  destruct (negb _); auto with validation.
Qed.

Lemma _require_int_raises (obj : pydict) (key path : string) :
  raises_only_ValidationError (_require_int obj key path).
Proof. unfold _require_int. destruct (negb _); auto with validation. Qed.

Lemma validate_randomness_raises (d : pydict) :
  raises_only_ValidationError (validate_randomness d).
Proof.
  unfold validate_randomness.
  apply raises_only_bind.
  { destruct (dict_get d "seed"); auto with validation;
      destruct (negb _); auto with validation. }
  intros sd _.
  destruct (dict_get d "gap_minutes") as [| | | | | |gap]; auto with validation.
  destruct (dict_get d "seconds") as [| | | | | |sec]; auto with validation.
  apply raises_only_bind; [apply _require_int_raises|]. intros gmin _.
  apply raises_only_bind; [apply _require_int_raises|]. intros gmax _.
  destruct (_ || _); auto with validation.
  destruct (_ <? _); auto with validation.
  apply raises_only_bind; [apply _require_int_raises|]. intros smin _.
  apply raises_only_bind; [apply _require_int_raises|]. intros smax _.
  destruct (negb _); auto with validation.
  destruct (negb _); auto with validation.
  destruct (_ <? _); auto with validation.
Qed.

Lemma _resolve_timezone_raises (path name : string) :
  raises_only_ValidationError (_resolve_timezone path name).
Proof.
  unfold _resolve_timezone.
  destruct (_ || _); auto with validation.
  destruct (ZoneInfo name); auto with validation.
Qed.

Lemma validate_calendar_raises (d : pydict) :
  raises_only_ValidationError (validate_calendar d).
Proof.
  unfold validate_calendar, _parse_date.
  destruct (dict_get d "start") as [| | | |sr| |]; auto with validation.
  destruct (dict_get d "end") as [| | | |er| |]; auto with validation.
  destruct (strptime_ymd sr) as [s0|]; simpl; auto with validation.
  destruct (strptime_ymd er) as [e0|]; simpl; auto with validation.
  destruct (e0 <? s0); auto with validation.
  apply raises_only_bind.
  { destruct (dict_get d "timezone"); auto with validation.
    destruct (String.eqb _ _); auto with validation. }
  intros nm _.
  apply raises_only_bind; [apply _resolve_timezone_raises|]. intros z _.
  auto with validation.
Qed.

Lemma _forbid_synthetic_sections_raises (cfg : Config) (m : string) :
  raises_only_ValidationError (_forbid_synthetic_sections cfg m).
Proof.
  unfold _forbid_synthetic_sections.
  repeat (destruct (bool_decide _); auto with validation).
Qed.

Lemma validate_config_raises (cfg : Config) :
  raises_only_ValidationError (validate_config cfg).
Proof.
  unfold validate_config.
  destruct (_ || _).
  { apply raises_only_bind; [apply _forbid_synthetic_sections_raises|].
    intros; auto with validation. }
  destruct (negb _); auto with validation.
  destruct (cfg_calendar cfg) as [dc|]; auto with validation.
  destruct (cfg_work_patterns cfg) as [dw|]; auto with validation.
  destruct (cfg_randomness cfg) as [dr|]; auto with validation.
  apply raises_only_bind; [apply validate_calendar_raises|]. intros c _.
  apply raises_only_bind; [apply validate_work_patterns_raises|]. intros w _.
  apply raises_only_bind; [apply validate_randomness_raises|]. intros r _.
  auto with validation.
Qed.

(** X10. Validation fails with a [ValidationError] and with nothing
    else: the [ValueError] of the [time] constructor cannot escape from
    [_parse_time], which checks the hour and the minute first. *)
Theorem validate_config_only_ValidationError (cfg : Config) (e : exn) :
  validate_config cfg = Raise e ->
  exists path msg, e = ValidationError path msg.
Proof. apply validate_config_raises. Qed.

End ValidationMore.

(** ** What the engine can raise after validation *)

Lemma benign_Ok {A} (a : A) : benign (Ok a).
Proof. left. eauto. Qed.

Lemma benign_bind {A B} (r : result A) (k : A -> result B) :
  benign r -> (forall a, r = Ok a -> benign (k a)) -> benign (rbind r k).
Proof.
  intros [[a ->]|[->| ->]] Hk; simpl.
  - apply Hk. reflexivity.
  - right. left. reflexivity.
  - right. right. reflexivity.
Qed.

Lemma date_add_days_benign (d n : Z) : benign (date_add_days d n).
Proof.
  unfold date_add_days. destruct (_ && _); [apply benign_Ok|].
  right. right. reflexivity.
Qed.

Lemma datetime_add_benign (d : datetime) (delta : timedelta) :
  benign (datetime_add d delta).
Proof.
  unfold datetime_add. destruct (_ && _); [apply benign_Ok|].
  right. right. reflexivity.
Qed.

Lemma make_timedelta_benign (m s : Z) : benign (make_timedelta m s).
Proof.
  unfold make_timedelta. destruct (_ <=? _); [apply benign_Ok|].
  right. right. reflexivity.
Qed.

Lemma well_formed_block_enabled (b : ParsedWorkBlock) :
  well_formed_block b -> enabled b = true ->
  exists h, hours b = Some h /\ usable_hours b = Some h /\ well_formed_hours h.
Proof.
  unfold well_formed_block, usable_hours. destruct (hours b) as [h|].
  - intros [-> Hw] _. eauto.
  - intros -> H. discriminate H.
Qed.

Lemma _work_block_for_day_well_formed (work : ParsedWorkPatterns) (day : date) :
  well_formed_work work -> well_formed_block (_work_block_for_day day work).
Proof.
  intros (Hw & Hsa & Hsu & _). unfold _work_block_for_day.
  destruct (_ <=? _); [exact Hw|]. destruct (_ =? _); assumption.
Qed.

(** At least one of the three blocks is enabled, so of any seven days
    that follow each other one has an enabled block. *)
Lemma enabled_within_week (work : ParsedWorkPatterns) (day : date) :
  (enabled (weekdays work) || enabled (saturday work) || enabled (sunday work)) = true ->
  exists e, day <= e <= day + 6
    /\ enabled (_work_block_for_day e work) = true.
Proof.
  intros H. apply orb_true_iff in H. destruct H as [H|H];
    [apply orb_true_iff in H; destruct H as [H|H]|].
  - exists (day + (1 - day) mod 7). split; [Z.div_mod_to_equations; lia|].
    unfold _work_block_for_day, weekday.
    destruct (Z.leb_spec ((day + (1 - day) mod 7 + 6) mod 7) 4); [exact H|].
    exfalso. Z.div_mod_to_equations. lia.
  - exists (day + (6 - day) mod 7). split; [Z.div_mod_to_equations; lia|].
    unfold _work_block_for_day, weekday.
    destruct (Z.leb_spec ((day + (6 - day) mod 7 + 6) mod 7) 4);
      [exfalso; Z.div_mod_to_equations; lia|].
    destruct (Z.eqb_spec ((day + (6 - day) mod 7 + 6) mod 7) 5); [exact H|].
    exfalso. Z.div_mod_to_equations. lia.
  - exists (day + (- day) mod 7). split; [Z.div_mod_to_equations; lia|].
    unfold _work_block_for_day, weekday.
    destruct (Z.leb_spec ((day + (- day) mod 7 + 6) mod 7) 4);
      [exfalso; Z.div_mod_to_equations; lia|].
    destruct (Z.eqb_spec ((day + (- day) mod 7 + 6) mod 7) 5); [|exact H].
    exfalso. Z.div_mod_to_equations. lia.
Qed.

Lemma _window_bounds_total (day : date) (h : ParsedWorkHours) (z : tzinfo) :
  well_formed_hours h ->
  exists ws we, _window_bounds day h z = Ok (ws, we).
Proof.
  intros (Hs & _ & He & _ & _). unfold _window_bounds.
  unfold valid_time in Hs, He.
  rewrite !make_time_total by lia. simpl. eauto.
Qed.

Lemma _next_enabled_day_loop_benign (work : ParsedWorkPatterns) (n : nat) :
  forall day, benign (_next_enabled_day_loop n day work).
Proof.
  induction n as [|n IH]; intros day; simpl.
  - right. left. reflexivity.
  - destruct (enabled _); [apply benign_Ok|].
    apply benign_bind; [apply date_add_days_benign|]. intros; apply IH.
Qed.

Section Outcome.
Context {RT : PyRuntime} {Laws : PyRuntimeLaws RT}.

Lemma randint_total (g : rng) (a b : Z) :
  a <= b -> randint g a b = Ok (randint_draw g a b).
Proof. intros H. unfold randint. destruct (Z.ltb_spec b a); [lia|reflexivity]. Qed.

Lemma _pick_time_in_window_total (g : rng) (h : ParsedWorkHours) (sec_min sec_max : Z) :
  well_formed_hours h -> 0 <= sec_min <= sec_max -> sec_max <= 59 ->
  exists t g', _pick_time_in_window g (hours_start h, hours_end h) sec_min sec_max
               = Ok (t, g').
Proof.
  intros (Hs & Hs0 & He & He0 & Hlt) Hsec Hmax.
  unfold valid_time, time_seconds in *. unfold _pick_time_in_window.
  set (start_s := hour (hours_start h) * 3600 + minute (hours_start h) * 60).
  set (end_s := hour (hours_end h) * 3600 + minute (hours_end h) * 60 + 59).
  assert (Hse : start_s <= end_s) by (unfold start_s, end_s; lia).
  destruct (Z.ltb_spec end_s start_s); [lia|].
  rewrite randint_total by exact Hse.
  pose proof (randint_draw_range g start_s end_s Hse) as Hr.
  destruct (randint_draw g start_s end_s) as [c g1]. simpl in Hr. simpl rbind.
  rewrite randint_total by lia.
  pose proof (randint_draw_range g1 sec_min sec_max ltac:(lia)) as Hr2.
  destruct (randint_draw g1 sec_min sec_max) as [s g2]. simpl in Hr2. simpl rbind.
  rewrite make_time_total; [simpl; eauto| | |lia].
  - unfold start_s, end_s in *. Z.div_mod_to_equations. lia.
  - unfold start_s, end_s in *. Z.div_mod_to_equations. lia.
Qed.

Lemma _random_datetime_for_day_total (day : date) (work : ParsedWorkPatterns)
  (g : rng) (sec_min sec_max : Z) (z : tzinfo) :
  well_formed_block (_work_block_for_day day work) ->
  enabled (_work_block_for_day day work) = true ->
  0 <= sec_min <= sec_max -> sec_max <= 59 ->
  exists r g', _random_datetime_for_day day work g sec_min sec_max z = Ok (r, g').
Proof.
  intros Hwf Hen Hsec Hmax.
  destruct (well_formed_block_enabled _ Hwf Hen) as (h & _ & Hu & Hh).
  unfold _random_datetime_for_day. rewrite Hu.
  destruct (_pick_time_in_window_total g h sec_min sec_max Hh Hsec Hmax)
    as (t & g' & ->).
  simpl. eauto.
Qed.

Lemma _next_valid_datetime_loop_benign (work : ParsedWorkPatterns)
  (sec_min sec_max : Z) (z : tzinfo) (n : nat) :
  well_formed_work work -> 0 <= sec_min <= sec_max -> sec_max <= 59 ->
  forall (day : date) (cand : datetime) (g : rng),
    benign (_next_valid_datetime_loop n day cand work g sec_min sec_max z).
Proof.
  intros Hwf Hsec Hmax. induction n as [|n IH]; intros day cand g; simpl.
  - right. left. reflexivity.
  - destruct (usable_hours _) as [h|] eqn:Hu.
    + pose proof (_work_block_for_day_well_formed work day Hwf) as Hb.
      apply usable_hours_Some in Hu. destruct Hu as [Hen Hh].
      destruct (well_formed_block_enabled _ Hb Hen) as (h' & Hh' & _ & Hwh).
      rewrite Hh in Hh'. injection Hh' as <-.
      destruct (_window_bounds_total day h z Hwh) as (ws & we & ->). simpl rbind.
      destruct (datetime_ltb cand ws).
      * destruct (_random_datetime_for_day_total day work g sec_min sec_max z
                    Hb Hen Hsec Hmax) as (r & g' & ->).
        apply benign_Ok.
      * destruct (_ && _); [apply benign_Ok|].
        apply benign_bind; [apply date_add_days_benign|]. intros; apply IH.
    + apply benign_bind; [apply date_add_days_benign|]. intros; apply IH.
Qed.

Lemma _random_gap_benign (g : rng) (gap_min gap_max sec_min sec_max : Z) :
  gap_min <= gap_max -> sec_min <= sec_max ->
  benign (_random_gap g gap_min gap_max sec_min sec_max).
Proof.
  intros Hg Hs. unfold _random_gap.
  rewrite randint_total by exact Hg.
  destruct (randint_draw g gap_min gap_max) as [mi g1]. simpl rbind.
  rewrite randint_total by exact Hs.
  destruct (randint_draw g1 sec_min sec_max) as [se g2]. simpl rbind.
  apply benign_bind; [apply make_timedelta_benign|]. intros; apply benign_Ok.
Qed.

Lemma _synthetic_loop_benign (end_day : date) (work : ParsedWorkPatterns)
  (gap_min gap_max sec_min sec_max : Z) (z : tzinfo) (rest : list Commit) :
  well_formed_work work -> gap_min <= gap_max ->
  0 <= sec_min <= sec_max -> sec_max <= 59 ->
  forall (current : datetime) (results : gmap string datetime) (g : rng),
    benign (_synthetic_loop rest current results g end_day work
              gap_min gap_max sec_min sec_max z).
Proof.
  intros Hwf Hg Hsec Hmax.
  induction rest as [|c rest IH]; intros current results g; simpl.
  - apply benign_Ok.
  - apply benign_bind; [apply _random_gap_benign; lia|]. intros [gap g1] _.
    apply benign_bind; [apply datetime_add_benign|]. intros cand _.
    apply benign_bind.
    { unfold _next_valid_datetime.
      apply _next_valid_datetime_loop_benign; assumption. }
    intros [next g2] _. apply IH.
Qed.

Lemma validate_config_mode (cfg : Config) (vc : ValidatedConfig) :
  validate_config cfg = Ok vc ->
  mode (timestamp vc) = "author"%string \/ mode (timestamp vc) = "commit"%string
  \/ mode (timestamp vc) = "synthetic"%string.
Proof.
  unfold validate_config. intros H.
  destruct (String.eqb (mode (cfg_timestamp cfg)) "author") eqn:Ha.
  { simpl in H. bind_inv H. injection H as <-. simpl.
    left. apply String.eqb_eq. exact Ha. }
  destruct (String.eqb (mode (cfg_timestamp cfg)) "commit") eqn:Hc.
  { simpl in H. bind_inv H. injection H as <-. simpl.
    right. left. apply String.eqb_eq. exact Hc. }
  simpl in H.
  destruct (String.eqb (mode (cfg_timestamp cfg)) "synthetic") eqn:Hs; [|discriminate].
  simpl in H.
  destruct (cfg_calendar cfg); [|discriminate].
  destruct (cfg_work_patterns cfg); [|discriminate].
  destruct (cfg_randomness cfg); [|discriminate].
  bind_inv H. bind_inv H. bind_inv H. injection H as <-. simpl.
  right. right. apply String.eqb_eq. exact Hs.
Qed.

Lemma compute_timestamps_benign
  (cfg : Config) (vc : ValidatedConfig) (ent : entropy) (commits : list Commit) :
  validate_config cfg = Ok vc -> benign (compute_timestamps ent commits vc).
Proof.
  intros Hval.
  destruct (validate_config_mode cfg vc Hval) as [Hm|[Hm|Hm]];
    unfold compute_timestamps; rewrite Hm; simpl; try apply benign_Ok.
  destruct (validate_config_synthetic cfg vc Hval Hm)
    as (dc & dw & dr & cal & work & rnd & _ & Hvw & Hvr & Hc & Hw & Hr).
  apply validate_work_patterns_Ok in Hvw. apply validate_randomness_Ok in Hvr.
  unfold _synthetic_mode. destruct commits as [|first rest]; [apply benign_Ok|].
  rewrite Hc, Hw, Hr.
  apply benign_bind; [apply _next_enabled_day_loop_benign|]. intros day0 Hd0.
  apply _next_enabled_day_loop_first in Hd0. destruct Hd0 as (_ & Hen & _).
  destruct (_random_datetime_for_day_total day0 work
              (Random ent (seed rnd)) (seconds_min rnd) (seconds_max rnd) (tz cal))
    as (t0 & g1 & ->);
    [apply _work_block_for_day_well_formed; exact Hvw | exact Hen | lia | lia |].
  simpl rbind. apply _synthetic_loop_benign; [exact Hvw | lia | lia | lia].
Qed.

(** X6. Under a configuration that [validate_config] accepted,
    [compute_timestamps] returns a result, or reports an exhausted
    calendar, or overflows the range of [datetime]; its other errors
    (unsupported mode, missing sections, a disabled day, a window that
    ends before it starts, the [ValueError] of [randint] and of [time])
    cannot occur. *)
Theorem compute_timestamps_validated_outcome
  (cfg : Config) (vc : ValidatedConfig) (ent : entropy) (commits : list Commit) :
  validate_config cfg = Ok vc ->
  (exists m, compute_timestamps ent commits vc = Ok m)
  \/ compute_timestamps ent commits vc
     = Raise (EngineError "Synthetic calendar window exhausted")
  \/ compute_timestamps ent commits vc = Raise OverflowError.
Proof.
  intros Hval. exact (compute_timestamps_benign cfg vc ent commits Hval).
Qed.

(** X8. Under a validated synthetic configuration whose calendar spans
    at least seven days, or has an enabled day at all, a single commit
    always gets its timestamp: [compute_timestamps] returns, and the
    instant is dated on the first enabled day of the calendar. *)
Theorem synthetic_single_commit_succeeds
  (cfg : Config) (vc : ValidatedConfig) (ent : entropy) (c : Commit)
  (cal : ParsedCalendar) (work : ParsedWorkPatterns) :
  validate_config cfg = Ok vc ->
  mode (timestamp vc) = "synthetic"%string ->
  calendar vc = Some cal ->
  work_patterns vc = Some work ->
  (cal_start cal + 6 <= cal_end cal
   \/ exists e, cal_start cal <= e <= cal_end cal
        /\ enabled (_work_block_for_day e work) = true) ->
  exists t,
    compute_timestamps ent [c] vc = Ok {[ hash c := t ]}
    /\ _next_enabled_day (cal_start cal) (cal_end cal) work = Ok (dt_date t).
Proof.
  intros Hval Hm Hcal Hwork Hdays.
  destruct (validate_config_synthetic cfg vc Hval Hm)
    as (dc & dw & dr & cal' & work' & rnd & Hvc & Hvw & Hvr & Hc & Hw & Hr).
  rewrite Hcal in Hc. injection Hc as <-.
  rewrite Hwork in Hw. injection Hw as <-.
  apply validate_calendar_Ok in Hvc.
  apply validate_work_patterns_Ok in Hvw. apply validate_randomness_Ok in Hvr.
  assert (He : exists e, cal_start cal <= e <= cal_end cal
                 /\ enabled (_work_block_for_day e work) = true).
  { destruct Hdays as [H7|He]; [|exact He].
    destruct Hvw as (_ & _ & _ & Hen).
    destruct (enabled_within_week work (cal_start cal) Hen) as (e & Hr7 & Hee).
    exists e. split; [lia | exact Hee]. }
  destruct He as (e & Hre & Hee).
  destruct (_next_enabled_day_loop_finds work
              (Z.to_nat (cal_end cal - cal_start cal + 1)) (cal_start cal) e)
    as [d0 Hd0]; [lia | lia | lia | exact Hee |].
  pose proof (_next_enabled_day_loop_first _ _ _ _ Hd0) as (_ & Hen0 & _).
  destruct (_random_datetime_for_day_total d0 work
              (Random ent (seed rnd)) (seconds_min rnd) (seconds_max rnd) (tz cal))
    as (t0 & g1 & Ht0);
    [apply _work_block_for_day_well_formed; exact Hvw | exact Hen0 | lia | lia |].
  exists t0.
  pose proof (_random_datetime_for_day_Ok _ _ _ _ _ _ _ _ Ht0) as [Hdate _].
  split.
  - unfold compute_timestamps. rewrite Hm. simpl.
    unfold _synthetic_mode. rewrite Hcal, Hwork, Hr.
    unfold _next_enabled_day. rewrite Hd0. simpl rbind. rewrite Ht0. reflexivity.
  - rewrite Hdate. exact Hd0.
Qed.

(** X9. The work patterns of a validated synthetic configuration: on
    every date the block the engine looks up is either disabled and
    without hours, or enabled with a window of two times on the minute,
    the end after the start; and of any seven days that follow each
    other, one is enabled. *)
Theorem validate_config_work_patterns
  (cfg : Config) (vc : ValidatedConfig) :
  validate_config cfg = Ok vc ->
  mode (timestamp vc) = "synthetic"%string ->
  exists work,
    work_patterns vc = Some work
    /\ (forall day : date, well_formed_block (_work_block_for_day day work))
    /\ (forall day : date, exists e, day <= e <= day + 6
          /\ enabled (_work_block_for_day e work) = true).
Proof.
  intros Hval Hm.
  destruct (validate_config_synthetic cfg vc Hval Hm)
    as (dc & dw & dr & cal & work & rnd & _ & Hvw & _ & _ & Hw & _).
  apply validate_work_patterns_Ok in Hvw.
  exists work. split; [exact Hw|]. split.
  - intros day. apply _work_block_for_day_well_formed. exact Hvw.
  - intros day. apply enabled_within_week. apply Hvw.
Qed.

End Outcome.

(** * Properties of the policy emitter *)

Lemma _normalise_range_bounds (maybe_min maybe_max : option Z)
  (default_min default_max clamp_min : Z) (clamp_max : option Z) :
  (forall c, clamp_max = Some c -> clamp_min <= c) ->
  clamp_min <= fst (_normalise_range maybe_min maybe_max default_min default_max
                      clamp_min clamp_max)
  /\ fst (_normalise_range maybe_min maybe_max default_min default_max
            clamp_min clamp_max)
     <= snd (_normalise_range maybe_min maybe_max default_min default_max
               clamp_min clamp_max)
  /\ (forall c, clamp_max = Some c ->
        snd (_normalise_range maybe_min maybe_max default_min default_max
               clamp_min clamp_max) <= c).
Proof.
  intros Hc. unfold _normalise_range.
  destruct maybe_min as [mn|], maybe_max as [mx|], clamp_max as [c|];
    try specialize (Hc _ eq_refl); cbv beta iota zeta;
    match goal with
    | |- context [if ?a <? ?b then _ else _] =>
        destruct (Z.ltb_spec a b); simpl;
        (split; [lia|]); (split; [lia|]);
        intros c' Hc'; try discriminate Hc'; injection Hc' as <-; lia
    end.
Qed.

(** X11. [_normalise_range] always returns a range: the lower end is at
    least [clamp_min] and at most the upper end, and the upper end is at
    most [clamp_max] when one is given (and is not below [clamp_min]). *)
Theorem _normalise_range_valid (maybe_min maybe_max : option Z)
  (default_min default_max clamp_min : Z) (clamp_max : option Z) (rmin rmax : Z) :
  (forall c, clamp_max = Some c -> clamp_min <= c) ->
  _normalise_range maybe_min maybe_max default_min default_max clamp_min clamp_max
  = (rmin, rmax) ->
  clamp_min <= rmin <= rmax /\ (forall c, clamp_max = Some c -> rmax <= c).
Proof.
  intros Hc H.
  pose proof (_normalise_range_bounds maybe_min maybe_max default_min default_max
                clamp_min clamp_max Hc) as Hb.
  rewrite H in Hb. simpl in Hb. destruct Hb as (H1 & H2 & H3).
  split; [lia | exact H3].
Qed.

Lemma _normalise_range_fixed (a b : Z)
  (default_min default_max clamp_min : Z) (clamp_max : option Z) :
  clamp_min <= a <= b ->
  (forall c, clamp_max = Some c -> b <= c) ->
  _normalise_range (Some a) (Some b) default_min default_max clamp_min clamp_max
  = (a, b).
Proof.
  intros Hab Hc. unfold _normalise_range.
  destruct clamp_max as [c|]; [specialize (Hc _ eq_refl)|]; cbv beta iota zeta.
  - rewrite (Z.min_r c a), (Z.min_r c b), (Z.max_r clamp_min a),
      (Z.max_r clamp_min b) by lia.
    destruct (Z.ltb_spec b a); [lia|reflexivity].
  - rewrite (Z.max_r clamp_min a), (Z.max_r clamp_min b) by lia.
    destruct (Z.ltb_spec b a); [lia|reflexivity].
Qed.

(** X12. A range that is already valid is left as it is: when both ends
    are given, in order and within the clamps, [_normalise_range]
    returns them. Hence normalising the range it returned changes
    nothing. *)
Theorem _normalise_range_keeps_valid (maybe_min maybe_max : option Z)
  (default_min default_max clamp_min : Z) (clamp_max : option Z) :
  (forall c, clamp_max = Some c -> clamp_min <= c) ->
  (forall a b : Z,
     clamp_min <= a <= b -> (forall c, clamp_max = Some c -> b <= c) ->
     _normalise_range (Some a) (Some b) default_min default_max clamp_min clamp_max
     = (a, b))
  /\ (forall rmin rmax : Z,
        _normalise_range maybe_min maybe_max default_min default_max
          clamp_min clamp_max = (rmin, rmax) ->
        _normalise_range (Some rmin) (Some rmax) default_min default_max
          clamp_min clamp_max = (rmin, rmax)).
Proof.
  intros Hc. split.
  - intros a b. apply _normalise_range_fixed.
  - intros rmin rmax H.
    pose proof (_normalise_range_bounds maybe_min maybe_max default_min default_max
                  clamp_min clamp_max Hc) as Hb.
    rewrite H in Hb. simpl in Hb. destruct Hb as (H1 & H2 & H3).
    apply _normalise_range_fixed; [lia | exact H3].
Qed.

Section EmitValidates.
Context {RT : PyRuntime}.
Context (date_ymd : date -> Z * Z * Z).

Lemma _build_randomness_Ok (cleaned_data : Form.cleaned_data)
  (calendar_start : date) :
  exists r,
    validate_randomness (_build_randomness date_ymd cleaned_data calendar_start)
    = Ok r
    /\ seed r = Some (default (strftime_Ymd_int date_ymd calendar_start)
                        (Form.randomness_seed cleaned_data))
    /\ (gap_minutes_min r, gap_minutes_max r)
       = _normalise_range (Form.gap_minutes_min cleaned_data)
           (Form.gap_minutes_max cleaned_data)
           _DEFAULT_GAP_MIN _DEFAULT_GAP_MAX 0 None
    /\ (seconds_min r, seconds_max r)
       = _normalise_range (Form.seconds_min cleaned_data)
           (Form.seconds_max cleaned_data)
           _DEFAULT_SEC_MIN _DEFAULT_SEC_MAX 0 (Some 59).
Proof.
  unfold _build_randomness.
  pose proof (_normalise_range_bounds (Form.gap_minutes_min cleaned_data)
                (Form.gap_minutes_max cleaned_data)
                _DEFAULT_GAP_MIN _DEFAULT_GAP_MAX 0 None) as Hg.
  pose proof (_normalise_range_bounds (Form.seconds_min cleaned_data)
                (Form.seconds_max cleaned_data)
                _DEFAULT_SEC_MIN _DEFAULT_SEC_MAX 0 (Some 59)) as Hs.
  destruct (_normalise_range (Form.gap_minutes_min cleaned_data) _ _ _ _ _)
    as [gmin gmax].
  destruct (_normalise_range (Form.seconds_min cleaned_data) _ _ _ _ _)
    as [smin smax].
  simpl in Hg, Hs.
  destruct Hg as (Hg1 & Hg2 & _); [intros c Hc; discriminate Hc|].
  destruct Hs as (Hs1 & Hs2 & Hs3); [intros c [= <-]; lia|].
  specialize (Hs3 59 eq_refl).
  unfold validate_randomness, _require_int. simpl.
  destruct (Z.ltb_spec gmin 0); [lia|]. destruct (Z.ltb_spec gmax 0); [lia|].
  simpl. destruct (Z.ltb_spec gmax gmin); [lia|].
  destruct (Z.leb_spec 0 smin); [|lia]. destruct (Z.leb_spec smin 59); [|lia].
  destruct (Z.leb_spec 0 smax); [|lia]. destruct (Z.leb_spec smax 59); [|lia].
  simpl. destruct (Z.ltb_spec smax smin); [lia|].
  eexists. split; [reflexivity|]. simpl.
  split; [destruct (Form.randomness_seed cleaned_data); reflexivity|].
  split; reflexivity.
Qed.

(** X13. Whatever the form holds, the randomness section that
    [_build_randomness] emits is accepted by [validate_randomness]: the
    seed is the one given, or the number read off the start date, and
    the two ranges are the normalised ones. *)
Theorem _build_randomness_validates (cleaned_data : Form.cleaned_data)
  (calendar_start : date) :
  exists r,
    validate_randomness (_build_randomness date_ymd cleaned_data calendar_start)
    = Ok r
    /\ seed r = Some (default (strftime_Ymd_int date_ymd calendar_start)
                        (Form.randomness_seed cleaned_data))
    /\ (gap_minutes_min r, gap_minutes_max r)
       = _normalise_range (Form.gap_minutes_min cleaned_data)
           (Form.gap_minutes_max cleaned_data)
           _DEFAULT_GAP_MIN _DEFAULT_GAP_MAX 0 None
    /\ (seconds_min r, seconds_max r)
       = _normalise_range (Form.seconds_min cleaned_data)
           (Form.seconds_max cleaned_data)
           _DEFAULT_SEC_MIN _DEFAULT_SEC_MAX 0 (Some 59).
Proof. apply _build_randomness_Ok. Qed.

End EmitValidates.

(** ** Times and dates in the emitted policy *)

Lemma digit_cases (d : Z) :
  0 <= d <= 9 ->
  d = 0 \/ d = 1 \/ d = 2 \/ d = 3 \/ d = 4 \/ d = 5 \/ d = 6 \/ d = 7
  \/ d = 8 \/ d = 9.
Proof. lia. Qed.

Lemma digit_char_not_sep (sep : Ascii.ascii) (d : Z) :
  0 <= d <= 9 -> (sep = ":"%char \/ sep = "-"%char) ->
  Ascii.eqb (digit_char d) sep = false.
Proof.
  intros Hd Hs. apply digit_cases in Hd.
  destruct Hs as [-> | ->];
    repeat (destruct Hd as [-> | Hd]; [reflexivity|]); subst d; reflexivity.
Qed.

Lemma split_on_pad2 (sep : Ascii.ascii) (n : Z) (rest : string) :
  0 <= n <= 99 -> (sep = ":"%char \/ sep = "-"%char) ->
  split_on sep (pad2 n +:+ String sep rest) = pad2 n :: split_on sep rest.
Proof.
  intros Hn Hs. unfold pad2. simpl.
  rewrite !digit_char_not_sep by (try exact Hs; Z.div_mod_to_equations; lia).
  rewrite Ascii.eqb_refl. reflexivity.
Qed.

Lemma split_on_pad2_end (sep : Ascii.ascii) (n : Z) :
  0 <= n <= 99 -> (sep = ":"%char \/ sep = "-"%char) ->
  split_on sep (pad2 n) = [pad2 n].
Proof.
  intros Hn Hs. unfold pad2. simpl.
  rewrite !digit_char_not_sep by (try exact Hs; Z.div_mod_to_equations; lia).
  reflexivity.
Qed.

Lemma split_on_fmt_time (t : time) :
  valid_time t ->
  split_on ":" (_fmt_time t) = [pad2 (hour t); pad2 (minute t)].
Proof.
  intros (Hh & Hm & _). unfold _fmt_time.
  change (pad2 (hour t) +:+ ":" +:+ pad2 (minute t))%string
    with (pad2 (hour t) +:+ String ":" (pad2 (minute t)))%string.
  rewrite split_on_pad2 by (auto; lia).
  rewrite split_on_pad2_end by (auto; lia). reflexivity.
Qed.

Section BlockValidates.
Context {RT : PyRuntime}.
(** [int] reads a number on two digits. *)
Hypothesis int_of_pad2 :
  forall n : Z, 0 <= n <= 59 -> int_of_str (pad2 n) = Some n.

Lemma _parse_time_fmt_time (path : string) (t : time) :
  valid_time t ->
  _parse_time path (_fmt_time t) = Ok (mk_time (hour t) (minute t) 0).
Proof.
  intros Hv. unfold _parse_time. rewrite split_on_fmt_time by exact Hv.
  destruct Hv as (Hh & Hm & _).
  rewrite !int_of_pad2 by lia.
  destruct (Z.leb_spec 0 (hour t)); [|lia].
  destruct (Z.leb_spec (hour t) 23); [|lia].
  destruct (Z.leb_spec 0 (minute t)); [|lia].
  destruct (Z.leb_spec (minute t) 59); [|lia].
  simpl. apply make_time_total; lia.
Qed.

Lemma _build_work_block_enabled (cleaned_data : Form.cleaned_data)
  (prefix : string) (st en : time) :
  Form.get_enabled cleaned_data prefix = true ->
  Form.get_start cleaned_data prefix = Some st ->
  Form.get_end cleaned_data prefix = Some en ->
  _build_work_block cleaned_data prefix =
    Returns [("enabled"%string, VBool true);
             ("hours"%string,
               VDict [("start"%string, VStr (_fmt_time st));
                      ("end"%string, VStr (_fmt_time en))])].
Proof.
  intros He Hs Hn. unfold _build_work_block. rewrite He, Hs, Hn. reflexivity.
Qed.

Lemma _validate_enabled_block (path : string) (st en : time) :
  valid_time st -> valid_time en ->
  _validate_work_block path
    [("enabled"%string, VBool true);
     ("hours"%string,
       VDict [("start"%string, VStr (_fmt_time st));
              ("end"%string, VStr (_fmt_time en))])]
  = if hour en * 60 + minute en <=? hour st * 60 + minute st
    then Raise (ValidationError (path +:+ ".hours.end")
                  "end must be after hours.start")
    else Ok (mk_ParsedWorkBlock true
               (Some (mk_ParsedWorkHours (mk_time (hour st) (minute st) 0)
                        (mk_time (hour en) (minute en) 0)))).
Proof.
  intros Hvs Hve. unfold _validate_work_block. simpl.
  rewrite !_parse_time_fmt_time by assumption. simpl.
  unfold time_seconds. simpl.
  destruct (Z.leb_spec (hour en * 3600 + minute en * 60 + 0)
              (hour st * 3600 + minute st * 60 + 0));
    destruct (Z.leb_spec (hour en * 60 + minute en) (hour st * 60 + minute st));
    try lia; reflexivity.
Qed.

(** X14. The work block the emitter writes is the one validation reads:
    a disabled block is emitted without hours and accepted as such; an
    enabled block whose times are valid, the end in a later minute than
    the start, is accepted, with the two times cut to the minute. *)
Theorem _build_work_block_validates (cleaned_data : Form.cleaned_data)
  (prefix path : string) :
  (Form.get_enabled cleaned_data prefix = false ->
   exists block,
     _build_work_block cleaned_data prefix = Returns block
     /\ _validate_work_block path block = Ok (mk_ParsedWorkBlock false None))
  /\
  (forall st en : time,
     Form.get_enabled cleaned_data prefix = true ->
     Form.get_start cleaned_data prefix = Some st ->
     Form.get_end cleaned_data prefix = Some en ->
     valid_time st -> valid_time en ->
     hour st * 60 + minute st < hour en * 60 + minute en ->
     exists block,
       _build_work_block cleaned_data prefix = Returns block
       /\ _validate_work_block path block
          = Ok (mk_ParsedWorkBlock true
                  (Some (mk_ParsedWorkHours (mk_time (hour st) (minute st) 0)
                           (mk_time (hour en) (minute en) 0))))).
Proof.
  split.
  - intros He. unfold _build_work_block. rewrite He. simpl.
    eexists. split; reflexivity.
  - intros st en He Hs Hn Hvs Hve Hlt.
    rewrite (_build_work_block_enabled _ _ _ _ He Hs Hn).
    eexists. split; [reflexivity|].
    rewrite _validate_enabled_block by assumption.
    destruct (Z.leb_spec (hour en * 60 + minute en) (hour st * 60 + minute st));
      [lia | reflexivity].
Qed.

(** X15. The emitter drops the seconds of the form's times: an enabled
    block whose end is not in a later minute than its start is rejected
    by validation at [hours.end], also when the end is later than the
    start by its seconds, the order the form checks. *)
Theorem _build_work_block_same_minute_rejected (cleaned_data : Form.cleaned_data)
  (prefix path : string) (st en : time) :
  Form.get_enabled cleaned_data prefix = true ->
  Form.get_start cleaned_data prefix = Some st ->
  Form.get_end cleaned_data prefix = Some en ->
  valid_time st -> valid_time en ->
  hour en * 60 + minute en <= hour st * 60 + minute st ->
  exists block,
    _build_work_block cleaned_data prefix = Returns block
    /\ _validate_work_block path block
       = Raise (ValidationError (path +:+ ".hours.end")
                  "end must be after hours.start").
Proof.
  intros He Hs Hn Hvs Hve Hle.
  rewrite (_build_work_block_enabled _ _ _ _ He Hs Hn).
  eexists. split; [reflexivity|].
  rewrite _validate_enabled_block by assumption.
  destruct (Z.leb_spec (hour en * 60 + minute en) (hour st * 60 + minute st));
    [reflexivity | lia].
Qed.

End BlockValidates.

(** * Properties of the dry-run report *)

Lemma insert_by_index_perm (e : DryRunEntry.t) (l : list DryRunEntry.t) :
  insert_by_index e l ≡ₚ e :: l.
Proof.
  induction l as [|x l IH]; simpl; [reflexivity|].
  destruct (_ <=? _); [reflexivity|].
  rewrite IH. apply Permutation_swap.
Qed.

Lemma sort_by_index_perm (l : list DryRunEntry.t) : sort_by_index l ≡ₚ l.
Proof.
  induction l as [|x l IH]; simpl; [reflexivity|].
  rewrite insert_by_index_perm, IH. reflexivity.
Qed.

Lemma insert_by_index_sorted (e : DryRunEntry.t) (l : list DryRunEntry.t) :
  StronglySorted by_index l -> StronglySorted by_index (insert_by_index e l).
Proof.
  induction l as [|x l IH]; intros Hs; simpl.
  - repeat constructor.
  - apply StronglySorted_inv in Hs. destruct Hs as [Hl Hx].
    destruct (Z.leb_spec (DryRunEntry.index e) (DryRunEntry.index x)).
    + constructor; [constructor; assumption|].
      constructor; [exact H|].
      rewrite Forall_forall in Hx |- *. intros y Hy.
      specialize (Hx y Hy). unfold by_index in *. lia.
    + constructor; [apply IH; exact Hl|].
      rewrite (insert_by_index_perm e l).
      constructor; [unfold by_index; lia | exact Hx].
Qed.

Lemma sort_by_index_sorted (l : list DryRunEntry.t) :
  StronglySorted by_index (sort_by_index l).
Proof.
  induction l as [|x l IH]; simpl; [constructor|].
  apply insert_by_index_sorted. exact IH.
Qed.

(** The sort is stable: a list that is in order is left as it is. *)
Lemma sort_by_index_id (l : list DryRunEntry.t) :
  StronglySorted by_index l -> sort_by_index l = l.
Proof.
  induction l as [|x l IH]; intros Hs; simpl; [reflexivity|].
  apply StronglySorted_inv in Hs. destruct Hs as [Hl Hx].
  rewrite (IH Hl). destruct l as [|y l]; [reflexivity|]. simpl.
  inversion Hx as [|? ? Hxy _]; subst. unfold by_index in Hxy.
  destruct (Z.leb_spec (DryRunEntry.index x) (DryRunEntry.index y)); [reflexivity|lia].
Qed.

Section DryRunProps.
Context (datetime_ne : datetime -> datetime -> bool).


Lemma build_entries_loop_Returns (final_timestamps : gmap string datetime)
  (hash_len : Z) (commits : list Commit) :
  forall entries : list DryRunEntry.t,
    (forall c, c ∈ commits -> is_Some (final_timestamps !! hash c)) ->
    build_entries_loop datetime_ne commits final_timestamps hash_len entries
    = Returns (entries ++ (entry_for datetime_ne final_timestamps hash_len <$> commits)).
Proof.
  induction commits as [|c commits IH]; intros entries Hall; simpl.
  - rewrite app_nil_r. reflexivity.
  - destruct (Hall c ltac:(left)) as [t Ht].
    unfold entry_for at 1. rewrite Ht. simpl.
    rewrite IH by (intros c' Hc'; apply Hall; right; exact Hc').
    rewrite <- app_assoc. reflexivity.
Qed.

Lemma build_entries_Returns (final_timestamps : gmap string datetime)
  (hash_len : Z) (commits : list Commit) :
  0 < hash_len ->
  (forall c, c ∈ commits -> is_Some (final_timestamps !! hash c)) ->
  build_entries datetime_ne commits final_timestamps hash_len
  = Returns (sort_by_index (entry_for datetime_ne final_timestamps hash_len <$> commits)).
Proof.
  intros Hlen Hall. unfold build_entries.
  destruct (Z.leb_spec hash_len 0); [lia|].
  rewrite build_entries_loop_Returns by exact Hall. reflexivity.
Qed.

Lemma entry_for_fields (final_timestamps : gmap string datetime) (hash_len : Z)
  (c : Commit) (t : datetime) :
  final_timestamps !! hash c = Some t ->
  DryRunEntry.index (entry_for datetime_ne final_timestamps hash_len c) = index c
  /\ DryRunEntry.final_timestamp (entry_for datetime_ne final_timestamps hash_len c) = t
  /\ DryRunEntry.author_date (entry_for datetime_ne final_timestamps hash_len c) = author_date c
  /\ DryRunEntry.committer_date (entry_for datetime_ne final_timestamps hash_len c)
     = committer_date c
  /\ DryRunEntry.hash_prefix (entry_for datetime_ne final_timestamps hash_len c)
     = String.substring 0 (Z.to_nat hash_len) (hash c).
Proof. intros H. unfold entry_for. rewrite H. simpl. auto. Qed.

Section Plan.
Context {RT : PyRuntime} {Laws : PyRuntimeLaws RT}.

Lemma final_covers (ent : entropy) (selected : list Commit)
  (validated : ValidatedConfig) (m : gmap string datetime) :
  final ent selected validated = Ok m ->
  forall c, c ∈ selected -> is_Some (m !! hash c).
Proof.
  intros H c Hc. destruct selected as [|c0 rest]; [inversion Hc|].
  simpl in H. apply (compute_timestamps_dom ent (c0 :: rest) validated m H).
  apply list_elem_of_fmap. exists c. split; [reflexivity | exact Hc].
Qed.

(** X16. A plan never lacks a timestamp: when the timestamps of a
    selection have been computed (the empty dictionary for an empty
    selection), [build_entries] does not raise [KeyError]; it returns
    one entry per selected commit, in the order of their index, and each
    commit has an entry with its index, its two dates and the timestamp
    computed for its hash. *)
Theorem build_entries_of_plan (ent : entropy) (selected : list Commit)
  (validated : ValidatedConfig) (m : gmap string datetime) (hash_len : Z) :
  0 < hash_len ->
  final ent selected validated = Ok m ->
  exists entries,
    build_entries datetime_ne selected m hash_len = Returns entries
    /\ length entries = length selected
    /\ StronglySorted by_index entries
    /\ forall c, c ∈ selected ->
         exists e, e ∈ entries
           /\ DryRunEntry.index e = index c
           /\ m !! hash c = Some (DryRunEntry.final_timestamp e)
           /\ DryRunEntry.author_date e = author_date c
           /\ DryRunEntry.committer_date e = committer_date c.
Proof.
  intros Hlen H. pose proof (final_covers ent selected validated m H) as Hall.
  exists (sort_by_index (entry_for datetime_ne m hash_len <$> selected)).
  split; [apply build_entries_Returns; assumption|].
  split; [rewrite sort_by_index_perm, length_fmap; reflexivity|].
  split; [apply sort_by_index_sorted|].
  intros c Hc. destruct (Hall c Hc) as [t Ht].
  exists (entry_for datetime_ne m hash_len c).
  destruct (entry_for_fields m hash_len c t Ht) as (H1 & H2 & H3 & H4 & _).
  split.
  - rewrite sort_by_index_perm. apply list_elem_of_fmap. eauto.
  - rewrite H2. auto.
Qed.

(** X17. When the selected commits come in the order of their index, as
    [load_commit_history] numbers them and [apply_scope] slices them,
    the sort moves nothing: the entry at each position is the one of
    the commit at that position, with the first [hash_len] characters
    of its hash. *)
Theorem build_entries_keeps_order (ent : entropy) (selected : list Commit)
  (validated : ValidatedConfig) (m : gmap string datetime) (hash_len : Z) :
  0 < hash_len ->
  StronglySorted (fun a b => index a <= index b) selected ->
  final ent selected validated = Ok m ->
  exists entries,
    build_entries datetime_ne selected m hash_len = Returns entries
    /\ forall (i : nat) (c : Commit), selected !! i = Some c ->
         exists e, entries !! i = Some e
           /\ DryRunEntry.index e = index c
           /\ m !! hash c = Some (DryRunEntry.final_timestamp e)
           /\ DryRunEntry.hash_prefix e
              = String.substring 0 (Z.to_nat hash_len) (hash c).
Proof.
  intros Hlen Hs H. pose proof (final_covers ent selected validated m H) as Hall.
  exists (entry_for datetime_ne m hash_len <$> selected). split.
  - rewrite build_entries_Returns by assumption. f_equal.
    apply sort_by_index_id. clear H.
    induction Hs as [|c l Hl IH Hc]; simpl; [constructor|].
    constructor.
    + apply IH. intros c' Hc'. apply Hall. right. exact Hc'.
    + apply Forall_forall. intros e He.
      apply list_elem_of_fmap in He. destruct He as (c' & -> & Hc').
      destruct (Hall c ltac:(left)) as [t Ht].
      destruct (Hall c' ltac:(right; exact Hc')) as [t' Ht'].
      unfold by_index.
      rewrite (proj1 (entry_for_fields m hash_len c t Ht)).
      rewrite (proj1 (entry_for_fields m hash_len c' t' Ht')).
      apply (proj1 (Forall_forall _ _) Hc). exact Hc'.
  - intros i c Hi. exists (entry_for datetime_ne m hash_len c).
    rewrite list_lookup_fmap, Hi. split; [reflexivity|].
    destruct (Hall c) as [t Ht]; [eapply list_elem_of_lookup_2; exact Hi|].
    destruct (entry_for_fields m hash_len c t Ht) as (H1 & H2 & _ & _ & H5).
    rewrite H2. auto.
Qed.

(** X18. What [changed] says in the two copy modes, for commits
    identified by their hash and a comparison that finds an instant
    equal to itself: in author mode an entry is marked changed exactly
    when the committer date differs from the author date, and the final
    timestamp is the author date; in commit mode, the other way
    round. *)
Theorem build_entries_changed_copy_modes (ent : entropy) (selected : list Commit)
  (validated : ValidatedConfig) (m : gmap string datetime) (hash_len : Z)
  (entries : list DryRunEntry.t) :
  (forall d : datetime, datetime_ne d d = false) ->
  content_addressed selected ->
  final ent selected validated = Ok m ->
  build_entries datetime_ne selected m hash_len = Returns entries ->
  (mode (timestamp validated) = "author"%string ->
   forall e, e ∈ entries ->
     DryRunEntry.final_timestamp e = DryRunEntry.author_date e
     /\ DryRunEntry.changed e
        = datetime_ne (DryRunEntry.committer_date e) (DryRunEntry.author_date e))
  /\
  (mode (timestamp validated) = "commit"%string ->
   forall e, e ∈ entries ->
     DryRunEntry.final_timestamp e = DryRunEntry.committer_date e
     /\ DryRunEntry.changed e
        = datetime_ne (DryRunEntry.author_date e) (DryRunEntry.committer_date e)).
Proof.
  intros Hne Hca H Hb.
  pose proof (final_covers ent selected validated m H) as Hall.
  assert (Hlen : 0 < hash_len).
  { unfold build_entries in Hb. destruct (Z.leb_spec hash_len 0); [discriminate|lia]. }
  rewrite build_entries_Returns in Hb by assumption. injection Hb as <-.
  assert (Hstamp : forall stamp : Commit -> datetime,
            m = foldl (insert_stamp stamp) ∅ selected ->
            forall c, c ∈ selected -> m !! hash c = Some (stamp c)).
  { intros stamp -> c Hc. apply foldl_insert_stamp_lookup; [exact Hc|].
    intros c' Hc' Hh. f_equal. apply Hca; assumption. }
  split; intros Hm e He; rewrite sort_by_index_perm in He;
    apply list_elem_of_fmap in He; destruct He as (c & -> & Hc).
  - assert (Hmc : m !! hash c = Some (author_date c)).
    { apply (Hstamp author_date); [|exact Hc].
      destruct selected as [|c0 rest]; [inversion Hc|]. simpl in H.
      unfold compute_timestamps in H. rewrite Hm in H. simpl in H.
      injection H as <-. reflexivity. }
    unfold entry_for. rewrite Hmc. simpl. rewrite Hne. auto.
  - assert (Hmc : m !! hash c = Some (committer_date c)).
    { apply (Hstamp committer_date); [|exact Hc].
      destruct selected as [|c0 rest]; [inversion Hc|]. simpl in H.
      unfold compute_timestamps in H. rewrite Hm in H. simpl in H.
      injection H as <-. reflexivity. }
    unfold entry_for. rewrite Hmc. simpl. rewrite Hne, orb_false_r. auto.
Qed.

End Plan.
End DryRunProps.

(** ** The table of the report *)

Lemma string_length_app (a b : string) :
  String.length (a +:+ b) = (String.length a + String.length b)%nat.
Proof. induction a as [|c a IH]; simpl; [reflexivity|]. rewrite IH. reflexivity. Qed.

Lemma string_length_repeat (c : string) (n : nat) :
  String.length (String.concat "" (replicate n c)) = (n * String.length c)%nat.
Proof.
  induction n as [|n IH]; [reflexivity|].
  destruct n as [|n]; [simpl; lia|].
  change (String.concat "" (replicate (S (S n)) c))
    with (c +:+ "" +:+ String.concat "" (replicate (S n) c))%string.
  rewrite !string_length_app, IH. simpl. lia.
Qed.

Lemma ljust_length (s : string) (w : nat) :
  String.length (ljust s w) = Nat.max (String.length s) w.
Proof.
  unfold ljust. rewrite string_length_app, string_length_repeat. simpl. lia.
Qed.

Lemma concat_length_by_cells (sep : string) (cells1 : list string) :
  forall cells2 : list string,
    String.length <$> cells1 = String.length <$> cells2 ->
    String.length (String.concat sep cells1)
    = String.length (String.concat sep cells2).
Proof.
  induction cells1 as [|a l1 IH]; intros [|b l2] H; try discriminate H;
    [reflexivity|].
  injection H as Hab Hl.
  destruct l1 as [|a' l1], l2 as [|b' l2]; try discriminate Hl; [exact Hab|].
  change (String.length (a +:+ sep +:+ String.concat sep (a' :: l1))
          = String.length (b +:+ sep +:+ String.concat sep (b' :: l2))).
  rewrite !string_length_app, Hab, (IH (b' :: l2) Hl). reflexivity.
Qed.

Lemma widen_Some (widths : list nat) (i : nat) (cell : string) (widths' : list nat) :
  widen widths i cell = Some widths' ->
  length widths' = length widths
  /\ (forall j a, widths !! j = Some a ->
        exists b, widths' !! j = Some b /\ (a <= b)%nat)
  /\ exists b, widths' !! i = Some b /\ (String.length cell <= b)%nat.
Proof.
  unfold widen. destruct (widths !! i) as [w|] eqn:Hw; [|discriminate].
  intros [= <-]. pose proof (lookup_lt_Some _ _ _ Hw) as Hi.
  split; [apply length_insert|]. split.
  - intros j a Hj. destruct (decide (i = j)) as [->|Hne].
    + rewrite list_lookup_insert_eq by exact Hi.
      rewrite Hw in Hj. injection Hj as <-. eexists. split; [reflexivity|lia].
    + rewrite list_lookup_insert_ne by exact Hne. eauto.
  - rewrite list_lookup_insert_eq by exact Hi. eexists. split; [reflexivity|lia].
Qed.

Lemma widen_row_Some (row : list string) :
  forall (widths : list nat) (i : nat),
    (i + length row <= length widths)%nat ->
    exists widths',
      widen_row widths i row = Some widths'
      /\ length widths' = length widths
      /\ (forall j a, widths !! j = Some a ->
            exists b, widths' !! j = Some b /\ (a <= b)%nat)
      /\ (forall k cell, row !! k = Some cell ->
            exists b, widths' !! (i + k)%nat = Some b
                      /\ (String.length cell <= b)%nat).
Proof.
  induction row as [|cell row IH]; intros widths i Hlen; simpl in *.
  - exists widths. split; [reflexivity|]. split; [reflexivity|].
    split; [eauto|]. intros k c Hk. discriminate Hk.
  - destruct (lookup_lt_is_Some_2 widths i ltac:(lia)) as [w Hw].
    destruct (widen widths i cell) as [w1|] eqn:H1;
      [|unfold widen in H1; rewrite Hw in H1; discriminate H1].
    apply widen_Some in H1. destruct H1 as (Hl1 & Hm1 & b1 & Hb1 & Hc1).
    destruct (IH w1 (S i) ltac:(lia)) as (w2 & -> & Hl2 & Hm2 & Hf2).
    exists w2. split; [reflexivity|]. split; [lia|]. split.
    + intros j a Hj. destruct (Hm1 j a Hj) as (b & Hb & Hab).
      destruct (Hm2 j b Hb) as (c & Hc & Hbc). exists c. split; [exact Hc|lia].
    + intros [|k] c Hk; simpl in Hk.
      * injection Hk as <-. rewrite Nat.add_0_r.
        destruct (Hm2 i b1 Hb1) as (c & Hc & Hbc). exists c. split; [exact Hc|lia].
      * replace (i + S k)%nat with (S i + k)%nat by lia. apply Hf2. exact Hk.
Qed.

Lemma widen_rows_Some (rows : list (list string)) :
  forall widths : list nat,
    Forall (fun row => (length row <= length widths)%nat) rows ->
    exists widths',
      widen_rows widths rows = Some widths'
      /\ length widths' = length widths
      /\ (forall j a, widths !! j = Some a ->
            exists b, widths' !! j = Some b /\ (a <= b)%nat)
      /\ (forall row k cell, row ∈ rows -> row !! k = Some cell ->
            exists b, widths' !! k = Some b /\ (String.length cell <= b)%nat).
Proof.
  induction rows as [|row rows IH]; intros widths Hall; simpl.
  - exists widths. split; [reflexivity|]. split; [reflexivity|].
    split; [eauto|]. intros row k c Hr. inversion Hr.
  - apply Forall_cons in Hall. destruct Hall as [Hrow Hall].
    destruct (widen_row_Some row widths 0%nat ltac:(simpl; lia))
      as (w1 & -> & Hl1 & Hm1 & Hf1).
    destruct (IH w1) as (w2 & -> & Hl2 & Hm2 & Hf2).
    { eapply Forall_impl; [exact Hall|]. simpl. intros; lia. }
    exists w2. split; [reflexivity|]. split; [lia|]. split.
    + intros j a Hj. destruct (Hm1 j a Hj) as (b & Hb & Hab).
      destruct (Hm2 j b Hb) as (c & Hc & Hbc). exists c. split; [exact Hc|lia].
    + intros r k c Hr Hk. apply elem_of_cons in Hr. destruct Hr as [->|Hr].
      * destruct (Hf1 k c Hk) as (b & Hb & Hcb). simpl in Hb.
        destruct (Hm2 k b Hb) as (d & Hd & Hbd). exists d. split; [exact Hd|lia].
      * eapply Hf2; eassumption.
Qed.

Lemma fmt_cells_Some (widths : list nat) (items : list string) :
  forall i : nat,
    (forall k item, items !! k = Some item ->
       exists b, widths !! (i + k)%nat = Some b /\ (String.length item <= b)%nat) ->
    exists cells,
      fmt_cells widths i items = Some cells
      /\ String.length <$> cells = take (length items) (drop i widths).
Proof.
  induction items as [|item items IH]; intros i Hfit; simpl.
  - exists []. split; reflexivity.
  - destruct (Hfit 0%nat item eq_refl) as (b & Hb & Hib).
    rewrite Nat.add_0_r in Hb. rewrite Hb.
    destruct (IH (S i)) as (cells & -> & Hcells).
    { intros k it Hk. replace (S i + k)%nat with (i + S k)%nat by lia.
      apply Hfit. exact Hk. }
    exists (ljust item b :: cells). split; [reflexivity|].
    rewrite (drop_S _ _ _ Hb), fmap_cons, ljust_length, Hcells. simpl.
    f_equal. lia.
Qed.

Lemma fmt_row_Some (widths : list nat) (items : list string) :
  length items = length widths ->
  (forall k item, items !! k = Some item ->
     exists b, widths !! k = Some b /\ (String.length item <= b)%nat) ->
  exists cells,
    fmt_row widths items = Some (String.concat "  " cells)
    /\ String.length <$> cells = widths.
Proof.
  intros Hlen Hfit. unfold fmt_row.
  destruct (fmt_cells_Some widths items 0%nat Hfit) as (cells & -> & Hcells).
  exists cells. split; [reflexivity|].
  rewrite Hcells, Hlen. simpl. apply firstn_all.
Qed.

Lemma fmt_rows_Some (widths : list nat) (rows : list (list string)) :
  Forall (fun row => length row = length widths) rows ->
  (forall row k cell, row ∈ rows -> row !! k = Some cell ->
     exists b, widths !! k = Some b /\ (String.length cell <= b)%nat) ->
  exists lines,
    fmt_rows widths rows = Some lines
    /\ length lines = length rows
    /\ forall line, line ∈ lines ->
         exists cells, line = String.concat "  " cells
                       /\ String.length <$> cells = widths.
Proof.
  induction rows as [|row rows IH]; intros Hall Hfit; simpl.
  - exists []. split; [reflexivity|]. split; [reflexivity|].
    intros line Hl. inversion Hl.
  - apply Forall_cons in Hall. destruct Hall as [Hrow Hall].
    destruct (fmt_row_Some widths row Hrow) as (cells & -> & Hcells).
    { intros k c Hk. eapply Hfit; [left|exact Hk]. }
    destruct (IH Hall) as (lines & -> & Hlen & Hlines).
    { intros r k c Hr Hk. eapply Hfit; [right; exact Hr|exact Hk]. }
    eexists. split; [reflexivity|]. split; [simpl; lia|].
    intros line Hl. apply elem_of_cons in Hl. destruct Hl as [->|Hl]; eauto.
Qed.

(** X19. The table is a rectangle: when every row has as many cells as
    there are headers, [_format_table] returns (no index is out of
    range) the header line, the rule and one line per row, and all
    these lines have the same length. *)
Theorem _format_table_rectangular (headers : list string)
  (rows : list (list string)) :
  Forall (fun row => length row = length headers) rows ->
  exists lines,
    _format_table headers rows = Some lines
    /\ length lines = S (S (length rows))
    /\ forall l1 l2, l1 ∈ lines -> l2 ∈ lines ->
         String.length l1 = String.length l2.
Proof.
  intros Hall. unfold _format_table.
  destruct (widen_rows_Some rows (String.length <$> headers))
    as (w & -> & Hlw & Hmono & Hfit).
  { eapply Forall_impl; [exact Hall|]. simpl. intros row ->.
    rewrite length_fmap. lia. }
  rewrite length_fmap in Hlw.
  destruct (fmt_row_Some w headers) as (hc & -> & Hhc).
  { lia. }
  { intros k item Hk. apply (Hmono k).
    rewrite list_lookup_fmap, Hk. reflexivity. }
  destruct (fmt_row_Some w ((fun n => String.concat "" (replicate n "-")) <$> w))
    as (rc & -> & Hrc).
  { apply length_fmap. }
  { intros k item Hk. rewrite list_lookup_fmap in Hk.
    destruct (w !! k) as [b|]; [|discriminate Hk]. injection Hk as <-.
    exists b. split; [reflexivity|]. rewrite string_length_repeat. simpl. lia. }
  destruct (fmt_rows_Some w rows) as (lines & -> & Hlen & Hlines).
  { eapply Forall_impl; [exact Hall|]. simpl. intros row ->. lia. }
  { exact Hfit. }
  eexists. split; [reflexivity|]. split; [simpl; lia|].
  assert (Hcells : forall l, l ∈ String.concat "  " hc :: String.concat "  " rc :: lines ->
            exists cells, l = String.concat "  " cells
                          /\ String.length <$> cells = w).
  { intros l Hl. apply elem_of_cons in Hl. destruct Hl as [->|Hl]; [eauto|].
    apply elem_of_cons in Hl. destruct Hl as [->|Hl]; [eauto|]. auto. }
  intros l1 l2 H1 H2.
  destruct (Hcells l1 H1) as (c1 & -> & Hc1).
  destruct (Hcells l2 H2) as (c2 & -> & Hc2).
  apply concat_length_by_cells. congruence.
Qed.

(** * Properties of the history and of the command line *)

Lemma numbered_from_sorted (commits : list Commit) :
  forall start : Z, numbered_from start commits -> StronglySorted index_lt commits.
Proof.
  induction commits as [|c commits IH]; intros start Hn; [constructor|].
  constructor.
  - apply (IH (start + 1)). intros i c' Hi.
    rewrite (Hn (S i) c' Hi). lia.
  - apply Forall_forall. intros c' Hc'.
    apply list_elem_of_lookup in Hc'. destruct Hc' as [i Hi].
    unfold index_lt. rewrite (Hn 0%nat c eq_refl), (Hn (S i) c' Hi). lia.
Qed.

Lemma StronglySorted_take_drop {A} (R : A -> A -> Prop) (l : list A) (n : nat) :
  StronglySorted R l -> StronglySorted R (take n l) /\ StronglySorted R (drop n l).
Proof.
  intros Hs. revert n. induction Hs as [|a l Hl IH Ha]; intros n.
  - rewrite take_nil, drop_nil. split; constructor.
  - destruct n as [|n]; simpl.
    + split; constructor; assumption.
    + destruct (IH n) as [Ht Hd]. split; [|exact Hd].
      constructor; [exact Ht|].
      apply Forall_forall. intros x Hx.
      apply (proj1 (Forall_forall _ _) Ha).
      apply elem_of_take in Hx. destruct Hx as (i & Hi & _).
      eapply list_elem_of_lookup_2. exact Hi.
Qed.

Lemma index_lt_le (commits : list Commit) :
  StronglySorted index_lt commits ->
  StronglySorted (fun a b : Commit => index a <= index b) commits.
Proof.
  induction 1 as [|a l Hl IH Ha]; constructor; [exact IH|].
  eapply Forall_impl; [exact Ha|]. unfold index_lt. simpl. intros; lia.
Qed.

(** Whatever the fraction, the two lists [apply_scope] returns are the
    two sides of one cut of the list. *)
Lemma apply_scope_slices (commits : list Commit) (fraction : float)
  (selected untouched : list Commit) :
  apply_scope commits fraction = Ok (selected, untouched) ->
  exists n : nat,
    (selected = take n commits /\ untouched = drop n commits)
    \/ (selected = drop n commits /\ untouched = take n commits).
Proof.
  unfold apply_scope.
  destruct (negb _); [discriminate|].
  destruct (_ || _).
  { intros [= <- <-]. exists 0%nat. left. rewrite take_0, drop_0. auto. }
  intros H. bind_inv H. bind_inv H.
  destruct (a0 =? 0).
  { injection H as <- <-. exists 0%nat. left. rewrite take_0, drop_0. auto. }
  destruct (Float.ltb Float.zero fraction); injection H as <- <-;
    eexists; [left|right]; split; reflexivity.
Qed.

Lemma apply_scope_outcome (commits : list Commit) (fraction : float) :
  Float.valid fraction ->
  Z.of_nat (length commits) <= sys_maxsize ->
  (exists selected untouched, apply_scope commits fraction = Ok (selected, untouched))
  \/ apply_scope commits fraction = Raise (ScopeError fraction).
Proof.
  intros Hv Hlen. unfold apply_scope.
  destruct (Float.leb Float.neg_one fraction) eqn:Hlo; [|right; reflexivity].
  destruct (Float.leb fraction Float.one) eqn:Hhi; [|right; reflexivity].
  left. simpl negb. cbv iota.
  destruct (_ || _); [eauto|].
  destruct (mul_int_floor_le fraction (Z.of_nat (length commits)) (2 ^ 64) Hv Hlo Hhi)
    as (p & k & Hp & Hk & Hkr).
  { unfold sys_maxsize in Hlen. lia. }
  { apply on_grid_pow2. lia. }
  { apply Z.pow_lt_mono_r; lia. }
  rewrite Hp. simpl rbind. rewrite Hk. simpl rbind.
  destruct (k =? 0); [eauto|].
  destruct (Float.ltb Float.zero fraction); eauto.
Qed.

Section RepoProps.
Context {RT : PyRuntime}.
Context (fromisoformat : string -> option datetime).

Lemma parse_log_line_Returns (idx : Z) (line : string) (c : Commit) :
  parse_log_line fromisoformat idx line = Returns c ->
  index c = idx /\ head (split_on _FIELD_SEP line) = Some (hash c)
  /\ length (split_on _FIELD_SEP line) = 9%nat.
Proof.
  unfold parse_log_line.
  destruct (split_on _FIELD_SEP line)
    as [|f1 [|f2 [|f3 [|f4 [|f5 [|f6 [|f7 [|f8 [|f9 [|? ?]]]]]]]]]];
    try discriminate.
  destruct (fromisoformat f2); [|discriminate].
  destruct (fromisoformat f3); [|discriminate].
  intros [= <-]. simpl. auto.
Qed.

Lemma load_commit_history_loop_Returns (lines : list string) :
  forall (idx : Z) (commits result : list Commit),
    load_commit_history_loop fromisoformat idx lines commits = Returns result ->
    exists new,
      result = commits ++ new
      /\ length new = length lines
      /\ numbered_from idx new
      /\ forall (i : nat) (c : Commit), new !! i = Some c ->
           exists line, lines !! i = Some line
             /\ head (split_on _FIELD_SEP line) = Some (hash c)
             /\ length (split_on _FIELD_SEP line) = 9%nat.
Proof.
  induction lines as [|line lines IH]; intros idx commits result H; simpl in H.
  - injection H as <-. exists []. rewrite app_nil_r.
    split; [reflexivity|]. split; [reflexivity|].
    split; intros i c Hi; discriminate Hi.
  - destruct (parse_log_line fromisoformat idx line) as [c|e] eqn:Hp; [|discriminate].
    apply parse_log_line_Returns in Hp. destruct Hp as (Hidx & Hhash & Hnine).
    apply IH in H. destruct H as (new & -> & Hlen & Hnum & Hlines).
    exists (c :: new). rewrite <- app_assoc.
    split; [reflexivity|]. split; [simpl; lia|]. split.
    + intros [|i] c' Hi; simpl in Hi.
      * injection Hi as <-. lia.
      * rewrite (Hnum i c' Hi). lia.
    + intros [|i] c' Hi; simpl in Hi.
      * injection Hi as <-. exists line. auto.
      * apply Hlines. exact Hi.
Qed.

Lemma load_commit_history_Returns (lines : list string) (commits : list Commit) :
  load_commit_history fromisoformat lines = Returns commits ->
  length commits = length lines /\ numbered_from 0 commits
  /\ forall (i : nat) (c : Commit), commits !! i = Some c ->
       exists line, lines !! i = Some line
         /\ head (split_on _FIELD_SEP line) = Some (hash c)
         /\ length (split_on _FIELD_SEP line) = 9%nat.
Proof.
  unfold load_commit_history. intros H.
  apply load_commit_history_loop_Returns in H.
  destruct H as (new & -> & Hlen & Hnum & Hlines). simpl. auto.
Qed.

(** X20. When [load_commit_history] returns, it returns one commit per
    line of the log, in the order of the lines; the commit of a line has
    the position of that line as index, counted from 0, and the first
    of its nine fields as hash. *)
Theorem load_commit_history_numbered (lines : list string) (commits : list Commit) :
  load_commit_history fromisoformat lines = Returns commits ->
  length commits = length lines
  /\ forall (i : nat) (c : Commit), commits !! i = Some c ->
       index c = Z.of_nat i
       /\ exists line, lines !! i = Some line
            /\ head (split_on _FIELD_SEP line) = Some (hash c)
            /\ length (split_on _FIELD_SEP line) = 9%nat.
Proof.
  intros H. apply load_commit_history_Returns in H.
  destruct H as (Hlen & Hnum & Hlines). split; [exact Hlen|].
  intros i c Hi. split; [rewrite (Hnum i c Hi); lia | apply Hlines; exact Hi].
Qed.

End RepoProps.

(** X21. [apply_scope] keeps what the later steps rely on: if the
    commits come with strictly increasing index, so do the selected and
    the untouched ones; if their hashes are distinct, so are those of
    the selected and of the untouched ones, and no hash is on both
    sides. *)
Theorem apply_scope_keeps_order (commits : list Commit) (fraction : float)
  (selected untouched : list Commit) :
  apply_scope commits fraction = Ok (selected, untouched) ->
  (StronglySorted index_lt commits ->
   StronglySorted index_lt selected /\ StronglySorted index_lt untouched)
  /\ (NoDup (hash <$> commits) ->
      NoDup (hash <$> selected) /\ NoDup (hash <$> untouched)
      /\ forall c, c ∈ selected -> hash c ∉ hash <$> untouched).
Proof.
  intros H. apply apply_scope_slices in H. destruct H as [n Hn]. split.
  - intros Hs. destruct (StronglySorted_take_drop index_lt commits n Hs) as [Ht Hd].
    destruct Hn as [[-> ->]|[-> ->]]; auto.
  - intros Hnd. rewrite <- (take_drop n commits), fmap_app in Hnd.
    apply NoDup_app in Hnd. destruct Hnd as (Ht & Hdis & Hd).
    destruct Hn as [[-> ->]|[-> ->]].
    + split; [exact Ht|]. split; [exact Hd|].
      intros c Hc. apply Hdis. apply list_elem_of_fmap. eauto.
    + split; [exact Hd|]. split; [exact Ht|].
      intros c Hc Hin. apply (Hdis (hash c) Hin). apply list_elem_of_fmap. eauto.
Qed.

Section MainProps.
Context {RT : PyRuntime} {Laws : PyRuntimeLaws RT}.
Context (fromisoformat : string -> option datetime).
Context (datetime_ne : datetime -> datetime -> bool).

Lemma handled_ValidationError (cfg : Config) (e : exn) :
  validate_config cfg = Raise e -> handled e = Exits 2 None.
Proof.
  intros H. destruct (validate_config_raises cfg e H) as (path & msg & ->).
  reflexivity.
Qed.

Lemma final_benign (cfg : Config) (vc : ValidatedConfig) (ent : entropy)
  (selected : list Commit) :
  validate_config cfg = Ok vc -> benign (final ent selected vc).
Proof.
  intros Hval. destruct selected as [|c rest]; [apply benign_Ok|].
  simpl. apply (compute_timestamps_benign cfg vc ent (c :: rest) Hval).
Qed.

(** X22. How [main] can end, for a list Python can hold and a fraction
    that is a double: it prints the report and returns 0, or it returns
    2, or [OverflowError] leaves it, the one exception of the engine
    that its [except] clause does not name. No [KeyError] of
    [build_entries] and no [ValueError] can leave it. *)
Theorem main_endings (hash_len : Z) (dry_run : bool) (cfg : Config)
  (lines : list string) (ent : entropy) :
  Float.valid (fraction (cfg_scope cfg)) ->
  Z.of_nat (length lines) <= sys_maxsize ->
  (exists report,
     main fromisoformat datetime_ne hash_len dry_run cfg lines ent
     = Exits 0 (Some report))
  \/ main fromisoformat datetime_ne hash_len dry_run cfg lines ent = Exits 2 None
  \/ main fromisoformat datetime_ne hash_len dry_run cfg lines ent
     = Uncaught_exn OverflowError.
Proof.
  intros Hv Hlen. unfold main.
  destruct (Z.leb_spec hash_len 0) as [|Hpos]; [auto|].
  destruct (validate_config cfg) as [validated|e] eqn:Hval;
    [|right; left; eapply handled_ValidationError; exact Hval].
  destruct (load_commit_history fromisoformat lines) as [commits|e] eqn:Hload;
    [|auto].
  apply load_commit_history_Returns in Hload. destruct Hload as (Hl & _ & _).
  destruct (apply_scope_outcome commits (fraction (cfg_scope cfg)) Hv)
    as [(selected & untouched & ->)| ->]; [lia| |right; left; reflexivity].
  destruct dry_run; [|auto]. simpl negb. cbv iota.
  destruct (final_benign cfg validated ent selected Hval) as [[m Hm]|[Hm|Hm]];
    rewrite Hm; [|right; left; reflexivity|right; right; reflexivity].
  rewrite (build_entries_Returns datetime_ne m hash_len selected Hpos
             (final_covers ent selected validated m Hm)).
  left. eauto.
Qed.

(** X23. The report of a dry run lists a run of positions of the
    history, in order: there is a position [k] such that the entry
    at place [i] has index [k + i]. *)
Theorem main_report_in_history_order (hash_len : Z) (dry_run : bool) (cfg : Config)
  (lines : list string) (ent : entropy) (report : list DryRunEntry.t) :
  main fromisoformat datetime_ne hash_len dry_run cfg lines ent
  = Exits 0 (Some report) ->
  exists k : Z,
    0 <= k /\ k + Z.of_nat (length report) <= Z.of_nat (length lines)
    /\ forall (i : nat) (e : DryRunEntry.t), report !! i = Some e ->
         DryRunEntry.index e = k + Z.of_nat i.
Proof.
  unfold main. intros H.
  destruct (Z.leb_spec hash_len 0) as [|Hpos]; [discriminate|].
  destruct (validate_config cfg) as [validated|e] eqn:Hval;
    [|rewrite (handled_ValidationError cfg e Hval) in H; discriminate].
  destruct (load_commit_history fromisoformat lines) as [commits|e] eqn:Hload;
    [|discriminate].
  apply load_commit_history_Returns in Hload. destruct Hload as (Hl & Hnum & _).
  destruct (apply_scope commits (fraction (cfg_scope cfg)))
    as [[selected untouched]|e] eqn:Hscope; [|destruct e; discriminate].
  destruct dry_run; [|discriminate]. simpl negb in H. cbv iota in H.
  destruct (final ent selected validated) as [m|e] eqn:Hm;
    [|destruct e; discriminate].
  pose proof (final_covers ent selected validated m Hm) as Hall.
  rewrite (build_entries_Returns datetime_ne m hash_len selected Hpos Hall) in H.
  injection H as <-.
  apply apply_scope_slices in Hscope. destruct Hscope as [n Hn].
  assert (Hsel : exists k : Z,
            0 <= k /\ k + Z.of_nat (length selected) <= Z.of_nat (length commits)
            /\ numbered_from k selected).
  { destruct Hn as [[-> _]|[-> _]].
    - exists 0. split; [lia|]. split; [rewrite length_take; lia|].
      intros i c Hi. apply lookup_take_Some in Hi. destruct Hi as [Hi _].
      apply (Hnum i c Hi).
    - exists (Z.of_nat (Nat.min n (length commits))).
      split; [lia|]. split; [rewrite length_drop; lia|].
      intros i c Hi. rewrite lookup_drop in Hi.
      pose proof (lookup_lt_Some _ _ _ Hi) as Hlt.
      rewrite (Hnum _ c Hi). lia. }
  destruct Hsel as (k & Hk0 & Hklen & Hknum).
  assert (Hid : sort_by_index (entry_for datetime_ne m hash_len <$> selected)
                = entry_for datetime_ne m hash_len <$> selected).
  { apply sort_by_index_id.
    pose proof (index_lt_le selected (numbered_from_sorted selected k Hknum)) as Hs.
    clear - Hs Hall. induction Hs as [|c l Hl IH Hc]; simpl; [constructor|].
    constructor.
    - apply IH. intros c' Hc'. apply Hall. right. exact Hc'.
    - apply Forall_forall. intros e He.
      apply list_elem_of_fmap in He. destruct He as (c' & -> & Hc').
      destruct (Hall c ltac:(left)) as [t Ht].
      destruct (Hall c' ltac:(right; exact Hc')) as [t' Ht'].
      unfold by_index.
      rewrite (proj1 (entry_for_fields datetime_ne m hash_len c t Ht)).
      rewrite (proj1 (entry_for_fields datetime_ne m hash_len c' t' Ht')).
      apply (proj1 (Forall_forall _ _) Hc). exact Hc'. }
  rewrite Hid. exists k. split; [exact Hk0|].
  split; [rewrite length_fmap; lia|].
  intros i e Hi. rewrite list_lookup_fmap in Hi.
  destruct (selected !! i) as [c|] eqn:Hc; [|discriminate Hi].
  injection Hi as <-. destruct (Hall c) as [t Ht].
  { eapply list_elem_of_lookup_2. exact Hc. }
  rewrite (proj1 (entry_for_fields datetime_ne m hash_len c t Ht)).
  apply Hknum. exact Hc.
Qed.

End MainProps.

(** ** The emitted policy as a whole *)

Section PolicyValidates.
Context {RT : PyRuntime}.
Context (date_ymd : date -> Z * Z * Z).

(** X24. In author and in commit mode the emitter writes the mode and
    the fraction and nothing else, whatever else the form holds; the
    configuration of that document is accepted by [validate_config]. *)
Theorem build_policy_dict_copy_modes (cleaned_data : Form.cleaned_data) :
  Form.mode cleaned_data = "author"%string
  \/ Form.mode cleaned_data = "commit"%string ->
  isfinite (Form.scope_fraction cleaned_data) = true ->
  exists policy cfg,
    build_policy_dict date_ymd cleaned_data = Returns policy
    /\ policy_config policy = Some cfg
    /\ cfg_calendar cfg = None /\ cfg_work_patterns cfg = None
    /\ cfg_randomness cfg = None
    /\ validate_config cfg
       = Ok (mk_ValidatedConfig (mk_TimestampConfig (Form.mode cleaned_data))
               (mk_ScopeConfig (Form.scope_fraction cleaned_data))
               None None None).
Proof.
  intros Hmode Hfin. unfold build_policy_dict.
  destruct Hmode as [Hm|Hm]; rewrite Hm; simpl;
    (eexists; eexists; split; [reflexivity|]);
    unfold policy_config; simpl; rewrite Hfin; simpl;
    (split; [reflexivity|]); auto.
Qed.

Section Synthetic.
(** What the emitter relies on from the library: [int] reads a number
    on two digits, and the two dates of the form are read back from
    their ISO form. *)
Hypothesis int_of_pad2 :
  forall n : Z, 0 <= n <= 59 -> int_of_str (pad2 n) = Some n.

Lemma block_ready_validates (cleaned_data : Form.cleaned_data) (prefix : string) :
  block_ready cleaned_data prefix ->
  exists block pb,
    _build_work_block cleaned_data prefix = Returns block
    /\ (forall path, _validate_work_block path block = Ok pb)
    /\ enabled pb = Form.get_enabled cleaned_data prefix.
Proof.
  intros Hready. destruct (Form.get_enabled cleaned_data prefix) eqn:Hen.
  - destruct (Hready Hen) as (st & en & Hs & He & Hvs & Hve & Hlt).
    rewrite (_build_work_block_enabled _ _ _ _ Hen Hs He).
    eexists.
    exists (mk_ParsedWorkBlock true
              (Some (mk_ParsedWorkHours (mk_time (hour st) (minute st) 0)
                       (mk_time (hour en) (minute en) 0)))).
    split; [reflexivity|]. split; [|reflexivity].
    intros path. rewrite (_validate_enabled_block int_of_pad2) by assumption.
    destruct (Z.leb_spec (hour en * 60 + minute en) (hour st * 60 + minute st));
      [lia | reflexivity].
  - unfold _build_work_block. rewrite Hen. simpl.
    eexists. exists (mk_ParsedWorkBlock false None).
    split; [reflexivity|]. split; reflexivity.
Qed.

(** X25. In synthetic mode, a form with two dates in order, at least
    one enabled block and, for each enabled block, two valid times with
    the end in a later minute, is emitted as a policy whose
    configuration [validate_config] accepts: the calendar is the form's,
    in UTC, and the seed and the ranges are those of
    [_build_randomness]. *)
Theorem build_policy_dict_synthetic_validates (cleaned_data : Form.cleaned_data)
  (start_date end_date : date) :
  strptime_ymd (isoformat date_ymd start_date) = Some start_date ->
  strptime_ymd (isoformat date_ymd end_date) = Some end_date ->
  str_strip "UTC" = "UTC"%string ->
  str_upper "UTC" = "UTC"%string ->
  Form.mode cleaned_data = "synthetic"%string ->
  isfinite (Form.scope_fraction cleaned_data) = true ->
  Form.calendar_start cleaned_data = Some start_date ->
  Form.calendar_end cleaned_data = Some end_date ->
  start_date <= end_date ->
  (Form.weekdays_enabled cleaned_data || Form.saturday_enabled cleaned_data
   || Form.sunday_enabled cleaned_data) = true ->
  block_ready cleaned_data "weekdays" ->
  block_ready cleaned_data "saturday" ->
  block_ready cleaned_data "sunday" ->
  exists policy cfg vc work rnd,
    build_policy_dict date_ymd cleaned_data = Returns policy
    /\ policy_config policy = Some cfg
    /\ validate_config cfg = Ok vc
    /\ mode (timestamp vc) = "synthetic"%string
    /\ fraction (scope vc) = Form.scope_fraction cleaned_data
    /\ calendar vc = Some (mk_ParsedCalendar start_date end_date "UTC" tz_utc)
    /\ work_patterns vc = Some work
    /\ enabled (weekdays work) = Form.weekdays_enabled cleaned_data
    /\ enabled (saturday work) = Form.saturday_enabled cleaned_data
    /\ enabled (sunday work) = Form.sunday_enabled cleaned_data
    /\ randomness vc = Some rnd
    /\ seed rnd = Some (default (strftime_Ymd_int date_ymd start_date)
                          (Form.randomness_seed cleaned_data)).
Proof.
  intros Hps Hpe Hstrip Hupper Hmode Hfin Hstart Hend Hle Hany Hwd Hsa Hsu.
  destruct (block_ready_validates cleaned_data "weekdays" Hwd)
    as (bwd & pwd & Hbwd & Hvwd & Hewd).
  destruct (block_ready_validates cleaned_data "saturday" Hsa)
    as (bsa & psa & Hbsa & Hvsa & Hesa).
  destruct (block_ready_validates cleaned_data "sunday" Hsu)
    as (bsu & psu & Hbsu & Hvsu & Hesu).
  destruct (_build_randomness_Ok date_ymd cleaned_data start_date)
    as (rnd & Hrnd & Hseed & _ & _).
  unfold build_policy_dict. rewrite Hmode, Hstart, Hend, Hbwd, Hbsa, Hbsu.
  simpl.
  eexists. eexists. eexists. exists (mk_ParsedWorkPatterns pwd psa psu), rnd.
  split; [reflexivity|].
  unfold policy_config. simpl. rewrite Hfin. simpl.
  split; [reflexivity|].
  assert (Hcal : validate_calendar
                   [("start"%string, VStr (isoformat date_ymd start_date));
                    ("end"%string, VStr (isoformat date_ymd end_date));
                    ("timezone"%string, VStr "UTC")]
                 = Ok (mk_ParsedCalendar start_date end_date "UTC" tz_utc)).
  { unfold validate_calendar, _parse_date. simpl. rewrite Hps, Hpe. simpl.
    destruct (Z.ltb_spec end_date start_date); [lia|].
    rewrite Hstrip. simpl. unfold _resolve_timezone. rewrite Hupper. reflexivity. }
  assert (Hwork : validate_work_patterns
                    [("weekdays"%string, VDict bwd);
                     ("saturday"%string, VDict bsa);
                     ("sunday"%string, VDict bsu)]
                  = Ok (mk_ParsedWorkPatterns pwd psa psu)).
  { unfold validate_work_patterns. simpl. rewrite Hvwd, Hvsa, Hvsu. simpl.
    rewrite Hewd, Hesa, Hesu. unfold Form.get_enabled. simpl.
    rewrite Hany. reflexivity. }
  split.
  { unfold validate_config. simpl. rewrite Hcal, Hwork, Hrnd. reflexivity. }
  simpl. split; [reflexivity|]. split; [reflexivity|]. split; [reflexivity|].
  split; [reflexivity|]. split; [exact Hewd|]. split; [exact Hesa|].
  split; [exact Hesu|]. split; [reflexivity | exact Hseed].
Qed.

End Synthetic.
End PolicyValidates.

(** * Properties of the rewrite plan *)

Section RewriteProps.
Context {RT : PyRuntime} {Laws : PyRuntimeLaws RT}.
Context (fromisoformat : string -> option datetime).
Context (str_lower : string -> string).
Context (zone_utcoffset : string -> datetime -> Z).

Lemma date_map_loop_Returns (final : gmap string datetime) (selected : list Commit) :
  forall date_map : gmap string string,
    (forall c, c ∈ selected -> is_Some (final !! hash c)) ->
    exists date_map',
      date_map_loop str_lower zone_utcoffset selected final date_map
      = Returns date_map'
      /\ forall k : string,
           is_Some (date_map' !! k)
           <-> is_Some (date_map !! k)
               \/ k ∈ (fun c => str_lower (hash c)) <$> selected.
Proof.
  induction selected as [|c selected IH]; intros date_map Hall; simpl.
  - exists date_map. split; [reflexivity|]. intros k. split; [auto|].
    intros [H|H]; [exact H | inversion H].
  - destruct (Hall c ltac:(left)) as [t ->].
    destruct (IH (<[str_lower (hash c) := _format_git_date zone_utcoffset t]> date_map))
      as (dm & -> & Hdm).
    { intros c' Hc'. apply Hall. right. exact Hc'. }
    exists dm. split; [reflexivity|]. intros k.
    rewrite Hdm, lookup_insert_is_Some', elem_of_cons. split.
    + intros [[->|H]|H]; auto.
    + intros [H|[->|H]]; auto.
Qed.

(** X26. [_build_rewrite_plan] never raises its own [RewriteError]: no
    selected commit lacks a computed timestamp. When it returns a plan,
    the plan counts the selected commits and the commits of the log, and
    its map of dates has one key for the hash, in lower case, of each
    selected commit, and no other key. *)
Theorem _build_rewrite_plan_complete (cfg : Config) (lines : list string)
  (ent : entropy) :
  (forall e, _build_rewrite_plan fromisoformat str_lower zone_utcoffset cfg lines ent
             <> Plan_rewrite_exn e)
  /\ forall plan,
       _build_rewrite_plan fromisoformat str_lower zone_utcoffset cfg lines ent
       = Planned plan ->
       exists commits selected untouched,
         load_commit_history fromisoformat lines = Returns commits
         /\ apply_scope commits (fraction (cfg_scope cfg)) = Ok (selected, untouched)
         /\ RewritePlan.selected_count plan = Z.of_nat (length selected)
         /\ RewritePlan.total_commits plan = Z.of_nat (length lines)
         /\ RewritePlan.selected_count plan <= RewritePlan.total_commits plan
         /\ forall k : string,
              is_Some (RewritePlan.date_map plan !! k)
              <-> k ∈ (fun c => str_lower (hash c)) <$> selected.
Proof.
  unfold _build_rewrite_plan.
  destruct (validate_config cfg) as [validated|e0];
    [|split; [intros e H; discriminate H | intros plan H; discriminate H]].
  destruct (load_commit_history fromisoformat lines) as [commits|e0] eqn:Hload;
    [|split; [intros e H; discriminate H | intros plan H; discriminate H]].
  destruct (apply_scope commits (fraction (cfg_scope cfg)))
    as [[selected untouched]|e0] eqn:Hscope;
    [|split; [intros e H; discriminate H | intros plan H; discriminate H]].
  destruct (final ent selected validated) as [m|e0] eqn:Hm;
    [|split; [intros e H; discriminate H | intros plan H; discriminate H]].
  destruct (date_map_loop_Returns m selected ∅
              (final_covers ent selected validated m Hm)) as (dm & -> & Hdm).
  split; [intros e H; discriminate H|].
  intros plan [= <-]. exists commits, selected, untouched.
  pose proof (load_commit_history_Returns _ _ _ Hload) as (Hlen & _ & _).
  pose proof (apply_scope_slices _ _ _ _ Hscope) as [n Hn].
  assert (Hsel : (length selected <= length commits)%nat).
  { destruct Hn as [[-> _]|[-> _]]; [rewrite length_take | rewrite length_drop]; lia. }
  simpl. split; [reflexivity|]. split; [exact Hscope|]. split; [reflexivity|].
  split; [lia|]. split; [lia|].
  intros k. rewrite Hdm, lookup_empty. split.
  - intros [[x Hx]|H]; [discriminate Hx | exact H].
  - auto.
Qed.

Lemma _format_git_date_utc (t : datetime) :
  dt_tz t = tz_utc ->
  timestamp_seconds zone_utcoffset t = wall_seconds t - 62135683200
  /\ _format_git_date zone_utcoffset t
     = (pretty (wall_seconds t - 62135683200) +:+ " +0000")%string.
Proof.
  intros Hz.
  assert (Hts : timestamp_seconds zone_utcoffset t = wall_seconds t - 62135683200).
  { unfold timestamp_seconds, utcoffset, _EPOCH_ORDINAL. rewrite Hz. lia. }
  split; [exact Hts|].
  unfold _format_git_date. rewrite Hts. unfold utcoffset. rewrite Hz. reflexivity.
Qed.

(** X27. The dates written for a synthetic timeline in UTC: every
    instant of the result is formatted as its number of seconds since
    1970-01-01 followed by [+0000], and for two commits that follow each
    other, with distinct hashes, these numbers differ by at least the
    smallest configured gap. *)
Theorem synthetic_git_dates_utc
  (vc : ValidatedConfig) (ent : entropy) (commits : list Commit)
  (m : gmap string datetime) (cal : ParsedCalendar) (rnd : ParsedRandomness) :
  mode (timestamp vc) = "synthetic"%string ->
  calendar vc = Some cal -> tz cal = tz_utc ->
  randomness vc = Some rnd ->
  NoDup (hash <$> commits) ->
  compute_timestamps ent commits vc = Ok m ->
  (forall (h : string) (t : datetime), m !! h = Some t ->
     _format_git_date zone_utcoffset t
     = (pretty (timestamp_seconds zone_utcoffset t) +:+ " +0000")%string)
  /\ forall (i : nat) (ci cj : Commit),
       commits !! i = Some ci -> commits !! S i = Some cj ->
       exists ti tj,
         m !! hash ci = Some ti /\ m !! hash cj = Some tj
         /\ timestamp_seconds zone_utcoffset ti
            + (gap_minutes_min rnd * 60 + seconds_min rnd)
            <= timestamp_seconds zone_utcoffset tj.
Proof.
  intros Hm Hcal Hutc Hrnd Hnd H.
  unfold compute_timestamps in H. rewrite Hm in H. simpl in H.
  destruct commits as [|first rest].
  { injection H as <-. split.
    - intros h t Ht. rewrite lookup_empty in Ht. discriminate Ht.
    - intros i ci cj Hi. discriminate Hi. }
  apply _synthetic_mode_trace in H.
  destruct H as (cal' & work & rnd' & t0 & ts & Hc & _ & Hr & _ & Hlen & -> & Hall & Hch).
  rewrite Hcal in Hc. injection Hc as <-.
  rewrite Hrnd in Hr. injection Hr as <-.
  assert (Hlen' : length (first :: rest) = length (t0 :: ts)) by (simpl; lia).
  assert (Hzone : forall t, t ∈ t0 :: ts -> dt_tz t = tz_utc).
  { intros t Ht. rewrite <- Hutc.
    apply (proj1 (Forall_forall _ _) Hall t Ht). }
  split.
  - intros h t Ht. apply assign_all_value in Ht. rewrite lookup_empty in Ht.
    destruct Ht as [Ht|Hin]; [discriminate Ht|].
    rewrite snd_zip in Hin by lia.
    destruct (_format_git_date_utc t (Hzone t Hin)) as [Hts Hfmt].
    rewrite Hfmt, Hts. reflexivity.
  - intros i ci cj Hi Hj.
    assert (Hnd' : NoDup ((fun ct => hash (fst ct)) <$> zip (first :: rest) (t0 :: ts))).
    { change (fun ct : Commit * datetime => hash (fst ct))
        with (hash ∘ (@fst Commit datetime)).
      rewrite list_fmap_compose, fst_zip by lia. exact Hnd. }
    destruct (lookup_lt_is_Some_2 (t0 :: ts) i) as [ti Hti].
    { rewrite <- Hlen'. eapply lookup_lt_Some. exact Hi. }
    destruct (lookup_lt_is_Some_2 (t0 :: ts) (S i)) as [tj Htj].
    { rewrite <- Hlen'. eapply lookup_lt_Some. exact Hj. }
    exists ti, tj.
    split; [eapply assign_all_lookup; [exact Hnd'|]; apply lookup_zip_Some; eauto|].
    split; [eapply assign_all_lookup; [exact Hnd'|]; apply lookup_zip_Some; eauto|].
    destruct (_format_git_date_utc ti) as [-> _].
    { apply Hzone. eapply list_elem_of_lookup_2. exact Hti. }
    destruct (_format_git_date_utc tj) as [-> _].
    { apply Hzone. eapply list_elem_of_lookup_2. exact Htj. }
    pose proof (gap_chain_lookup _ ts t0 i ti tj Hch Hti Htj). lia.
Qed.

End RewriteProps.

(** * The synthetic timeline as instants *)

Section Instants.
Context {RT : PyRuntime} {Laws : PyRuntimeLaws RT}.
Context (zone_utcoffset : string -> datetime -> Z).
Context (zone_offset_at : string -> Z -> Z).

Lemma datetime_leb_wall (a b : datetime) :
  valid_time (dt_time a) -> valid_time (dt_time b) ->
  datetime_leb a b = true -> wall_seconds a <= wall_seconds b.
Proof.
  intros Ha Hb H. apply dt_le_wall; [exact Ha | exact Hb |].
  apply datetime_leb_le. exact H.
Qed.

(** Every value of a synthetic result is a time of day and carries the
    zone of the calendar. *)
Lemma synthetic_stamps_zone (vc : ValidatedConfig) (ent : entropy)
  (commits : list Commit) (m : gmap string datetime) :
  mode (timestamp vc) = "synthetic"%string ->
  commits <> [] ->
  compute_timestamps ent commits vc = Ok m ->
  exists cal,
    calendar vc = Some cal
    /\ forall (h : string) (t : datetime), m !! h = Some t ->
         valid_time (dt_time t) /\ dt_tz t = tz cal.
Proof.
  intros Hm Hne H.
  destruct commits as [|first rest]; [congruence|].
  unfold compute_timestamps in H. rewrite Hm in H. simpl in H.
  apply _synthetic_mode_trace in H.
  destruct H as (cal & work & rnd & t0 & ts & Hc & _ & _ & _ & Hlen & -> & Hall & _).
  exists cal. split; [exact Hc|].
  intros h t Ht. apply assign_all_value in Ht. rewrite lookup_empty in Ht.
  destruct Ht as [Ht|Hin]; [discriminate Ht|].
  rewrite snd_zip in Hin by (simpl; lia).
  destruct (proj1 (Forall_forall _ _) Hall t Hin) as (Hv & Hz & _).
  split; [exact Hv | exact Hz].
Qed.

(** A value whose fields exist in its zone is the local date and time
    of its own instant. *)
Lemma local_datetime_exists (t : datetime) :
  valid_time (dt_time t) ->
  exists_in_zone zone_utcoffset zone_offset_at t ->
  local_datetime zone_utcoffset zone_offset_at (dt_tz t) t = t.
Proof.
  unfold exists_in_zone, local_datetime. intros Hv ->.
  destruct t as [d [h mi s] z]. unfold valid_time in Hv. simpl in Hv.
  set (off := utcoffset zone_utcoffset _).
  replace (timestamp_seconds zone_utcoffset _ + _EPOCH_ORDINAL * 86400 + off)
    with (d * 86400 + (h * 3600 + mi * 60 + s))
    by (unfold timestamp_seconds, wall_seconds, time_seconds; simpl; fold off; lia).
  cbv zeta.
  assert (Hd : (d * 86400 + (h * 3600 + mi * 60 + s)) / 86400 = d)
    by (Z.div_mod_to_equations; lia).
  assert (Hs : (d * 86400 + (h * 3600 + mi * 60 + s)) mod 86400
               = h * 3600 + mi * 60 + s)
    by (Z.div_mod_to_equations; lia).
  rewrite Hd, Hs.
  assert (Hh : (h * 3600 + mi * 60 + s) / 3600 = h)
    by (Z.div_mod_to_equations; lia).
  assert (Hmi : (h * 3600 + mi * 60 + s) mod 3600 / 60 = mi)
    by (Z.div_mod_to_equations; lia).
  assert (Hse : (h * 3600 + mi * 60 + s) mod 60 = s)
    by (Z.div_mod_to_equations; lia).
  rewrite Hh, Hmi, Hse. reflexivity.
Qed.

Lemma exists_in_zone_utc (t : datetime) :
  dt_tz t = tz_utc -> exists_in_zone zone_utcoffset zone_offset_at t.
Proof.
  intros Hz. unfold exists_in_zone, utcoffset, offset_at. rewrite Hz. reflexivity.
Qed.

(** C4, amended. For a validated synthetic configuration and a non-empty
    list of commits with distinct identifiers, whenever
    [compute_timestamps] returns, the values it assigns all carry the
    zone of the calendar and are non-decreasing along the list in the
    order Python gives them, that of the wall clock. As instants, in
    seconds since 1970, a later commit is not before an earlier one
    whenever its offset from UTC is not the larger of the two, and
    always when the calendar is in UTC. And [_next_valid_datetime] never
    returns a value before its candidate on the wall clock, nor, for a
    candidate that is a time of day, before it as an instant unless the
    offset has grown. *)
Theorem synthetic_timeline_non_decreasing
  (cfg : Config) (vc : ValidatedConfig) (ent : entropy)
  (commits : list Commit) (m : gmap string datetime) :
  validate_config cfg = Ok vc ->
  mode (timestamp vc) = "synthetic"%string ->
  commits <> [] ->
  NoDup (hash <$> commits) ->
  compute_timestamps ent commits vc = Ok m ->
  (exists cal,
     calendar vc = Some cal
     /\ forall (i j : nat) (ci cj : Commit),
          (i <= j)%nat -> commits !! i = Some ci -> commits !! j = Some cj ->
          exists ti tj,
            m !! hash ci = Some ti /\ m !! hash cj = Some tj
            /\ dt_tz ti = tz cal /\ dt_tz tj = tz cal
            /\ datetime_leb ti tj = true
            /\ (utcoffset zone_utcoffset tj <= utcoffset zone_utcoffset ti ->
                timestamp_seconds zone_utcoffset ti
                <= timestamp_seconds zone_utcoffset tj)
            /\ (tz cal = tz_utc ->
                timestamp_seconds zone_utcoffset ti
                <= timestamp_seconds zone_utcoffset tj))
  /\
  (forall (candidate : datetime) (end_day : date) (work : ParsedWorkPatterns)
          (g g' : rng) (sec_min sec_max : Z) (z : tzinfo) (r : datetime),
     _next_valid_datetime candidate end_day work g sec_min sec_max z = Ok (r, g') ->
     datetime_leb candidate r = true
     /\ (valid_time (dt_time candidate) ->
         utcoffset zone_utcoffset r <= utcoffset zone_utcoffset candidate ->
         timestamp_seconds zone_utcoffset candidate
         <= timestamp_seconds zone_utcoffset r)).
Proof.
  intros Hval Hm Hne Hnd H.
  destruct (synthetic_timeline_wall_clock_order cfg vc ent commits m
              Hval Hm Hne Hnd H) as [Hord _].
  destruct (synthetic_stamps_zone vc ent commits m Hm Hne H) as (cal & Hcal & Hz).
  split.
  - exists cal. split; [exact Hcal|].
    intros i j ci cj Hij Hi Hj.
    destruct (Hord i j ci cj Hij Hi Hj) as (ti & tj & Hti & Htj & Hle).
    destruct (Hz _ _ Hti) as [Hvi Hzi]. destruct (Hz _ _ Htj) as [Hvj Hzj].
    pose proof (datetime_leb_wall ti tj Hvi Hvj Hle) as Hwall.
    exists ti, tj.
    split; [exact Hti|]. split; [exact Htj|]. split; [exact Hzi|].
    split; [exact Hzj|]. split; [exact Hle|]. split.
    + intros Hoff. unfold timestamp_seconds. lia.
    + intros Hutc. unfold timestamp_seconds, utcoffset.
      rewrite Hzi, Hzj, Hutc. lia.
  - intros candidate end_day work g g' sec_min sec_max z r Hr.
    apply _next_valid_datetime_Ok in Hr. destruct Hr as [Hle Hon]. split.
    + apply datetime_leb_le. exact Hle.
    + intros Hv Hoff. destruct (Hon Hv) as (hrs & _ & _ & Hvr & _).
      pose proof (dt_le_wall _ _ Hv Hvr Hle) as Hwall.
      unfold timestamp_seconds. lia.
Qed.

(** C5, amended. Whenever [compute_timestamps] returns in synthetic mode
    for a non-empty list of commits, every commit has a value; every
    value carries the zone of the calendar, its date has an enabled work
    block and its time of day lies between the block's start minute
    (second 0) and its end minute (second 59). These are the local date
    and time, in that zone, of the instant of the value whenever its time
    of day exists in the zone on that date, and always when the calendar
    is in UTC. The property needs nothing from validation. *)
Theorem synthetic_timeline_in_work_windows
  (vc : ValidatedConfig) (ent : entropy) (commits : list Commit)
  (m : gmap string datetime) :
  mode (timestamp vc) = "synthetic"%string ->
  commits <> [] ->
  compute_timestamps ent commits vc = Ok m ->
  exists cal work,
    calendar vc = Some cal /\ work_patterns vc = Some work
    /\ (forall c, c ∈ commits -> is_Some (m !! hash c))
    /\ (forall (h : string) (t : datetime), m !! h = Some t ->
          dt_tz t = tz cal
          /\ on_work_day work t
          /\ (exists_in_zone zone_utcoffset zone_offset_at t ->
              on_work_day work
                (local_datetime zone_utcoffset zone_offset_at (tz cal) t))
          /\ (tz cal = tz_utc ->
              on_work_day work
                (local_datetime zone_utcoffset zone_offset_at (tz cal) t))).
Proof.
  intros Hm Hne H.
  destruct (synthetic_timeline_wall_clock_windows vc ent commits m Hm Hne H)
    as (work & Hw & Hsome & Hfields).
  destruct (synthetic_stamps_zone vc ent commits m Hm Hne H) as (cal & Hcal & Hz).
  exists cal, work.
  split; [exact Hcal|]. split; [exact Hw|]. split; [exact Hsome|].
  intros h t Ht. destruct (Hz h t Ht) as [Hv Htz].
  pose proof (Hfields h t Ht) as Hon.
  split; [exact Htz|]. split; [exact Hon|]. split.
  - intros Hex. rewrite <- Htz, (local_datetime_exists t Hv Hex). exact Hon.
  - intros Hutc. rewrite <- Htz, (local_datetime_exists t Hv).
    + exact Hon.
    + apply exists_in_zone_utc. rewrite Htz. exact Hutc.
Qed.

End Instants.

(** * The further properties on concrete inputs *)

(** X1 on a window that opens on a Saturday, with work on weekdays. *)
Lemma _next_enabled_day_first_witness :
  Cases.saturday_6th <= 738893 <= Cases.wednesday_10th
  /\ enabled (_work_block_for_day 738893 Cases.weekdays_only) = true
  /\ forall d', Cases.saturday_6th <= d' < 738893 ->
       enabled (_work_block_for_day d' Cases.weekdays_only) = false.
Proof.
  apply (_next_enabled_day_first Cases.saturday_6th Cases.wednesday_10th 738893
           Cases.weekdays_only).
  vm_compute. reflexivity.
Defined.

(** X2 on the same window, for the Monday in it. *)
Lemma _next_enabled_day_finds_witness :
  exists d,
    _next_enabled_day Cases.saturday_6th Cases.wednesday_10th Cases.weekdays_only
    = Ok d /\ d <= 738893.
Proof.
  apply (_next_enabled_day_finds Cases.saturday_6th Cases.wednesday_10th 738893
           Cases.weekdays_only).
  - unfold Cases.saturday_6th. lia.
  - unfold Cases.wednesday_10th, date_max. lia.
  - unfold Cases.saturday_6th, Cases.wednesday_10th. lia.
  - reflexivity.
Defined.

(** X3 on the five commits of the specification's scenario. *)
Lemma synthetic_timeline_within_calendar_witness :
  compute_timestamps (RT := Demo.runtime) 0 Demo.commits5 Demo.synthetic_vc
    = Ok Demo.stamps5
  /\ forall (h : string) (t : datetime), Demo.stamps5 !! h = Some t ->
       cal_start Cases.calendar5 <= dt_date t <= cal_end Cases.calendar5
       /\ dt_tz t = tz Cases.calendar5.
Proof.
  split; [vm_compute; reflexivity|].
  apply (synthetic_timeline_within_calendar (RT := Demo.runtime)
           (Laws := demo_runtime_laws)
           Demo.synthetic_cfg Demo.synthetic_vc 0 Demo.commits5 Demo.stamps5
           Cases.calendar5).
  - vm_compute. reflexivity.
  - reflexivity.
  - reflexivity.
  - vm_compute. reflexivity.
Defined.

(** X4 on the same scenario: gaps of at least 25 minutes and 5 seconds. *)
Lemma synthetic_timeline_minimum_gap_witness :
  compute_timestamps (RT := Demo.runtime) 0 Demo.commits5 Demo.synthetic_vc
    = Ok Demo.stamps5
  /\ forall (i : nat) (ci cj : Commit),
       Demo.commits5 !! i = Some ci -> Demo.commits5 !! S i = Some cj ->
       exists ti tj,
         Demo.stamps5 !! hash ci = Some ti /\ Demo.stamps5 !! hash cj = Some tj
         /\ wall_seconds ti
            + (gap_minutes_min Cases.randomness42 * 60
               + seconds_min Cases.randomness42)
            <= wall_seconds tj.
Proof.
  split; [vm_compute; reflexivity|].
  apply (synthetic_timeline_minimum_gap (RT := Demo.runtime)
           (Laws := demo_runtime_laws)
           Demo.synthetic_vc 0 Demo.commits5 Demo.stamps5 Cases.randomness42).
  - reflexivity.
  - reflexivity.
  - apply (bool_decide_unpack _). vm_compute. exact I.
  - vm_compute. reflexivity.
Defined.

(** X5 on the same scenario. *)
Lemma compute_timestamps_keys_witness :
  compute_timestamps (RT := Demo.runtime) 0 Demo.commits5 Demo.synthetic_vc
    = Ok Demo.stamps5
  /\ forall h : string,
       is_Some (Demo.stamps5 !! h) <-> h ∈ hash <$> Demo.commits5.
Proof.
  split; [vm_compute; reflexivity|].
  apply (compute_timestamps_keys (RT := Demo.runtime) (Laws := demo_runtime_laws)
           0 Demo.commits5 Demo.synthetic_vc Demo.stamps5).
  vm_compute. reflexivity.
Defined.

(** X6 on the scenario's document and on the one with work on Saturdays
    only, whose calendar is exhausted. *)
Lemma compute_timestamps_validated_outcome_witness :
  ((exists m, compute_timestamps (RT := Demo.runtime) 0 Demo.commits5
                Demo.saturday_only_vc = Ok m)
   \/ compute_timestamps (RT := Demo.runtime) 0 Demo.commits5 Demo.saturday_only_vc
      = Raise (EngineError "Synthetic calendar window exhausted")
   \/ compute_timestamps (RT := Demo.runtime) 0 Demo.commits5 Demo.saturday_only_vc
      = Raise OverflowError).
Proof.
  apply (compute_timestamps_validated_outcome (RT := Demo.runtime)
           (Laws := demo_runtime_laws)
           Demo.saturday_only_cfg Demo.saturday_only_vc 0 Demo.commits5).
  vm_compute. reflexivity.
Defined.

(** X7 on a candidate on Monday evening, which the walk moves to the
    window of Tuesday. *)
Lemma _next_valid_datetime_fixed_point_witness :
  _next_valid_datetime (RT := Demo.runtime) Cases.monday_evening 738890
    Cases.weekdays_only 7 5 55 tz_utc = Ok Cases.walked
  /\ forall (g2 : Z) (sec_min2 sec_max2 : Z),
       _next_valid_datetime (RT := Demo.runtime) (fst Cases.walked) 738890
         Cases.weekdays_only g2 sec_min2 sec_max2 tz_utc
       = Ok (fst Cases.walked, g2).
Proof.
  split; [vm_compute; reflexivity|].
  apply (_next_valid_datetime_fixed_point (RT := Demo.runtime)
           (Laws := demo_runtime_laws)
           Cases.monday_evening 738890 Cases.weekdays_only 7 (snd Cases.walked)
           5 55 tz_utc (fst Cases.walked)).
  vm_compute. reflexivity.
Defined.

(** X8 on the scenario's document, whose calendar of five days opens on
    a work day. *)
Lemma synthetic_single_commit_succeeds_witness :
  exists t,
    compute_timestamps (RT := Demo.runtime) 0 [Demo.commit "a1" 0] Demo.synthetic_vc
    = Ok {[ hash (Demo.commit "a1" 0) := t ]}
    /\ _next_enabled_day (cal_start Cases.calendar5) (cal_end Cases.calendar5)
         Cases.weekdays_only = Ok (dt_date t).
Proof.
  apply (synthetic_single_commit_succeeds (RT := Demo.runtime)
           (Laws := demo_runtime_laws)
           Demo.synthetic_cfg Demo.synthetic_vc 0 (Demo.commit "a1" 0)
           Cases.calendar5 Cases.weekdays_only).
  - vm_compute. reflexivity.
  - reflexivity.
  - reflexivity.
  - reflexivity.
  - right. exists 738886. split; [simpl; lia | reflexivity].
Defined.

(** X9 on the scenario's document. *)
Lemma validate_config_work_patterns_witness :
  exists work,
    work_patterns Demo.synthetic_vc = Some work
    /\ (forall day : date, well_formed_block (_work_block_for_day day work))
    /\ (forall day : date, exists e, day <= e <= day + 6
          /\ enabled (_work_block_for_day e work) = true).
Proof.
  apply (validate_config_work_patterns (RT := Demo.runtime)
           Demo.synthetic_cfg Demo.synthetic_vc).
  - vm_compute. reflexivity.
  - reflexivity.
Defined.

(** X10 on an author-mode document that carries a calendar. *)
Lemma validate_config_only_ValidationError_witness :
  exists path msg,
    ValidationError "calendar" "calendar is not allowed in author mode"
    = ValidationError path msg.
Proof.
  apply (validate_config_only_ValidationError (RT := Demo.runtime)
           Demo.author_with_calendar_cfg).
  vm_compute. reflexivity.
Defined.

(** * The properties of the interface and of the report on concrete inputs *)

(** [int] of the demonstration runtime reads a number on two digits. *)
Lemma demo_int_of_pad2 (n : Z) :
  0 <= n <= 59 -> int_of_str (PyRuntime := Demo.runtime) (pad2 n) = Some n.
Proof.
  intros Hn. assert (Hk : exists k : nat, (k < 60)%nat /\ n = Z.of_nat k).
  { exists (Z.to_nat n). lia. }
  destruct Hk as (k & Hk & ->).
  do 60 (destruct k as [|k]; [reflexivity|]). lia.
Qed.

(** X11 on a seconds range given upside down and out of bounds. *)
Lemma _normalise_range_valid_witness :
  0 <= 59 <= 59 /\ (forall c, Some 59 = Some c -> 59 <= c).
Proof.
  apply (_normalise_range_valid (Some 70) (Some 10)
           _DEFAULT_SEC_MIN _DEFAULT_SEC_MAX 0 (Some 59) 59 59).
  - intros c [= <-]. lia.
  - reflexivity.
Defined.

(** X12 on the clamps of the seconds range. *)
Lemma _normalise_range_keeps_valid_witness :
  (forall a b : Z,
     0 <= a <= b -> (forall c, Some 59 = Some c -> b <= c) ->
     _normalise_range (Some a) (Some b) _DEFAULT_SEC_MIN _DEFAULT_SEC_MAX 0 (Some 59)
     = (a, b))
  /\ (forall rmin rmax : Z,
        _normalise_range (Some 70) (Some 10) _DEFAULT_SEC_MIN _DEFAULT_SEC_MAX
          0 (Some 59) = (rmin, rmax) ->
        _normalise_range (Some rmin) (Some rmax) _DEFAULT_SEC_MIN _DEFAULT_SEC_MAX
          0 (Some 59) = (rmin, rmax)).
Proof.
  apply (_normalise_range_keeps_valid (Some 70) (Some 10)
           _DEFAULT_SEC_MIN _DEFAULT_SEC_MAX 0 (Some 59)).
  intros c [= <-]. lia.
Defined.

(** X14 on the weekday block of the sample form. *)
Lemma _build_work_block_validates_witness :
  exists block,
    _build_work_block Samples.form "weekdays" = Returns block
    /\ _validate_work_block (RT := Demo.runtime) "work_patterns.weekdays" block
       = Ok (mk_ParsedWorkBlock true
               (Some (mk_ParsedWorkHours (mk_time 9 0 0) (mk_time 17 0 0)))).
Proof.
  apply (proj2 (_build_work_block_validates (RT := Demo.runtime) demo_int_of_pad2
                  Samples.form "weekdays" "work_patterns.weekdays")
           (mk_time 9 0 0) (mk_time 17 0 0)).
  - reflexivity.
  - reflexivity.
  - reflexivity.
  - unfold valid_time. simpl. lia.
  - unfold valid_time. simpl. lia.
  - simpl. lia.
Defined.

(** X15 on the Saturday block of the sample form, from 10:00:15 to
    10:00:45. *)
Lemma _build_work_block_same_minute_rejected_witness :
  exists block,
    _build_work_block Samples.form "saturday" = Returns block
    /\ _validate_work_block (RT := Demo.runtime) "work_patterns.saturday" block
       = Raise (ValidationError ("work_patterns.saturday" +:+ ".hours.end")
                  "end must be after hours.start").
Proof.
  apply (_build_work_block_same_minute_rejected (RT := Demo.runtime)
           demo_int_of_pad2 Samples.form "saturday" "work_patterns.saturday"
           (mk_time 10 0 15) (mk_time 10 0 45)).
  - reflexivity.
  - reflexivity.
  - reflexivity.
  - unfold valid_time. simpl. lia.
  - unfold valid_time. simpl. lia.
  - simpl. lia.
Defined.

(** X16 on the five commits of the scenario, in synthetic mode. *)
Lemma build_entries_of_plan_witness :
  exists entries,
    build_entries Samples.datetime_ne Demo.commits5 Demo.stamps5 12 = Returns entries
    /\ length entries = length Demo.commits5
    /\ StronglySorted by_index entries
    /\ forall c, c ∈ Demo.commits5 ->
         exists e, e ∈ entries
           /\ DryRunEntry.index e = index c
           /\ Demo.stamps5 !! hash c = Some (DryRunEntry.final_timestamp e)
           /\ DryRunEntry.author_date e = author_date c
           /\ DryRunEntry.committer_date e = committer_date c.
Proof.
  apply (build_entries_of_plan Samples.datetime_ne (RT := Demo.runtime)
           (Laws := demo_runtime_laws) 0 Demo.commits5 Demo.synthetic_vc
           Demo.stamps5 12).
  - lia.
  - vm_compute. reflexivity.
Defined.

Lemma demo_commits5_sorted :
  StronglySorted (fun a b : Commit => index a <= index b) Demo.commits5.
Proof.
  unfold Demo.commits5.
  repeat (constructor; [|repeat (constructor; [simpl; lia|]); constructor]).
  constructor.
Qed.

(** X17 on the same commits, which come in the order of their index. *)
Lemma build_entries_keeps_order_witness :
  exists entries,
    build_entries Samples.datetime_ne Demo.commits5 Demo.stamps5 12 = Returns entries
    /\ forall (i : nat) (c : Commit), Demo.commits5 !! i = Some c ->
         exists e, entries !! i = Some e
           /\ DryRunEntry.index e = index c
           /\ Demo.stamps5 !! hash c = Some (DryRunEntry.final_timestamp e)
           /\ DryRunEntry.hash_prefix e
              = String.substring 0 (Z.to_nat 12) (hash c).
Proof.
  apply (build_entries_keeps_order Samples.datetime_ne (RT := Demo.runtime)
           (Laws := demo_runtime_laws) 0 Demo.commits5 Demo.synthetic_vc
           Demo.stamps5 12).
  - lia.
  - exact demo_commits5_sorted.
  - vm_compute. reflexivity.
Defined.

Lemma samples_datetime_ne_refl (d : datetime) : Samples.datetime_ne d d = false.
Proof.
  unfold Samples.datetime_ne, datetime_compare. rewrite !Z.compare_refl. reflexivity.
Qed.

(** X18 on the same commits in author mode: every entry is marked
    changed, the committer dates being an hour and a half after the
    author dates. *)
Lemma build_entries_changed_copy_modes_witness :
  build_entries Samples.datetime_ne Demo.commits5 Samples.author_stamps 12
    = Returns Samples.author_entries
  /\ forall e, e ∈ Samples.author_entries ->
       DryRunEntry.final_timestamp e = DryRunEntry.author_date e
       /\ DryRunEntry.changed e
          = Samples.datetime_ne (DryRunEntry.committer_date e)
              (DryRunEntry.author_date e).
Proof.
  split; [vm_compute; reflexivity|].
  apply (proj1 (build_entries_changed_copy_modes Samples.datetime_ne
                  (RT := Demo.runtime) (Laws := demo_runtime_laws)
                  0 Demo.commits5 Demo.author_vc Samples.author_stamps 12
                  Samples.author_entries
                  samples_datetime_ne_refl
                  (NoDup_content_addressed _ demo_commits5_NoDup)
                  ltac:(vm_compute; reflexivity)
                  ltac:(vm_compute; reflexivity))).
  reflexivity.
Defined.

(** X19 on a table of three columns and two rows. *)
Lemma _format_table_rectangular_witness :
  exists lines,
    _format_table Samples.headers Samples.rows = Some lines
    /\ length lines = S (S (length Samples.rows))
    /\ forall l1 l2, l1 ∈ lines -> l2 ∈ lines ->
         String.length l1 = String.length l2.
Proof.
  apply (_format_table_rectangular Samples.headers Samples.rows).
  repeat constructor.
Defined.

(** * The properties of the history and of the command line on concrete inputs *)

(** X20 on a log of three lines. *)
Lemma load_commit_history_numbered_witness :
  length History.commits = length History.log
  /\ forall (i : nat) (c : Commit), History.commits !! i = Some c ->
       index c = Z.of_nat i
       /\ exists line, History.log !! i = Some line
            /\ head (split_on _FIELD_SEP line) = Some (hash c)
            /\ length (split_on _FIELD_SEP line) = 9%nat.
Proof.
  apply (load_commit_history_numbered (RT := Demo.runtime)
           History.fromisoformat History.log History.commits).
  vm_compute. reflexivity.
Defined.

Lemma demo_commits10_sorted : StronglySorted index_lt Demo.commits10.
Proof.
  apply (numbered_from_sorted Demo.commits10 0).
  intros i c Hi.
  do 10 (destruct i as [|i]; [injection Hi as <-; reflexivity|]).
  discriminate Hi.
Qed.

Lemma demo_commits10_NoDup : NoDup (hash <$> Demo.commits10).
Proof. apply (bool_decide_unpack _). vm_compute. exact I. Qed.

(** X21 on ten commits and the fraction 0.7, which selects the first
    seven. *)
Lemma apply_scope_keeps_order_witness :
  (StronglySorted index_lt (take 7 Demo.commits10)
   /\ StronglySorted index_lt (drop 7 Demo.commits10))
  /\ (NoDup (hash <$> take 7 Demo.commits10)
      /\ NoDup (hash <$> drop 7 Demo.commits10)
      /\ forall c, c ∈ take 7 Demo.commits10 ->
           hash c ∉ hash <$> drop 7 Demo.commits10).
Proof.
  pose proof (apply_scope_keeps_order Demo.commits10 Demo.f07
                (take 7 Demo.commits10) (drop 7 Demo.commits10)
                ltac:(vm_compute; reflexivity)) as [Hsorted Hdistinct].
  split.
  - apply Hsorted. exact demo_commits10_sorted.
  - apply Hdistinct. exact demo_commits10_NoDup.
Defined.

(** X22 on the scenario's document and the log of three lines. *)
Lemma main_endings_witness :
  (exists report,
     main (RT := Demo.runtime) History.fromisoformat Samples.datetime_ne 12 true
       Demo.synthetic_cfg History.log 0 = Exits 0 (Some report))
  \/ main (RT := Demo.runtime) History.fromisoformat Samples.datetime_ne 12 true
       Demo.synthetic_cfg History.log 0 = Exits 2 None
  \/ main (RT := Demo.runtime) History.fromisoformat Samples.datetime_ne 12 true
       Demo.synthetic_cfg History.log 0 = Uncaught_exn OverflowError.
Proof.
  apply (main_endings (RT := Demo.runtime) (Laws := demo_runtime_laws)
           History.fromisoformat Samples.datetime_ne 12 true
           Demo.synthetic_cfg History.log 0).
  - vm_compute. reflexivity.
  - apply Z.leb_le. vm_compute. reflexivity.
Defined.

(** X23 on the same run. *)
Lemma main_report_in_history_order_witness :
  main (RT := Demo.runtime) History.fromisoformat Samples.datetime_ne 12 true
    Demo.synthetic_cfg History.log 0 = Exits 0 (Some History.report)
  /\ exists k : Z,
       0 <= k
       /\ k + Z.of_nat (length History.report) <= Z.of_nat (length History.log)
       /\ forall (i : nat) (e : DryRunEntry.t), History.report !! i = Some e ->
            DryRunEntry.index e = k + Z.of_nat i.
Proof.
  split; [vm_compute; reflexivity|].
  apply (main_report_in_history_order (RT := Demo.runtime)
           (Laws := demo_runtime_laws)
           History.fromisoformat Samples.datetime_ne 12 true
           Demo.synthetic_cfg History.log 0 History.report).
  vm_compute. reflexivity.
Defined.

(** X24 on an author-mode form in which synthetic fields were left
    filled. *)
Lemma build_policy_dict_copy_modes_witness :
  exists policy cfg,
    build_policy_dict Policy.date_ymd Policy.author_form = Returns policy
    /\ policy_config policy = Some cfg
    /\ cfg_calendar cfg = None /\ cfg_work_patterns cfg = None
    /\ cfg_randomness cfg = None
    /\ validate_config (RT := Demo.runtime) cfg
       = Ok (mk_ValidatedConfig (mk_TimestampConfig (Form.mode Policy.author_form))
               (mk_ScopeConfig (Form.scope_fraction Policy.author_form))
               None None None).
Proof.
  apply (build_policy_dict_copy_modes (RT := Demo.runtime) Policy.date_ymd
           Policy.author_form).
  - left. reflexivity.
  - reflexivity.
Defined.

(** X25 on a form for the first week of January 2024. *)
Lemma build_policy_dict_synthetic_validates_witness :
  exists policy cfg vc work rnd,
    build_policy_dict Policy.date_ymd Policy.form = Returns policy
    /\ policy_config policy = Some cfg
    /\ validate_config (RT := Demo.runtime) cfg = Ok vc
    /\ mode (timestamp vc) = "synthetic"%string
    /\ fraction (scope vc) = Form.scope_fraction Policy.form
    /\ calendar vc = Some (mk_ParsedCalendar 738886 738892 "UTC" tz_utc)
    /\ work_patterns vc = Some work
    /\ enabled (weekdays work) = Form.weekdays_enabled Policy.form
    /\ enabled (saturday work) = Form.saturday_enabled Policy.form
    /\ enabled (sunday work) = Form.sunday_enabled Policy.form
    /\ randomness vc = Some rnd
    /\ seed rnd = Some (default (strftime_Ymd_int Policy.date_ymd 738886)
                          (Form.randomness_seed Policy.form)).
Proof.
  apply (build_policy_dict_synthetic_validates (RT := Demo.runtime)
           Policy.date_ymd demo_int_of_pad2 Policy.form 738886 738892).
  - vm_compute. reflexivity.
  - vm_compute. reflexivity.
  - reflexivity.
  - reflexivity.
  - reflexivity.
  - reflexivity.
  - reflexivity.
  - reflexivity.
  - lia.
  - reflexivity.
  - intros _. exists (mk_time 9 0 0), (mk_time 17 30 0).
    split; [reflexivity|]. split; [reflexivity|].
    unfold valid_time. simpl. lia.
  - intros H. discriminate H.
  - intros H. discriminate H.
Defined.

(** X26 on the plan of the scenario's document for the history of three
    commits. *)
Lemma _build_rewrite_plan_complete_witness :
  exists commits selected untouched,
    load_commit_history (RT := Demo.runtime) History.fromisoformat History.log
    = Returns commits
    /\ apply_scope commits (fraction (cfg_scope Demo.synthetic_cfg))
       = Ok (selected, untouched)
    /\ RewritePlan.selected_count Plan.plan = Z.of_nat (length selected)
    /\ RewritePlan.total_commits Plan.plan = Z.of_nat (length History.log)
    /\ RewritePlan.selected_count Plan.plan <= RewritePlan.total_commits Plan.plan
    /\ forall k : string,
         is_Some (RewritePlan.date_map Plan.plan !! k)
         <-> k ∈ (fun c => Plan.lower (hash c)) <$> selected.
Proof.
  apply (proj2 (_build_rewrite_plan_complete (RT := Demo.runtime)
                  (Laws := demo_runtime_laws)
                  History.fromisoformat Plan.lower Plan.zone_utcoffset
                  Demo.synthetic_cfg History.log 0) Plan.plan).
  vm_compute. reflexivity.
Defined.

(** X27 on the three commits of the history, in the UTC calendar of the
    scenario. *)
Lemma synthetic_git_dates_utc_witness :
  compute_timestamps (RT := Demo.runtime) 0 History.commits Demo.synthetic_vc
    = Ok Plan.stamps3
  /\ (forall (h : string) (t : datetime), Plan.stamps3 !! h = Some t ->
        _format_git_date Plan.zone_utcoffset t
        = (pretty (timestamp_seconds Plan.zone_utcoffset t) +:+ " +0000")%string)
  /\ forall (i : nat) (ci cj : Commit),
       History.commits !! i = Some ci -> History.commits !! S i = Some cj ->
       exists ti tj,
         Plan.stamps3 !! hash ci = Some ti /\ Plan.stamps3 !! hash cj = Some tj
         /\ timestamp_seconds Plan.zone_utcoffset ti
            + (gap_minutes_min Cases.randomness42 * 60
               + seconds_min Cases.randomness42)
            <= timestamp_seconds Plan.zone_utcoffset tj.
Proof.
  split; [vm_compute; reflexivity|].
  apply (synthetic_git_dates_utc (RT := Demo.runtime) (Laws := demo_runtime_laws)
           Plan.zone_utcoffset Demo.synthetic_vc 0 History.commits Plan.stamps3
           Cases.calendar5 Cases.randomness42).
  - reflexivity.
  - reflexivity.
  - reflexivity.
  - reflexivity.
  - apply (bool_decide_unpack _). vm_compute. exact I.
  - vm_compute. reflexivity.
Defined.

(** ** The timeline across a change of offset *)

Lemma paris_runtime_laws : PyRuntimeLaws Paris.runtime.
Proof.
  split.
  - intros g a b Hab. simpl. unfold Demo.lcg_draw. simpl.
    pose proof (Z.mod_pos_bound (Demo.lcg_next g) (b - a + 1) ltac:(lia)). lia.
  - intros s d H. exact (strptime_ymd_range (PyRuntimeLaws := demo_runtime_laws) s d H).
Qed.

Lemma paris_validate : validate_config (RT := Paris.runtime) Paris.cfg = Ok Paris.vc.
Proof. vm_compute. reflexivity. Qed.

Lemma paris_stamps2 :
  compute_timestamps (RT := Paris.runtime) 0 Paris.commits2 Paris.vc
  = Ok Paris.stamps2.
Proof. vm_compute. reflexivity. Qed.

Lemma paris_commits2_NoDup : NoDup (hash <$> Paris.commits2).
Proof. apply (bool_decide_unpack _). vm_compute. exact I. Qed.

(** C4, amended, on the two commits of the Sunday in Europe/Paris. *)
Lemma synthetic_timeline_non_decreasing_witness :
  exists cal,
    calendar Paris.vc = Some cal
    /\ forall (i j : nat) (ci cj : Commit),
         (i <= j)%nat ->
         Paris.commits2 !! i = Some ci -> Paris.commits2 !! j = Some cj ->
         exists ti tj,
           Paris.stamps2 !! hash ci = Some ti /\ Paris.stamps2 !! hash cj = Some tj
           /\ dt_tz ti = tz cal /\ dt_tz tj = tz cal
           /\ datetime_leb ti tj = true
           /\ (utcoffset Paris.zone_utcoffset tj <= utcoffset Paris.zone_utcoffset ti ->
               timestamp_seconds Paris.zone_utcoffset ti
               <= timestamp_seconds Paris.zone_utcoffset tj)
           /\ (tz cal = tz_utc ->
               timestamp_seconds Paris.zone_utcoffset ti
               <= timestamp_seconds Paris.zone_utcoffset tj).
Proof.
  apply (synthetic_timeline_non_decreasing (RT := Paris.runtime)
           (Laws := paris_runtime_laws) Paris.zone_utcoffset
           Paris.cfg Paris.vc 0 Paris.commits2 Paris.stamps2).
  - vm_compute. reflexivity.
  - reflexivity.
  - discriminate.
  - apply (bool_decide_unpack _). vm_compute. exact I.
  - vm_compute. reflexivity.
Defined.

(** C4 as stated fails in a zone that changes its offset. The policy
    [Paris.cfg] is accepted by [validate_config]; the engine gives the
    first commit 02:54:46 and the second 03:00:50 of 31 March 2024 in
    Europe/Paris, in order on the wall clock. The first is read with the
    offset of one hour, the second with that of two: the instants are
    01:54:46 UTC and then 01:00:50 UTC, and [_format_git_date] writes
    the second commit 3236 seconds before the first. *)
Lemma synthetic_instants_decrease_at_spring_forward :
  validate_config (RT := Paris.runtime) Paris.cfg = Ok Paris.vc
  /\ mode (timestamp Paris.vc) = "synthetic"%string
  /\ NoDup (hash <$> Paris.commits2)
  /\ exists m,
       compute_timestamps (RT := Paris.runtime) 0 Paris.commits2 Paris.vc = Ok m
       /\ m !! "a1"%string = Some Paris.first_stamp
       /\ m !! "b2"%string = Some Paris.second_stamp
       /\ datetime_leb Paris.first_stamp Paris.second_stamp = true
       /\ timestamp_seconds Paris.zone_utcoffset Paris.first_stamp = 1711850086
       /\ timestamp_seconds Paris.zone_utcoffset Paris.second_stamp = 1711846850
       /\ timestamp_seconds Paris.zone_utcoffset Paris.second_stamp
          < timestamp_seconds Paris.zone_utcoffset Paris.first_stamp
       /\ _format_git_date Paris.zone_utcoffset Paris.first_stamp
          = "1711850086 +0100"%string
       /\ _format_git_date Paris.zone_utcoffset Paris.second_stamp
          = "1711846850 +0200"%string.
Proof.
  split; [exact paris_validate|]. split; [reflexivity|].
  split; [exact paris_commits2_NoDup|].
  exists Paris.stamps2. split; [exact paris_stamps2|].
  split; [reflexivity|]. split; [reflexivity|]. split; [reflexivity|].
  split; [vm_compute; reflexivity|]. split; [vm_compute; reflexivity|].
  split; [vm_compute; reflexivity|].
  split; vm_compute; reflexivity.
Qed.

(** C5, amended, on the five commits of the scenario, whose calendar is
    in UTC. *)
Lemma synthetic_timeline_in_work_windows_witness :
  exists cal work,
    calendar Demo.synthetic_vc = Some cal
    /\ work_patterns Demo.synthetic_vc = Some work
    /\ (forall c, c ∈ Demo.commits5 -> is_Some (Demo.stamps5 !! hash c))
    /\ (forall (h : string) (t : datetime), Demo.stamps5 !! h = Some t ->
          dt_tz t = tz cal
          /\ on_work_day work t
          /\ (exists_in_zone Paris.zone_utcoffset Paris.zone_offset_at t ->
              on_work_day work
                (local_datetime Paris.zone_utcoffset Paris.zone_offset_at (tz cal) t))
          /\ (tz cal = tz_utc ->
              on_work_day work
                (local_datetime Paris.zone_utcoffset Paris.zone_offset_at (tz cal) t))).
Proof.
  apply (synthetic_timeline_in_work_windows (RT := Demo.runtime)
           (Laws := demo_runtime_laws) Paris.zone_utcoffset Paris.zone_offset_at
           Demo.synthetic_vc 0 Demo.commits5 Demo.stamps5).
  - reflexivity.
  - discriminate.
  - vm_compute. reflexivity.
Defined.

(** C5 as stated fails in a zone that skips an hour. In the run of
    [Paris.cfg] the first commit is given 02:54:46 on 31 March 2024, a
    time of day inside the work window 01:30 to 03:30 that does not
    exist in Europe/Paris on that date. The instant it denotes is
    01:54:46 UTC, when the local clocks show 03:54:46: after the end of
    the window. *)
Lemma synthetic_local_time_leaves_window_at_spring_forward :
  validate_config (RT := Paris.runtime) Paris.cfg = Ok Paris.vc
  /\ mode (timestamp Paris.vc) = "synthetic"%string
  /\ calendar Paris.vc
     = Some (mk_ParsedCalendar Paris.march_31 Paris.march_31 "Europe/Paris" Paris.zone)
  /\ work_patterns Paris.vc = Some Paris.work
  /\ exists m,
       compute_timestamps (RT := Paris.runtime) 0 Paris.commits2 Paris.vc = Ok m
       /\ m !! "a1"%string = Some Paris.first_stamp
       /\ on_work_day Paris.work Paris.first_stamp
       /\ ~ exists_in_zone Paris.zone_utcoffset Paris.zone_offset_at Paris.first_stamp
       /\ local_datetime Paris.zone_utcoffset Paris.zone_offset_at Paris.zone
            Paris.first_stamp
          = mk_datetime Paris.march_31 (mk_time 3 54 46) Paris.zone
       /\ ~ on_work_day Paris.work
            (local_datetime Paris.zone_utcoffset Paris.zone_offset_at Paris.zone
               Paris.first_stamp).
Proof.
  split; [exact paris_validate|]. split; [reflexivity|].
  split; [reflexivity|]. split; [reflexivity|].
  exists Paris.stamps2. split; [exact paris_stamps2|].
  split; [reflexivity|]. split.
  { exists Paris.sunday_hours. split; [reflexivity|]. split; [reflexivity|].
    unfold in_work_window, valid_time. vm_compute.
    repeat split; intros H; discriminate H. }
  split.
  { unfold exists_in_zone. vm_compute. intros H. discriminate H. }
  split; [vm_compute; reflexivity|].
  intros (hrs & _ & Hh & _ & _ & Hend).
  vm_compute in Hh. injection Hh as <-.
  vm_compute in Hend. apply Hend. reflexivity.
Qed.
